(** * Samsara / SFMTA relay: a shallow embedding of [application.py]

    The development follows the Python module top-down:
    - [Geo]      : [distance] (great-circle distance, lines 109-129);
    - the run-time model: exceptions, the global dictionaries, the
      replies of the outside world and a state-and-exception monad;
    - [get_vehicle_details], [send_error_email], [find_stop_id],
      [get_all_vehicle_data], [build_sfmta_payload], [push_vehicle_data],
      [push_all_vehicle_data] and the loop of [push_all_data].

    Numbers.  Python floats are idealised as real numbers ([R]): the
    arithmetic of [distance] is read as exact arithmetic, and the one place
    where rounding changes what the program does, a [math.sqrt] that leaves
    its domain, is decided by the world.  Values of [time.time()] are clock
    readings in whole seconds ([Z]).  Stop ids and the provider id are
    integers ([Z]).

    Threads.  The tasks of the thread pool take their steps in the order a
    scheduler picks; every global read or written and every call to a
    collaborator is a step of its own. *)

From Stdlib Require Import ZArith Reals Lra Lia String Ascii List.
From stdpp Require Import base gmap sets list strings pretty.

Open Scope Z_scope.

(** ** Great-circle distance *)

Module Geo.

Open Scope R_scope.

(** [math.radians]. *)
Definition radians (x : R) : R := x * (PI / 180).

(** [math.atan2 y x] on the reals: the angle of the point [(x, y)]. *)
Definition atan2 (y x : R) : R :=
  if Rlt_dec 0 x then atan (y / x)
  else if Rlt_dec x 0 then
         (if Rle_dec 0 y then atan (y / x) + PI else atan (y / x) - PI)
  else if Rlt_dec 0 y then PI / 2
  else if Rlt_dec y 0 then - (PI / 2)
  else 0.

(** [radius = 6371 * 1000]. *)
Definition radius : R := 6371 * 1000.

(** The haversine term [a] of lines 121-124. *)
Definition haversine (lat1 lon1 lat2 lon2 : R) : R :=
  let dlat := radians (lat2 - lat1) in
  let dlon := radians (lon2 - lon1) in
  sin (dlat / 2) * sin (dlat / 2)
  + cos (radians lat1) * cos (radians lat2) * sin (dlon / 2) * sin (dlon / 2).

(** The value of [distance(origin_lat, origin_long, dest_lat, dest_long)]; a
    JSON [null] (Python [None]) coordinate is [None].  The calls of the
    program go through [call_distance] below, which adds the exception of
    line 125. *)
Definition distance (origin_lat origin_long dest_lat dest_long : option R) : R :=
  match origin_lat, origin_long, dest_lat, dest_long with
  | Some lat1, Some lon1, Some lat2, Some lon2 =>
      let a := haversine lat1 lon1 lat2 lon2 in
      let c := 2 * atan2 (sqrt a) (sqrt (1 - a)) in
      radius * c
  | _, _, _, _ => 99999
  end.

End Geo.

(** ** Run-time model *)

(** Exceptions.  Only the class and the text of [str(e)] are observable in
    the program; [KeyError] keeps the missing key. *)
Inductive exn : Type :=
| KeyError (key : string)
| ValueError (msg : string)
| IOError (msg : string)
| HTTPError (msg : string)
| SMTPException (msg : string).

Definition squote : string := String "'"%char EmptyString.
Definition dquote : string := String (ascii_of_nat 34) EmptyString.
Definition newline : string := String (ascii_of_nat 10) EmptyString.

(** [str(e)]: a [KeyError] prints the [repr] of its key. *)
Definition str_exn (e : exn) : string :=
  match e with
  | KeyError key => squote +:+ key +:+ squote
  | ValueError msg | IOError msg | HTTPError msg | SMTPException msg => msg
  end.

(** Python values that reach the outbound payload. *)
Inductive pyval : Type :=
| PInt (n : Z)
| PStr (s : string)
| PFloat (x : R)
| PNone.

(** A JSON number-or-null as a Python value. *)
Definition of_coord (c : option R) : pyval :=
  match c with Some x => PFloat x | None => PNone end.

(** *** Replies of the outside world *)

(** One cell of the roster feed, [entry[column]]: [None] when [$t] is absent. *)
Record gsx_cell : Type := { dollar_t : option string }.

(** One row of the roster feed; a column is [None] when the key is absent. *)
Record sheet_entry : Type := {
  gsx_samsaradeviceid : option gsx_cell;
  gsx_vehicleplacardnumber : option gsx_cell;
  gsx_licenseplatenumber : option gsx_cell;
  gsx_vehicleidname : option gsx_cell;
}.

Record sheet_feed : Type := { entry : option (list sheet_entry) }.
Record sheet_json : Type := { feed : option sheet_feed }.

(** [urllib.urlopen(url)] and what follows from the response: with
    [SheetUnreachable e] the call raises [e]; with [SheetUnreadable code e]
    it returns a response with that status whose [read()] raises [e]; with
    [SheetStatus code body] the response has that status, [read()] returns
    its text and [body] is what [json.loads] makes of the text. *)
Inductive sheet_reply : Type :=
| SheetUnreachable (e : exn)
| SheetUnreadable (code : Z) (e : exn)
| SheetStatus (code : Z) (body : exn + sheet_json).

(** One vehicle of the location response; a field is [None] when the key is
    absent, [latitude] and [longitude] may be JSON [null]. *)
Record vehicle_json : Type := {
  v_id : option string;
  v_latitude : option (option R);
  v_longitude : option (option R);
  v_onTrip : option bool;
}.

Record locations_json : Type := { vehicles : option (list vehicle_json) }.

(** [requests.post], [r.raise_for_status()] and [r.json()] on the location
    endpoint. *)
Inductive samsara_reply : Type :=
| LocationsFail (e : exn)
| LocationsOk (body : locations_json).

(** One allowed stop as stored in [allowed_stops.json]. *)
Record stop_json : Type := {
  StopId : Z;
  StopLocationLatitude : option R;
  StopLocationLongitude : option R;
}.

(** Reading [allowed_stops.json]: [S3Fails] is any exception raised by the
    download, the decoding or the subscripts of lines 207-216 (the [try]
    block of [find_stop_id] changes no global, so where it is raised cannot
    be observed). *)
Inductive s3_reply : Type :=
| S3Fails (e : exn)
| S3Stops (stops : list stop_json).

(** [requests.post] and [r.raise_for_status()] on the telemetry endpoint. *)
Inductive sfmta_reply : Type :=
| TelemetryFail (e : exn)
| TelemetryOk.

Record mail : Type := { subject : string; body : string }.

(** *** Program state *)

Record state : Type := {
  vehicle_ids : gset string;
  placards : gmap string string;
  license_plates : gmap string string;
  vehicle_names : gmap string string;
  vehicle_lat : gmap string (option R);
  vehicle_long : gmap string (option R);
  vehicle_onTrip : gmap string bool;
  LAST_ERROR_EMAIL_TIME : Z;
  clock_reads : nat;
  sheet_calls : nat;
  samsara_calls : nat;
  s3_calls : nat;
  sfmta_calls : nat;
  smtp_calls : nat;
  outbox : list mail;
  accepted : list string;
  slept : list Z;
}.

(** Field updates: [set_x f s] is [s] with field [x] replaced by [f (x s)]. *)
Definition set_vehicle_ids (f : gset string -> gset string) (s : state) : state :=
  {| vehicle_ids := f (vehicle_ids s); placards := placards s; license_plates
     := license_plates s; vehicle_names := vehicle_names s; vehicle_lat :=
     vehicle_lat s; vehicle_long := vehicle_long s; vehicle_onTrip :=
     vehicle_onTrip s; LAST_ERROR_EMAIL_TIME := LAST_ERROR_EMAIL_TIME s;
     clock_reads := clock_reads s; sheet_calls := sheet_calls s; samsara_calls
     := samsara_calls s; s3_calls := s3_calls s; sfmta_calls := sfmta_calls s;
     smtp_calls := smtp_calls s; outbox := outbox s; accepted := accepted s;
     slept := slept s |}.

Definition set_placards (f : gmap string string -> gmap string string) (s : state) : state :=
  {| vehicle_ids := vehicle_ids s; placards := f (placards s); license_plates
     := license_plates s; vehicle_names := vehicle_names s; vehicle_lat :=
     vehicle_lat s; vehicle_long := vehicle_long s; vehicle_onTrip :=
     vehicle_onTrip s; LAST_ERROR_EMAIL_TIME := LAST_ERROR_EMAIL_TIME s;
     clock_reads := clock_reads s; sheet_calls := sheet_calls s; samsara_calls
     := samsara_calls s; s3_calls := s3_calls s; sfmta_calls := sfmta_calls s;
     smtp_calls := smtp_calls s; outbox := outbox s; accepted := accepted s;
     slept := slept s |}.

Definition set_license_plates (f : gmap string string -> gmap string string) (s : state) : state :=
  {| vehicle_ids := vehicle_ids s; placards := placards s; license_plates := f
     (license_plates s); vehicle_names := vehicle_names s; vehicle_lat :=
     vehicle_lat s; vehicle_long := vehicle_long s; vehicle_onTrip :=
     vehicle_onTrip s; LAST_ERROR_EMAIL_TIME := LAST_ERROR_EMAIL_TIME s;
     clock_reads := clock_reads s; sheet_calls := sheet_calls s; samsara_calls
     := samsara_calls s; s3_calls := s3_calls s; sfmta_calls := sfmta_calls s;
     smtp_calls := smtp_calls s; outbox := outbox s; accepted := accepted s;
     slept := slept s |}.

Definition set_vehicle_names (f : gmap string string -> gmap string string) (s : state) : state :=
  {| vehicle_ids := vehicle_ids s; placards := placards s; license_plates :=
     license_plates s; vehicle_names := f (vehicle_names s); vehicle_lat :=
     vehicle_lat s; vehicle_long := vehicle_long s; vehicle_onTrip :=
     vehicle_onTrip s; LAST_ERROR_EMAIL_TIME := LAST_ERROR_EMAIL_TIME s;
     clock_reads := clock_reads s; sheet_calls := sheet_calls s; samsara_calls
     := samsara_calls s; s3_calls := s3_calls s; sfmta_calls := sfmta_calls s;
     smtp_calls := smtp_calls s; outbox := outbox s; accepted := accepted s;
     slept := slept s |}.

Definition set_vehicle_lat (f : gmap string (option R) -> gmap string (option R)) (s : state) : state :=
  {| vehicle_ids := vehicle_ids s; placards := placards s; license_plates :=
     license_plates s; vehicle_names := vehicle_names s; vehicle_lat := f
     (vehicle_lat s); vehicle_long := vehicle_long s; vehicle_onTrip :=
     vehicle_onTrip s; LAST_ERROR_EMAIL_TIME := LAST_ERROR_EMAIL_TIME s;
     clock_reads := clock_reads s; sheet_calls := sheet_calls s; samsara_calls
     := samsara_calls s; s3_calls := s3_calls s; sfmta_calls := sfmta_calls s;
     smtp_calls := smtp_calls s; outbox := outbox s; accepted := accepted s;
     slept := slept s |}.

Definition set_vehicle_long (f : gmap string (option R) -> gmap string (option R)) (s : state) : state :=
  {| vehicle_ids := vehicle_ids s; placards := placards s; license_plates :=
     license_plates s; vehicle_names := vehicle_names s; vehicle_lat :=
     vehicle_lat s; vehicle_long := f (vehicle_long s); vehicle_onTrip :=
     vehicle_onTrip s; LAST_ERROR_EMAIL_TIME := LAST_ERROR_EMAIL_TIME s;
     clock_reads := clock_reads s; sheet_calls := sheet_calls s; samsara_calls
     := samsara_calls s; s3_calls := s3_calls s; sfmta_calls := sfmta_calls s;
     smtp_calls := smtp_calls s; outbox := outbox s; accepted := accepted s;
     slept := slept s |}.

Definition set_vehicle_onTrip (f : gmap string bool -> gmap string bool) (s : state) : state :=
  {| vehicle_ids := vehicle_ids s; placards := placards s; license_plates :=
     license_plates s; vehicle_names := vehicle_names s; vehicle_lat :=
     vehicle_lat s; vehicle_long := vehicle_long s; vehicle_onTrip := f
     (vehicle_onTrip s); LAST_ERROR_EMAIL_TIME := LAST_ERROR_EMAIL_TIME s;
     clock_reads := clock_reads s; sheet_calls := sheet_calls s; samsara_calls
     := samsara_calls s; s3_calls := s3_calls s; sfmta_calls := sfmta_calls s;
     smtp_calls := smtp_calls s; outbox := outbox s; accepted := accepted s;
     slept := slept s |}.

Definition set_LAST_ERROR_EMAIL_TIME (f : Z -> Z) (s : state) : state :=
  {| vehicle_ids := vehicle_ids s; placards := placards s; license_plates :=
     license_plates s; vehicle_names := vehicle_names s; vehicle_lat :=
     vehicle_lat s; vehicle_long := vehicle_long s; vehicle_onTrip :=
     vehicle_onTrip s; LAST_ERROR_EMAIL_TIME := f (LAST_ERROR_EMAIL_TIME s);
     clock_reads := clock_reads s; sheet_calls := sheet_calls s; samsara_calls
     := samsara_calls s; s3_calls := s3_calls s; sfmta_calls := sfmta_calls s;
     smtp_calls := smtp_calls s; outbox := outbox s; accepted := accepted s;
     slept := slept s |}.

Definition set_clock_reads (f : nat -> nat) (s : state) : state :=
  {| vehicle_ids := vehicle_ids s; placards := placards s; license_plates :=
     license_plates s; vehicle_names := vehicle_names s; vehicle_lat :=
     vehicle_lat s; vehicle_long := vehicle_long s; vehicle_onTrip :=
     vehicle_onTrip s; LAST_ERROR_EMAIL_TIME := LAST_ERROR_EMAIL_TIME s;
     clock_reads := f (clock_reads s); sheet_calls := sheet_calls s;
     samsara_calls := samsara_calls s; s3_calls := s3_calls s; sfmta_calls :=
     sfmta_calls s; smtp_calls := smtp_calls s; outbox := outbox s; accepted
     := accepted s; slept := slept s |}.

Definition set_sheet_calls (f : nat -> nat) (s : state) : state :=
  {| vehicle_ids := vehicle_ids s; placards := placards s; license_plates :=
     license_plates s; vehicle_names := vehicle_names s; vehicle_lat :=
     vehicle_lat s; vehicle_long := vehicle_long s; vehicle_onTrip :=
     vehicle_onTrip s; LAST_ERROR_EMAIL_TIME := LAST_ERROR_EMAIL_TIME s;
     clock_reads := clock_reads s; sheet_calls := f (sheet_calls s);
     samsara_calls := samsara_calls s; s3_calls := s3_calls s; sfmta_calls :=
     sfmta_calls s; smtp_calls := smtp_calls s; outbox := outbox s; accepted
     := accepted s; slept := slept s |}.

Definition set_samsara_calls (f : nat -> nat) (s : state) : state :=
  {| vehicle_ids := vehicle_ids s; placards := placards s; license_plates :=
     license_plates s; vehicle_names := vehicle_names s; vehicle_lat :=
     vehicle_lat s; vehicle_long := vehicle_long s; vehicle_onTrip :=
     vehicle_onTrip s; LAST_ERROR_EMAIL_TIME := LAST_ERROR_EMAIL_TIME s;
     clock_reads := clock_reads s; sheet_calls := sheet_calls s; samsara_calls
     := f (samsara_calls s); s3_calls := s3_calls s; sfmta_calls :=
     sfmta_calls s; smtp_calls := smtp_calls s; outbox := outbox s; accepted
     := accepted s; slept := slept s |}.

Definition set_s3_calls (f : nat -> nat) (s : state) : state :=
  {| vehicle_ids := vehicle_ids s; placards := placards s; license_plates :=
     license_plates s; vehicle_names := vehicle_names s; vehicle_lat :=
     vehicle_lat s; vehicle_long := vehicle_long s; vehicle_onTrip :=
     vehicle_onTrip s; LAST_ERROR_EMAIL_TIME := LAST_ERROR_EMAIL_TIME s;
     clock_reads := clock_reads s; sheet_calls := sheet_calls s; samsara_calls
     := samsara_calls s; s3_calls := f (s3_calls s); sfmta_calls :=
     sfmta_calls s; smtp_calls := smtp_calls s; outbox := outbox s; accepted
     := accepted s; slept := slept s |}.

Definition set_sfmta_calls (f : nat -> nat) (s : state) : state :=
  {| vehicle_ids := vehicle_ids s; placards := placards s; license_plates :=
     license_plates s; vehicle_names := vehicle_names s; vehicle_lat :=
     vehicle_lat s; vehicle_long := vehicle_long s; vehicle_onTrip :=
     vehicle_onTrip s; LAST_ERROR_EMAIL_TIME := LAST_ERROR_EMAIL_TIME s;
     clock_reads := clock_reads s; sheet_calls := sheet_calls s; samsara_calls
     := samsara_calls s; s3_calls := s3_calls s; sfmta_calls := f (sfmta_calls
     s); smtp_calls := smtp_calls s; outbox := outbox s; accepted := accepted
     s; slept := slept s |}.

Definition set_smtp_calls (f : nat -> nat) (s : state) : state :=
  {| vehicle_ids := vehicle_ids s; placards := placards s; license_plates :=
     license_plates s; vehicle_names := vehicle_names s; vehicle_lat :=
     vehicle_lat s; vehicle_long := vehicle_long s; vehicle_onTrip :=
     vehicle_onTrip s; LAST_ERROR_EMAIL_TIME := LAST_ERROR_EMAIL_TIME s;
     clock_reads := clock_reads s; sheet_calls := sheet_calls s; samsara_calls
     := samsara_calls s; s3_calls := s3_calls s; sfmta_calls := sfmta_calls s;
     smtp_calls := f (smtp_calls s); outbox := outbox s; accepted := accepted
     s; slept := slept s |}.

Definition set_outbox (f : list mail -> list mail) (s : state) : state :=
  {| vehicle_ids := vehicle_ids s; placards := placards s; license_plates :=
     license_plates s; vehicle_names := vehicle_names s; vehicle_lat :=
     vehicle_lat s; vehicle_long := vehicle_long s; vehicle_onTrip :=
     vehicle_onTrip s; LAST_ERROR_EMAIL_TIME := LAST_ERROR_EMAIL_TIME s;
     clock_reads := clock_reads s; sheet_calls := sheet_calls s; samsara_calls
     := samsara_calls s; s3_calls := s3_calls s; sfmta_calls := sfmta_calls s;
     smtp_calls := smtp_calls s; outbox := f (outbox s); accepted := accepted
     s; slept := slept s |}.

Definition set_accepted (f : list string -> list string) (s : state) : state :=
  {| vehicle_ids := vehicle_ids s; placards := placards s; license_plates :=
     license_plates s; vehicle_names := vehicle_names s; vehicle_lat :=
     vehicle_lat s; vehicle_long := vehicle_long s; vehicle_onTrip :=
     vehicle_onTrip s; LAST_ERROR_EMAIL_TIME := LAST_ERROR_EMAIL_TIME s;
     clock_reads := clock_reads s; sheet_calls := sheet_calls s; samsara_calls
     := samsara_calls s; s3_calls := s3_calls s; sfmta_calls := sfmta_calls s;
     smtp_calls := smtp_calls s; outbox := outbox s; accepted := f (accepted
     s); slept := slept s |}.

Definition set_slept (f : list Z -> list Z) (s : state) : state :=
  {| vehicle_ids := vehicle_ids s; placards := placards s; license_plates :=
     license_plates s; vehicle_names := vehicle_names s; vehicle_lat :=
     vehicle_lat s; vehicle_long := vehicle_long s; vehicle_onTrip :=
     vehicle_onTrip s; LAST_ERROR_EMAIL_TIME := LAST_ERROR_EMAIL_TIME s;
     clock_reads := clock_reads s; sheet_calls := sheet_calls s; samsara_calls
     := samsara_calls s; s3_calls := s3_calls s; sfmta_calls := sfmta_calls s;
     smtp_calls := smtp_calls s; outbox := outbox s; accepted := accepted s;
     slept := f (slept s) |}.

(** The globals as the module leaves them after import (lines 61, 84-92),
    nothing consumed and nothing emitted. *)
Definition initial_state : state :=
  {| vehicle_ids := ∅; placards := ∅; license_plates := ∅; vehicle_names := ∅;
     vehicle_lat := ∅; vehicle_long := ∅; vehicle_onTrip := ∅;
     LAST_ERROR_EMAIL_TIME := 0;
     clock_reads := 0; sheet_calls := 0; samsara_calls := 0; s3_calls := 0;
     sfmta_calls := 0; smtp_calls := 0;
     outbox := []; accepted := []; slept := [] |}.

(** *** The outside world *)

(** An environment variable that the program reads through [int()]: the
    integer its text denotes, or the text itself when [int()] rejects it. *)
Inductive env_int : Type :=
| Numeral (z : Z)
| Garbled (text : string).

(** The [k]-th reply of every collaborator, the process environment and the
    library functions left abstract.

    [math_domain_error lat1 lon1 lat2 lon2] says whether the floating-point
    evaluation of lines 121-125 at these coordinates leaves the domain of
    [math.sqrt]: over the reals it never does, in floating point the rounded
    [a] exceeds 1 at some nearly antipodal pairs and [math.sqrt(1 - a)]
    raises [ValueError].

    [schedule s] is the order in which the thread scheduler lets the tasks
    of a fan-out started in state [s] take their steps, as indices into the
    task list; see [pool_map]. *)
Record world : Type := {
  clock : nat -> Z;
  sheet : nat -> sheet_reply;
  samsara : nat -> samsara_reply;
  s3 : nat -> s3_reply;
  sfmta : nat -> sfmta_reply;
  smtp : nat -> option exn;
  SAMSARA_SFMTA_GROUP_ID : option env_int;
  SFMTA_TECH_PROVIDER_ID : option env_int;
  SFMTA_SHUTTLE_COMPANY_ID : option string;
  strftime_localtime : Z -> string;
  float_repr : R -> string;
  encode_basestring : string -> string;
  math_domain_error : R -> R -> R -> R -> bool;
  schedule : state -> list nat;
}.

(** *** The monad: state that survives a raised exception *)

Inductive result (A : Type) : Type :=
| Return (a : A)
| Raise (e : exn).
Arguments Return {A} a.
Arguments Raise {A} e.

Definition M (A : Type) : Type := world -> state -> result A * state.

#[global] Instance M_ret : MRet M := fun A a _ s => (Return a, s).

#[global] Instance M_bind : MBind M := fun A B f m w s =>
  match m w s with
  | (Return a, s1) => f a w s1
  | (Raise e, s1) => (Raise e, s1)
  end.

Definition raise {A : Type} (e : exn) : M A := fun _ s => (Raise e, s).

(** [try: body / except Exception as e: handler e]. *)
Definition try_except {A : Type} (body : M A) (handler : exn -> M A) : M A :=
  fun w s =>
    match body w s with
    | (Return a, s1) => (Return a, s1)
    | (Raise e, s1) => handler e w s1
    end.

Definition gets {A : Type} (f : state -> A) : M A := fun _ s => (Return (f s), s).
Definition asks {A : Type} (f : world -> A) : M A := fun w s => (Return (f w), s).
Definition modify (f : state -> state) : M unit := fun _ s => (Return tt, f s).

(** [for x in xs: f x]. *)
Fixpoint for_each {A : Type} (xs : list A) (f : A -> M unit) : M unit :=
  match xs with
  | [] => mret tt
  | x :: rest => f x ;; for_each rest f
  end.

(** [d[key]] on a dictionary whose entry is [d_key]: [KeyError] when absent. *)
Definition subscript {A : Type} (d_key : option A) (key : string) : M A :=
  match d_key with
  | Some a => mret a
  | None => raise (KeyError key)
  end.

(** [os.environ[name]]. *)
Definition os_environ {A : Type} (var : world -> option A) (name : string) : M A :=
  v ← asks var; subscript v name.

(** [int(os.environ[name])] on the value of the variable. *)
Definition int (value : env_int) : M Z :=
  match value with
  | Numeral z => mret z
  | Garbled text =>
      raise (ValueError ("invalid literal for int() with base 10: "
                         +:+ squote +:+ text +:+ squote))
  end.

(** [g[key]] on one of the global dictionaries. *)
Definition global_item {A : Type} (g : state -> gmap string A) (key : string) : M A :=
  d ← gets g; subscript (d !! key) key.

(** [time.time()]. *)
Definition time_time : M Z := fun w s =>
  (Return (clock w (clock_reads s)), set_clock_reads S s).

(** [time.sleep(secs)]. *)
Definition time_sleep (secs : Z) : M unit :=
  modify (set_slept (fun l => l ++ [secs])).

(** ** Configuration (lines 58-62) *)

Definition FREQUENCY : Z := 5.
Definition DISTANCE_THRESHOLD : R := 50.
Definition MAX_RETRIES : nat := 10.
Definition ERROR_EMAIL_DELAY : Z := 7200.

(** ** Roster refresh (lines 134-161) *)

(** The response object: [getcode()] and the outcome of [read()], the text
    being kept as what [json.loads] makes of it. *)
Definition response : Type := Z * (exn + (exn + sheet_json)).

Definition urlopen : M response := fun w s =>
  match sheet w (sheet_calls s) with
  | SheetUnreachable e => (Raise e, set_sheet_calls S s)
  | SheetUnreadable code e => (Return (code, inl e), set_sheet_calls S s)
  | SheetStatus code body => (Return (code, inr body), set_sheet_calls S s)
  end.

(** [response.read()]. *)
Definition response_read {A : Type} (content : exn + A) : M A :=
  match content with
  | inl e => raise e
  | inr text => mret text
  end.

Definition json_loads {A : Type} (body : exn + A) : M A :=
  match body with
  | inl e => raise e
  | inr j => mret j
  end.

(** [entry[column]['$t']]. *)
Definition cell_text (c : option gsx_cell) (column : string) : M string :=
  cell ← subscript c column; subscript (dollar_t cell) "$t".

(** The body of the loop of lines 150-156. *)
Definition store_entry (e : sheet_entry) : M unit :=
  vehicle_id ← cell_text (gsx_samsaradeviceid e) "gsx$samsaradeviceid";
  modify (set_vehicle_ids (fun ids => ids ∪ {[vehicle_id]}));;
  placard ← cell_text (gsx_vehicleplacardnumber e) "gsx$vehicleplacardnumber";
  modify (set_placards <[vehicle_id := placard]>);;
  plate ← cell_text (gsx_licenseplatenumber e) "gsx$licenseplatenumber";
  modify (set_license_plates <[vehicle_id := plate]>);;
  name ← cell_text (gsx_vehicleidname e) "gsx$vehicleidname";
  modify (set_vehicle_names <[vehicle_id := name]>).

Definition get_vehicle_details : M string :=
  try_except
    ('(code, content) ← urlopen;
     (if decide (code ≠ 200) then
        response_read content;;
        mret tt
      else
        body ← response_read content;
        json_data ← json_loads body;
        modify (set_vehicle_ids (fun _ => ∅));;
        f ← subscript (feed json_data) "feed";
        entries ← subscript (entry f) "entry";
        for_each entries store_entry);;
     mret "Success")
    (fun e =>
       mret ("Error reading vehicle details from Google Sheet" +:+ newline
             +:+ str_exn e)).

(** ** Error notification (lines 167-186) *)

(** [send_error_email(email_body, email_subject)]: the whole SMTP dialogue is
    one reply, either the message is handed over or an exception leaves the
    function.  The traceback lines appended to the body are not kept. *)
Definition send_error_email (email_body email_subject : string) : M unit :=
  fun w s =>
    match smtp w (smtp_calls s) with
    | Some e => (Raise e, set_smtp_calls S s)
    | None =>
        (Return tt,
         set_outbox
           (fun l => l ++ [{| subject := email_subject; body := email_body |}])
           (set_smtp_calls S s))
    end.

(** ** Nearest allowed stop (lines 205-232) *)

Definition s3_get : M (list stop_json) := fun w s =>
  match s3 w (s3_calls s) with
  | S3Fails e => (Raise e, set_s3_calls S s)
  | S3Stops stops => (Return stops, set_s3_calls S s)
  end.

(** Whether the call [distance(origin_lat, origin_long, dest_lat, dest_long)]
    ends in the [ValueError] of [math.sqrt]: never with a null coordinate
    (line 118 returns before), and otherwise where the world says that the
    floating-point [a] leaves [[0, 1]]. *)
Definition distance_raises (w : world)
    (origin_lat origin_long dest_lat dest_long : option R) : bool :=
  match origin_lat, origin_long, dest_lat, dest_long with
  | Some lat1, Some lon1, Some lat2, Some lon2 =>
      math_domain_error w lat1 lon1 lat2 lon2
  | _, _, _, _ => false
  end.

(** A call of [distance]: the value of [Geo.distance] or, where rounding
    takes an argument of [math.sqrt] out of its domain (line 125), the
    exception the library raises. *)
Definition call_distance (origin_lat origin_long dest_lat dest_long : option R) : M R :=
  raises ← asks (fun w => distance_raises w origin_lat origin_long dest_lat dest_long);
  if (raises : bool) then raise (ValueError "math domain error")
  else mret (Geo.distance origin_lat origin_long dest_lat dest_long).

(** The loop of lines 213-222, started with the given [closest_stop_id] and
    [min_distance]. *)
Fixpoint scan_stops (stops : list stop_json) (stop_lat stop_long : option R)
    (closest_stop_id : Z) (min_distance : R) : M (Z * R) :=
  match stops with
  | [] => mret (closest_stop_id, min_distance)
  | stop :: rest =>
      let current_stop_id := StopId stop in
      let current_stop_lat := StopLocationLatitude stop in
      let current_stop_long := StopLocationLongitude stop in
      curr_distance ←
        call_distance current_stop_lat current_stop_long stop_lat stop_long;
      if Rlt_dec curr_distance min_distance
      then scan_stops rest stop_lat stop_long current_stop_id curr_distance
      else scan_stops rest stop_lat stop_long closest_stop_id min_distance
  end.

(** Lines 210-229 on a loaded stop list. *)
Definition nearest_stop (stops : list stop_json) (stop_lat stop_long : option R) : M Z :=
  '(closest_stop_id, min_distance) ←
    scan_stops stops stop_lat stop_long 9999 99999%R;
  mret (if Rle_dec min_distance DISTANCE_THRESHOLD then closest_stop_id else 9999).

Definition find_stop_id (stop_lat stop_long : option R) : M pyval :=
  try_except
    (stops ← s3_get;
     stop_id ← nearest_stop stops stop_lat stop_long;
     mret (PInt stop_id))
    (fun e =>
       mret (PStr ("Error loading data from S3 bucket" +:+ newline +:+ str_exn e))).

(** ** Location fetch (lines 243-288) *)

Definition requests_post_locations : M locations_json := fun w s =>
  match samsara w (samsara_calls s) with
  | LocationsFail e => (Raise e, set_samsara_calls S s)
  | LocationsOk body => (Return body, set_samsara_calls S s)
  end.

(** The body of the loop of lines 261-265. *)
Definition store_vehicle (vehicle : vehicle_json) : M unit :=
  vehicle_id ← subscript (v_id vehicle) "id";
  lat ← subscript (v_latitude vehicle) "latitude";
  modify (set_vehicle_lat <[vehicle_id := lat]>);;
  lon ← subscript (v_longitude vehicle) "longitude";
  modify (set_vehicle_long <[vehicle_id := lon]>);;
  on_trip ← subscript (v_onTrip vehicle) "onTrip";
  modify (set_vehicle_onTrip <[vehicle_id := on_trip]>).

(** One pass through the [try] block of lines 253-268. *)
Definition locations_attempt : M string :=
  locations ← requests_post_locations;
  vs ← subscript (vehicles locations) "vehicles";
  for_each vs store_vehicle;;
  mret "Success".

(** Lines 276-287: the retries are used up. *)
Definition locations_exhausted : M string :=
  current_error_time ← time_time;
  last ← gets LAST_ERROR_EMAIL_TIME;
  (if decide (current_error_time - last > ERROR_EMAIL_DELAY) then
     send_error_email
       ("There was an error pulling data from Samsara API - please check logs"
        +:+ newline +:+ newline)
       "Error sending data to SFMTA";;
     modify (set_LAST_ERROR_EMAIL_TIME (fun _ => current_error_time))
   else mret tt);;
  mret "Failure".

(** The [while local_retries > 0] loop of lines 252-273 and what follows it. *)
Fixpoint locations_loop (local_retries : nat) : M string :=
  match local_retries with
  | O => locations_exhausted
  | S n => try_except locations_attempt (fun _ => locations_loop n)
  end.

Definition get_all_vehicle_data : M string :=
  get_vehicle_details;;
  os_environ SAMSARA_SFMTA_GROUP_ID "SAMSARA_SFMTA_GROUP_ID" ≫= int;;
  locations_loop MAX_RETRIES.

(** ** Payload (lines 299-324) *)

(** [collections.OrderedDict]: items in insertion order. *)
Definition OrderedDict : Type := list (string * pyval).

(** [od[key] = value]: a new key goes last, a known key keeps its place. *)
Fixpoint od_setitem (key : string) (value : pyval) (od : OrderedDict) : OrderedDict :=
  match od with
  | [] => [(key, value)]
  | (k, v) :: rest =>
      if String.eqb k key then (k, value) :: rest
      else (k, v) :: od_setitem key value rest
  end.

Fixpoint od_getitem (key : string) (od : OrderedDict) : option pyval :=
  match od with
  | [] => None
  | (k, v) :: rest => if String.eqb k key then Some v else od_getitem key rest
  end.

Definition od_keys (od : OrderedDict) : list string := map fst od.

Definition build_sfmta_payload (vehicle_id : string) (current_time : Z) : M OrderedDict :=
  let sfmta_payload : OrderedDict := [] in
  tech_provider_id ←
    os_environ SFMTA_TECH_PROVIDER_ID "SFMTA_TECH_PROVIDER_ID" ≫= int;
  let sfmta_payload := od_setitem "TechProviderId" (PInt tech_provider_id) sfmta_payload in
  shuttle_company_id ← os_environ SFMTA_SHUTTLE_COMPANY_ID "SFMTA_SHUTTLE_COMPANY_ID";
  let sfmta_payload := od_setitem "ShuttleCompanyId" (PStr shuttle_company_id) sfmta_payload in
  placard ← global_item placards vehicle_id;
  let sfmta_payload := od_setitem "VehiclePlacardNum" (PStr placard) sfmta_payload in
  plate ← global_item license_plates vehicle_id;
  let sfmta_payload := od_setitem "LicensePlateNum" (PStr plate) sfmta_payload in
  on_trip ← global_item vehicle_onTrip vehicle_id;
  '(vehicle_status, stop_id) ←
    (if Bool.eqb on_trip true then mret (1, PInt 9999)
     else
       lat ← global_item vehicle_lat vehicle_id;
       lon ← global_item vehicle_long vehicle_id;
       stop_id ← find_stop_id lat lon;
       mret (2, stop_id)) : M (Z * pyval);
  let sfmta_payload := od_setitem "StopId" stop_id sfmta_payload in
  let sfmta_payload := od_setitem "VehicleStatus" (PInt vehicle_status) sfmta_payload in
  lat ← global_item vehicle_lat vehicle_id;
  let sfmta_payload := od_setitem "LocationLatitude" (of_coord lat) sfmta_payload in
  lon ← global_item vehicle_long vehicle_id;
  let sfmta_payload := od_setitem "LocationLongitude" (of_coord lon) sfmta_payload in
  stamp ← asks (fun w => strftime_localtime w current_time);
  let sfmta_payload := od_setitem "TimeStampLocal" (PStr stamp) sfmta_payload in
  mret sfmta_payload.

(** ** Telemetry push (lines 329-360) *)

(** [json.dumps] of one value and of an [OrderedDict], with the default
    separators; the encoders of strings and floats are the library's. *)
Definition json_value (w : world) (v : pyval) : string :=
  match v with
  | PInt n => pretty n
  | PStr s => encode_basestring w s
  | PFloat x => float_repr w x
  | PNone => "null"
  end.

Definition json_member (w : world) (item : string * pyval) : string :=
  encode_basestring w item.1 +:+ ": " +:+ json_value w item.2.

Definition json_dumps (w : world) (od : OrderedDict) : string :=
  "{" +:+ String.concat ", " (map (json_member w) od) +:+ "}".

Definition requests_post_telemetry (data : string) : M unit := fun w s =>
  match sfmta w (sfmta_calls s) with
  | TelemetryFail e => (Raise e, set_sfmta_calls S s)
  | TelemetryOk =>
      (Return tt, set_accepted (fun l => l ++ [data]) (set_sfmta_calls S s))
  end.

(** Lines 348-359: the retries are used up.  [None] is Python's [None], the
    value of a function that ends without [return]. *)
Definition telemetry_exhausted : M (option string) :=
  current_error_time ← time_time;
  last ← gets LAST_ERROR_EMAIL_TIME;
  if decide (current_error_time - last > ERROR_EMAIL_DELAY) then
    send_error_email
      ("There was an error pushing data to SFMTA API - please check logs"
       +:+ newline +:+ newline)
      "Error sending data to SFMTA";;
    modify (set_LAST_ERROR_EMAIL_TIME (fun _ => current_error_time));;
    mret (Some "Failure")
  else mret None.

(** The [while local_retries > 0] loop of lines 338-346 and what follows it. *)
Fixpoint telemetry_loop (data : string) (local_retries : nat) : M (option string) :=
  match local_retries with
  | O => telemetry_exhausted
  | S n =>
      try_except
        (requests_post_telemetry data;; mret (Some "Success"))
        (fun _ => telemetry_loop data n)
  end.

Definition push_vehicle_data (vehicle_id : string) (current_time : Z) : M (option string) :=
  sfmta_payload ← build_sfmta_payload vehicle_id current_time;
  sfmta_payload_json ← asks (fun w => json_dumps w sfmta_payload);
  telemetry_loop sfmta_payload_json MAX_RETRIES.

(** ** Tasks of the thread pool *)

(** A task as a thread of the pool runs it: [Act m k] takes the step [m],
    during which no other thread runs, and goes on as [k] says with its
    outcome; between two steps the scheduler may let other threads run.
    [Done r] has finished with [r]. *)
Inductive proc (A : Type) : Type :=
| Done (r : result A)
| Act {B : Type} (m : M B) (k : result B -> proc A).
Arguments Done {A} r.
Arguments Act {A B} m k.

Definition atomic {A : Type} (m : M A) : proc A := Act m Done.

Fixpoint proc_bind {A B : Type} (f : A -> proc B) (p : proc A) : proc B :=
  match p with
  | Done (Return a) => f a
  | Done (Raise e) => Done (Raise e)
  | Act m k => Act m (fun r => proc_bind f (k r))
  end.

#[global] Instance proc_ret : MRet proc := fun A a => Done (Return a).
#[global] Instance proc_mbind : MBind proc := @proc_bind.

(** [try: body / except Exception as e: handler e] around steps. *)
Fixpoint proc_try {A : Type} (body : proc A) (handler : exn -> proc A) : proc A :=
  match body with
  | Done (Return a) => Done (Return a)
  | Done (Raise e) => handler e
  | Act m k => Act m (fun r => proc_try (k r) handler)
  end.

(** A task run from its first step to its last without another thread in
    between. *)
Fixpoint run {A : Type} (p : proc A) : M A :=
  match p with
  | Done r => fun _ s => (r, s)
  | Act m k => fun w s => let '(r, s1) := m w s in run (k r) w s1
  end.

(** [push_vehicle_data] and what it calls, cut into steps: every read of a
    global, every write and every call to a collaborator is a step of its
    own.  Lines are those of the functions of the same name. *)
Definition find_stop_id_thread (stop_lat stop_long : option R) : proc pyval :=
  proc_try
    (stops ← atomic s3_get;
     stop_id ← atomic (nearest_stop stops stop_lat stop_long);
     mret (PInt stop_id))
    (fun e =>
       mret (PStr ("Error loading data from S3 bucket" +:+ newline +:+ str_exn e))).

Definition build_sfmta_payload_thread (vehicle_id : string) (current_time : Z)
    : proc OrderedDict :=
  let sfmta_payload : OrderedDict := [] in
  tech_provider_id ←
    atomic (os_environ SFMTA_TECH_PROVIDER_ID "SFMTA_TECH_PROVIDER_ID" ≫= int);
  let sfmta_payload := od_setitem "TechProviderId" (PInt tech_provider_id) sfmta_payload in
  shuttle_company_id ←
    atomic (os_environ SFMTA_SHUTTLE_COMPANY_ID "SFMTA_SHUTTLE_COMPANY_ID");
  let sfmta_payload := od_setitem "ShuttleCompanyId" (PStr shuttle_company_id) sfmta_payload in
  placard ← atomic (global_item placards vehicle_id);
  let sfmta_payload := od_setitem "VehiclePlacardNum" (PStr placard) sfmta_payload in
  plate ← atomic (global_item license_plates vehicle_id);
  let sfmta_payload := od_setitem "LicensePlateNum" (PStr plate) sfmta_payload in
  on_trip ← atomic (global_item vehicle_onTrip vehicle_id);
  '(vehicle_status, stop_id) ←
    (if Bool.eqb on_trip true then mret (1, PInt 9999)
     else
       lat ← atomic (global_item vehicle_lat vehicle_id);
       lon ← atomic (global_item vehicle_long vehicle_id);
       stop_id ← find_stop_id_thread lat lon;
       mret (2, stop_id)) : proc (Z * pyval);
  let sfmta_payload := od_setitem "StopId" stop_id sfmta_payload in
  let sfmta_payload := od_setitem "VehicleStatus" (PInt vehicle_status) sfmta_payload in
  lat ← atomic (global_item vehicle_lat vehicle_id);
  let sfmta_payload := od_setitem "LocationLatitude" (of_coord lat) sfmta_payload in
  lon ← atomic (global_item vehicle_long vehicle_id);
  let sfmta_payload := od_setitem "LocationLongitude" (of_coord lon) sfmta_payload in
  stamp ← atomic (asks (fun w => strftime_localtime w current_time));
  let sfmta_payload := od_setitem "TimeStampLocal" (PStr stamp) sfmta_payload in
  mret sfmta_payload.

(** Lines 348-359: between the test of line 353, the dialogue with the mail
    server and the assignment of line 357 other threads can run. *)
Definition telemetry_exhausted_thread : proc (option string) :=
  current_error_time ← atomic time_time;
  last ← atomic (gets LAST_ERROR_EMAIL_TIME);
  if decide (current_error_time - last > ERROR_EMAIL_DELAY) then
    atomic (send_error_email
              ("There was an error pushing data to SFMTA API - please check logs"
               +:+ newline +:+ newline)
              "Error sending data to SFMTA");;
    atomic (modify (set_LAST_ERROR_EMAIL_TIME (fun _ => current_error_time)));;
    mret (Some "Failure")
  else mret None.

Fixpoint telemetry_loop_thread (data : string) (local_retries : nat)
    : proc (option string) :=
  match local_retries with
  | O => telemetry_exhausted_thread
  | S n =>
      proc_try
        (atomic (requests_post_telemetry data);; mret (Some "Success"))
        (fun _ => telemetry_loop_thread data n)
  end.

Definition push_vehicle_data_thread (vehicle_id : string) (current_time : Z)
    : proc (option string) :=
  sfmta_payload ← build_sfmta_payload_thread vehicle_id current_time;
  sfmta_payload_json ← atomic (asks (fun w => json_dumps w sfmta_payload));
  telemetry_loop_thread sfmta_payload_json MAX_RETRIES.

(** ** Fan-out over the roster (lines 375-390) *)

(** The exception with which the pool will answer: that of the task that
    failed first. *)
Definition note_failure {A : Type} (r : result A) (failed : option exn) : option exn :=
  match failed, r with
  | None, Raise e => Some e
  | _, _ => failed
  end.

(** The scheduler at work: each pick lets the task at that index take its
    next step; a pick of a finished task, or of no task, passes. *)
Fixpoint interleave {A : Type} (picks : list nat) (tasks : list (proc A))
    (failed : option exn) (w : world) (s : state)
    : list (proc A) * option exn * state :=
  match picks with
  | [] => (tasks, failed, s)
  | i :: rest =>
      match tasks !! i with
      | Some (Act m k) =>
          let '(r, s1) := m w s in
          let failed1 :=
            match k r with
            | Done r' => note_failure r' failed
            | Act _ _ => failed
            end in
          interleave rest (<[i := k r]> tasks) failed1 w s1
      | _ => interleave rest tasks failed w s
      end
  end.

(** The tasks that are left run to their end, one after the other. *)
Fixpoint join {A : Type} (tasks : list (proc A)) (failed : option exn)
    (w : world) (s : state) : list (result A) * option exn * state :=
  match tasks with
  | [] => ([], failed, s)
  | p :: rest =>
      let '(r, s1) := run p w s in
      let '(rs, failed1, s2) := join rest (note_failure r failed) w s1 in
      (r :: rs, failed1, s2)
  end.

Definition returned {A : Type} (r : result A) : option A :=
  match r with
  | Return a => Some a
  | Raise _ => None
  end.

(** [pool.map f xs]: one task per element.  The tasks take their steps in
    the order [schedule] picks them for a fan-out started in this state;
    when the picks are used up the unfinished tasks are run one after the
    other, so an empty schedule is the run without any interleaving, and
    every interleaving is the schedule of some world.  The call returns
    when every task has finished, with the results, or raises the
    exception of the task that failed first. *)
Definition pool_map {A B : Type} (f : A -> proc B) (xs : list A) : M (list B) :=
  fun w s =>
    let '(tasks, failed, s1) := interleave (schedule w s) (f <$> xs) None w s in
    let '(results, failed1, s2) := join tasks failed w s1 in
    (match failed1 with
     | Some e => Raise e
     | None => Return (omap returned results)
     end, s2).

Definition push_all_vehicle_data (current_time : Z) : M unit :=
  ids ← gets vehicle_ids;
  let num_vehicles := size ids in
  (if decide (num_vehicles < 1)%nat
   then raise (ValueError "Number of processes must be at least 1")
   else mret tt);;
  pool_map (fun vehicle_id => push_vehicle_data_thread vehicle_id current_time)
           (elements ids);;
  mret tt.

(** ** The synchronization loop (lines 403-447) *)

(** The [try] block of lines 410-431; returning is reaching the end of the
    loop body (or its [continue]). *)
Definition cycle_body : M unit :=
  start_time ← time_time;
  let current_time := start_time in
  status ← get_all_vehicle_data;
  if negb (String.eqb status "Success") then mret tt
  else
    now ← time_time;
    let samsara_api_time := now - start_time in
    push_all_vehicle_data current_time;;
    end_time ← time_time;
    let time_spent := end_time - start_time in
    let time_to_wait := FREQUENCY - time_spent in
    if decide (time_to_wait >= 0) then time_sleep time_to_wait else mret tt.

(** The [except] block of lines 435-446. *)
Definition cycle_except : M unit :=
  current_error_time ← time_time;
  last ← gets LAST_ERROR_EMAIL_TIME;
  if decide (current_error_time - last > ERROR_EMAIL_DELAY) then
    send_error_email
      ("There was an error sending data to SFMTA - please check logs"
       +:+ newline +:+ newline)
      "Error sending data to SFMTA";;
    modify (set_LAST_ERROR_EMAIL_TIME (fun _ => current_error_time))
  else mret tt.

(** One iteration of [while True]. *)
Definition cycle : M unit := try_except cycle_body (fun _ => cycle_except).

(** The first [iterations] iterations of [while True]: [Return tt] when the
    loop is still running after them, [Raise e] when [e] left the loop (and
    with it [push_all_data]) before. *)
Fixpoint push_all_data (iterations : nat) : M unit :=
  match iterations with
  | O => mret tt
  | S n => cycle;; push_all_data n
  end.

(** ** Vocabulary of the statements *)

(** Distance from the queried coordinate to a stop, as line 218 computes it. *)
Definition stop_distance (stop_lat stop_long : option R) (stop : stop_json) : R :=
  Geo.distance (StopLocationLatitude stop) (StopLocationLongitude stop)
               stop_lat stop_long.

(** [stops !! i] is the first stop at the least distance from the queried
    coordinate. *)
Definition first_closest (stop_lat stop_long : option R)
    (stops : list stop_json) (i : nat) (stop : stop_json) : Prop :=
  stops !! i = Some stop
  /\ (forall j other, stops !! j = Some other ->
        (stop_distance stop_lat stop_long stop
         <= stop_distance stop_lat stop_long other)%R)
  /\ (forall j other, stops !! j = Some other -> (j < i)%nat ->
        (stop_distance stop_lat stop_long stop
         < stop_distance stop_lat stop_long other)%R).

(** The call of line 218 for this stop raises. *)
Definition stop_raises (w : world) (stop_lat stop_long : option R)
    (stop : stop_json) : bool :=
  distance_raises w (StopLocationLatitude stop) (StopLocationLongitude stop)
                  stop_lat stop_long.

(** What the scan of lines 213-222 leaves in [closest_stop_id] and
    [min_distance] when every distance is computed. *)
Fixpoint scan_stops_value (stops : list stop_json) (stop_lat stop_long : option R)
    (closest_stop_id : Z) (min_distance : R) : Z * R :=
  match stops with
  | [] => (closest_stop_id, min_distance)
  | stop :: rest =>
      let curr_distance :=
        Geo.distance (StopLocationLatitude stop) (StopLocationLongitude stop)
                     stop_lat stop_long in
      if Rlt_dec curr_distance min_distance
      then scan_stops_value rest stop_lat stop_long (StopId stop) curr_distance
      else scan_stops_value rest stop_lat stop_long closest_stop_id min_distance
  end.

(** The stop id lines 210-229 settle on when every distance is computed. *)
Definition nearest_stop_value (stops : list stop_json) (stop_lat stop_long : option R) : Z :=
  let '(closest_stop_id, min_distance) :=
    scan_stops_value stops stop_lat stop_long 9999 99999%R in
  if Rle_dec min_distance DISTANCE_THRESHOLD then closest_stop_id else 9999.

(** What [find_stop_id] returns on a given reply of the stop store. *)
Definition resolved_stop (w : world) (reply : s3_reply)
    (stop_lat stop_long : option R) : pyval :=
  match reply with
  | S3Stops stops =>
      if existsb (stop_raises w stop_lat stop_long) stops
      then PStr ("Error loading data from S3 bucket" +:+ newline
                 +:+ "math domain error")
      else PInt (nearest_stop_value stops stop_lat stop_long)
  | S3Fails e =>
      PStr ("Error loading data from S3 bucket" +:+ newline +:+ str_exn e)
  end.


(** The nine items of a telemetry record, in the order lines 303-321 insert
    them. *)
Definition telemetry_record (tech_provider_id : Z) (shuttle_company_id placard plate : string)
    (stop_id : pyval) (vehicle_status : Z) (lat lon : option R) (stamp : string)
    : OrderedDict :=
  [("TechProviderId", PInt tech_provider_id);
   ("ShuttleCompanyId", PStr shuttle_company_id);
   ("VehiclePlacardNum", PStr placard);
   ("LicensePlateNum", PStr plate);
   ("StopId", stop_id);
   ("VehicleStatus", PInt vehicle_status);
   ("LocationLatitude", of_coord lat);
   ("LocationLongitude", of_coord lon);
   ("TimeStampLocal", PStr stamp)].

(** The shape shared by the two retry loops: up to [local_retries] passes
    through [attempt], each exception starting the next pass, then
    [exhausted]. *)
Fixpoint retry {A : Type} (attempt exhausted : M A) (local_retries : nat) : M A :=
  match local_retries with
  | O => exhausted
  | S n => try_except attempt (fun _ => retry attempt exhausted n)
  end.

(** [after_failures attempt k w s = Some sk]: started in [s], [k] consecutive
    passes through [attempt] all raise, and leave the state [sk]. *)
Fixpoint after_failures {A : Type} (attempt : M A) (k : nat) (w : world) (s : state)
    : option state :=
  match k with
  | O => Some s
  | S k' =>
      match attempt w s with
      | (Raise _, s1) => after_failures attempt k' w s1
      | (Return _, _) => None
      end
  end.

(** One pass through the [try] block of lines 339-342. *)
Definition telemetry_attempt (data : string) : M (option string) :=
  requests_post_telemetry data;; mret (Some "Success").

(** The three places that report a failure: lines 276-287, 348-359 and
    435-446. *)
Inductive failure_site : Type :=
| LocationsExhausted
| TelemetryExhausted
| CycleFailed.

Definition report (site : failure_site) : M unit :=
  match site with
  | LocationsExhausted => locations_exhausted;; mret tt
  | TelemetryExhausted => telemetry_exhausted;; mret tt
  | CycleFailed => cycle_except
  end.

(** Failure reports one after the other; a report that raises does not keep
    the later ones from happening. *)
Fixpoint reports (sites : list failure_site) (w : world) (s : state) : state :=
  match sites with
  | [] => s
  | site :: rest => reports rest w (report site w s).2
  end.

(** Notifications handed over between two states. *)
Definition notifications (before after : state) : nat :=
  (length (outbox after) - length (outbox before))%nat.

(** The notification each site sends. *)
Definition site_mail (site : failure_site) : mail :=
  {| subject := "Error sending data to SFMTA";
     body :=
       match site with
       | LocationsExhausted =>
           "There was an error pulling data from Samsara API - please check logs"
       | TelemetryExhausted =>
           "There was an error pushing data to SFMTA API - please check logs"
       | CycleFailed =>
           "There was an error sending data to SFMTA - please check logs"
       end +:+ newline +:+ newline |}.

(** The test of lines 281, 353 and 440 on the next clock reading. *)
Definition alert_due (w : world) (s : state) : bool :=
  bool_decide (clock w (clock_reads s) - LAST_ERROR_EMAIL_TIME s > ERROR_EMAIL_DELAY).

(** The exception, if any, with which a failure report made in [s] ends. *)
Definition alert_raises (w : world) (s : state) : option exn :=
  if alert_due w s then smtp w (smtp_calls s) else None.

(** The state a failure report made in [s] leaves. *)
Definition alert_state (email : mail) (w : world) (s : state) : state :=
  if alert_due w s then
    match smtp w (smtp_calls s) with
    | None =>
        set_LAST_ERROR_EMAIL_TIME (fun _ => clock w (clock_reads s))
          (set_outbox (fun l => l ++ [email])
             (set_smtp_calls S (set_clock_reads S s)))
    | Some _ => set_smtp_calls S (set_clock_reads S s)
    end
  else set_clock_reads S s.

(** A complete row of the roster feed. *)
Record roster_row : Type := {
  row_id : string;
  row_placard : string;
  row_plate : string;
  row_name : string;
}.

(** The row an entry holds when its four cells are all there. *)
Definition row_of_entry (e : sheet_entry) : option roster_row :=
  id ← gsx_samsaradeviceid e ≫= dollar_t;
  placard ← gsx_vehicleplacardnumber e ≫= dollar_t;
  plate ← gsx_licenseplatenumber e ≫= dollar_t;
  name ← gsx_vehicleidname e ≫= dollar_t;
  Some {| row_id := id; row_placard := placard; row_plate := plate;
          row_name := name |}.

(** The rows a reply of the roster source delivers: status 200, a body that
    parses, [feed] and [entry] present, every entry complete. *)
Definition rows_of (reply : sheet_reply) : option (list roster_row) :=
  match reply with
  | SheetStatus code (inr json_data) =>
      if decide (code = 200) then
        f ← feed json_data; entries ← entry f; mapM row_of_entry entries
      else None
  | _ => None
  end.

(** The reply fails before any entry of the feed is looked at: the source is
    unreachable, the response cannot be read, the status is not 200, or the
    body does not parse. *)
Definition fails_before_feed (reply : sheet_reply) : Prop :=
  match reply with
  | SheetUnreachable _ => True
  | SheetUnreadable _ _ => True
  | SheetStatus code body =>
      code <> 200 \/ match body with inl _ => True | inr _ => False end
  end.

(** What lines 151-156 do with a complete row. *)
Definition store_row (r : roster_row) (s : state) : state :=
  set_vehicle_names <[row_id r := row_name r]>
    (set_license_plates <[row_id r := row_plate r]>
       (set_placards <[row_id r := row_placard r]>
          (set_vehicle_ids (fun ids => ids ∪ {[row_id r]}) s))).

(** The last row of the feed for a vehicle id. *)
Fixpoint last_row (vehicle_id : string) (rows : list roster_row) : option roster_row :=
  match rows with
  | [] => None
  | r :: rest =>
      match last_row vehicle_id rest with
      | Some r' => Some r'
      | None => if decide (row_id r = vehicle_id) then Some r else None
      end
  end.

Definition roster_unchanged (s s' : state) : Prop :=
  vehicle_ids s' = vehicle_ids s
  /\ placards s' = placards s
  /\ license_plates s' = license_plates s
  /\ vehicle_names s' = vehicle_names s.

(** The roster of [s'] is the feed and nothing else. *)
Definition roster_is_feed (rows : list roster_row) (s' : state) : Prop :=
  vehicle_ids s' = list_to_set (row_id <$> rows)
  /\ forall vehicle_id,
       placards s' !! vehicle_id = row_placard <$> last_row vehicle_id rows
       /\ license_plates s' !! vehicle_id = row_plate <$> last_row vehicle_id rows
       /\ vehicle_names s' !! vehicle_id = row_name <$> last_row vehicle_id rows.

(** The id set of [s'] is the feed's; the three dictionaries of [s'] are
    those of [s] overwritten at the ids of the feed. *)
Definition roster_updated (rows : list roster_row) (s s' : state) : Prop :=
  vehicle_ids s' = list_to_set (row_id <$> rows)
  /\ forall vehicle_id,
       placards s' !! vehicle_id
       = match last_row vehicle_id rows with
         | Some r => Some (row_placard r)
         | None => placards s !! vehicle_id
         end
       /\ license_plates s' !! vehicle_id
          = match last_row vehicle_id rows with
            | Some r => Some (row_plate r)
            | None => license_plates s !! vehicle_id
            end
       /\ vehicle_names s' !! vehicle_id
          = match last_row vehicle_id rows with
            | Some r => Some (row_name r)
            | None => vehicle_names s !! vehicle_id
            end.

(** Atomic refresh: the call leaves the roster as it was, or leaves exactly
    the feed it was given. *)
Definition refresh_is_atomic (w : world) (s : state) : Prop :=
  let s' := (get_vehicle_details w s).2 in
  roster_unchanged s s'
  \/ exists rows, rows_of (sheet w (sheet_calls s)) = Some rows
                  /\ roster_is_feed rows s'.

(** [m] leaves the observation [proj] of the state as it found it. *)
Definition frames {X A : Type} (proj : state -> X) (w : world) (m : M A) : Prop :=
  forall s, proj (m w s).2 = proj s.

(** No location response of the world lists the vehicle. *)
Definition never_listed (vehicle_id : string) (w : world) : Prop :=
  forall k body vs v,
    samsara w k = LocationsOk body ->
    vehicles body = Some vs ->
    v ∈ vs ->
    v_id v <> Some vehicle_id.

(** ** Sample inputs *)

(** A world in which every collaborator but the notification sink is down. *)
Definition outage_world : world :=
  {| clock := fun k => 1700000000 + Z.of_nat k;
     sheet := fun _ => SheetUnreachable (IOError "sheet unreachable");
     samsara := fun _ => LocationsFail (IOError "connection timed out");
     s3 := fun _ => S3Fails (IOError "bucket unreachable");
     sfmta := fun _ => TelemetryFail (HTTPError "503 Server Error");
     smtp := fun _ => None;
     SAMSARA_SFMTA_GROUP_ID := Some (Numeral 1234);
     SFMTA_TECH_PROVIDER_ID := Some (Numeral 7);
     SFMTA_SHUTTLE_COMPANY_ID := Some "42";
     strftime_localtime := fun t => pretty t;
     float_repr := fun _ => "0.0";
     encode_basestring := fun text => dquote +:+ text +:+ dquote;
     math_domain_error := fun _ _ _ _ => false;
     schedule := fun _ => [] |}.

Definition with_clock (f : nat -> Z) (w : world) : world :=
  {| clock := f; sheet := sheet w; samsara := samsara w; s3 := s3 w;
     sfmta := sfmta w; smtp := smtp w;
     SAMSARA_SFMTA_GROUP_ID := SAMSARA_SFMTA_GROUP_ID w;
     SFMTA_TECH_PROVIDER_ID := SFMTA_TECH_PROVIDER_ID w;
     SFMTA_SHUTTLE_COMPANY_ID := SFMTA_SHUTTLE_COMPANY_ID w;
     strftime_localtime := strftime_localtime w; float_repr := float_repr w;
     encode_basestring := encode_basestring w;
     math_domain_error := math_domain_error w; schedule := schedule w |}.

Definition with_sheet (f : nat -> sheet_reply) (w : world) : world :=
  {| clock := clock w; sheet := f; samsara := samsara w; s3 := s3 w;
     sfmta := sfmta w; smtp := smtp w;
     SAMSARA_SFMTA_GROUP_ID := SAMSARA_SFMTA_GROUP_ID w;
     SFMTA_TECH_PROVIDER_ID := SFMTA_TECH_PROVIDER_ID w;
     SFMTA_SHUTTLE_COMPANY_ID := SFMTA_SHUTTLE_COMPANY_ID w;
     strftime_localtime := strftime_localtime w; float_repr := float_repr w;
     encode_basestring := encode_basestring w;
     math_domain_error := math_domain_error w; schedule := schedule w |}.

Definition with_s3 (f : nat -> s3_reply) (w : world) : world :=
  {| clock := clock w; sheet := sheet w; samsara := samsara w; s3 := f;
     sfmta := sfmta w; smtp := smtp w;
     SAMSARA_SFMTA_GROUP_ID := SAMSARA_SFMTA_GROUP_ID w;
     SFMTA_TECH_PROVIDER_ID := SFMTA_TECH_PROVIDER_ID w;
     SFMTA_SHUTTLE_COMPANY_ID := SFMTA_SHUTTLE_COMPANY_ID w;
     strftime_localtime := strftime_localtime w; float_repr := float_repr w;
     encode_basestring := encode_basestring w;
     math_domain_error := math_domain_error w; schedule := schedule w |}.

Definition with_smtp (f : nat -> option exn) (w : world) : world :=
  {| clock := clock w; sheet := sheet w; samsara := samsara w; s3 := s3 w;
     sfmta := sfmta w; smtp := f;
     SAMSARA_SFMTA_GROUP_ID := SAMSARA_SFMTA_GROUP_ID w;
     SFMTA_TECH_PROVIDER_ID := SFMTA_TECH_PROVIDER_ID w;
     SFMTA_SHUTTLE_COMPANY_ID := SFMTA_SHUTTLE_COMPANY_ID w;
     strftime_localtime := strftime_localtime w; float_repr := float_repr w;
     encode_basestring := encode_basestring w;
     math_domain_error := math_domain_error w; schedule := schedule w |}.

Definition with_samsara (f : nat -> samsara_reply) (w : world) : world :=
  {| clock := clock w; sheet := sheet w; samsara := f; s3 := s3 w;
     sfmta := sfmta w; smtp := smtp w;
     SAMSARA_SFMTA_GROUP_ID := SAMSARA_SFMTA_GROUP_ID w;
     SFMTA_TECH_PROVIDER_ID := SFMTA_TECH_PROVIDER_ID w;
     SFMTA_SHUTTLE_COMPANY_ID := SFMTA_SHUTTLE_COMPANY_ID w;
     strftime_localtime := strftime_localtime w; float_repr := float_repr w;
     encode_basestring := encode_basestring w;
     math_domain_error := math_domain_error w; schedule := schedule w |}.

(** Every location response lists vehicle 305 and no other. *)
Definition vehicle_305 : vehicle_json :=
  {| v_id := Some "305"; v_latitude := Some (Some 37%R);
     v_longitude := Some (Some (-122)%R); v_onTrip := Some true |}.

Definition tracking_world : world :=
  with_samsara (fun _ => LocationsOk {| vehicles := Some [vehicle_305] |})
    outage_world.

Definition stop_here : stop_json :=
  {| StopId := 4201; StopLocationLatitude := Some 37%R;
     StopLocationLongitude := Some (-122)%R |}.

Definition stops_world (stops : list stop_json) : world :=
  with_s3 (fun _ => S3Stops stops) outage_world.


Definition with_schedule (f : state -> list nat) (w : world) : world :=
  {| clock := clock w; sheet := sheet w; samsara := samsara w; s3 := s3 w;
     sfmta := sfmta w; smtp := smtp w;
     SAMSARA_SFMTA_GROUP_ID := SAMSARA_SFMTA_GROUP_ID w;
     SFMTA_TECH_PROVIDER_ID := SFMTA_TECH_PROVIDER_ID w;
     SFMTA_SHUTTLE_COMPANY_ID := SFMTA_SHUTTLE_COMPANY_ID w;
     strftime_localtime := strftime_localtime w; float_repr := float_repr w;
     encode_basestring := encode_basestring w;
     math_domain_error := math_domain_error w; schedule := f |}.




(** Vehicle 212 in the roster, without a position. *)
Definition listed_state : state :=
  set_vehicle_names <["212" := "Shuttle 1"]>
    (set_license_plates <["212" := "ABC123"]>
       (set_placards <["212" := "P1"]>
          (set_vehicle_ids (fun _ => {["212"]}) initial_state))).

(** Vehicle 212 located at a stop, with the given on-trip flag. *)
Definition located_state (on_trip : bool) : state :=
  set_vehicle_onTrip <["212" := on_trip]>
    (set_vehicle_long <["212" := Some (-122)%R]>
       (set_vehicle_lat <["212" := Some 37%R]> listed_state)).

(** The same, ten seconds after a notification. *)
Definition cooling_state : state :=
  set_LAST_ERROR_EMAIL_TIME (fun _ => 1699999990) (located_state false).

Definition complete_entry (id placard plate name : string) : sheet_entry :=
  {| gsx_samsaradeviceid := Some {| dollar_t := Some id |};
     gsx_vehicleplacardnumber := Some {| dollar_t := Some placard |};
     gsx_licenseplatenumber := Some {| dollar_t := Some plate |};
     gsx_vehicleidname := Some {| dollar_t := Some name |} |}.

(** An entry whose placard column is missing. *)
Definition broken_entry (id : string) : sheet_entry :=
  {| gsx_samsaradeviceid := Some {| dollar_t := Some id |};
     gsx_vehicleplacardnumber := None;
     gsx_licenseplatenumber := None;
     gsx_vehicleidname := None |}.

Definition feed_world (entries : list sheet_entry) : world :=
  with_sheet
    (fun _ => SheetStatus 200 (inr {| feed := Some {| entry := Some entries |} |}))
    outage_world.

(** ** Further vocabulary *)

(** [m] keeps the invariant [I]. *)
Definition keeps (I : state -> Prop) (w : world) {A : Type} (m : M A) : Prop :=
  forall s, I s -> I (m w s).2.

(** Every step the task can come to take satisfies [P]. *)
Fixpoint all_steps {A : Type} (P : forall B : Type, M B -> Prop) (p : proc A) : Prop :=
  match p with
  | Done _ => True
  | Act m k => P _ m /\ forall r, all_steps P (k r)
  end.

Definition steps_frame {X A : Type} (proj : state -> X) (w : world) (p : proc A) : Prop :=
  all_steps (fun B (m : M B) => frames proj w m) p.

Definition steps_keep {A : Type} (I : state -> Prop) (w : world) (p : proc A) : Prop :=
  all_steps (fun B (m : M B) => keeps I w m) p.

(** What a task does whatever the other threads do between its steps, as
    long as [I] holds whenever it takes one: every step keeps [I], the steps
    of the task raise the counter [c] by [budget] in all, and the task
    finishes with an outcome in [Q]. *)
Fixpoint tallies {A : Type} (I : state -> Prop) (c : state -> nat)
    (Q : result A -> Prop) (w : world) (p : proc A) (budget : nat) : Prop :=
  match p with
  | Done r => budget = 0%nat /\ Q r
  | Act m k =>
      forall s, I s ->
        I (m w s).2
        /\ exists spent,
             (spent <= budget)%nat
             /\ c (m w s).2 = (c s + spent)%nat
             /\ tallies I c Q w (k (m w s).1) (budget - spent)
  end.

Definition returns {A : Type} (r : result A) : Prop := exists a, r = Return a.
Definition raises {A : Type} (r : result A) : Prop := exists e, r = Raise e.

(** The outcomes of the tasks of [pool.map f xs], in the order of [xs]. *)
Definition pool_results {A B : Type} (f : A -> proc B) (xs : list A)
    (w : world) (s : state) : list (result B) :=
  let '(tasks, failed, s1) := interleave (schedule w s) (f <$> xs) None w s in
  (join tasks failed w s1).1.1.

(** The first [n] steps of a task, taken without another thread in between:
    the task that is left, and the state. *)
Fixpoint advance {A : Type} (n : nat) (p : proc A) (w : world) (s : state)
    : proc A * state :=
  match n, p with
  | S n', Act m k => let '(r, s1) := m w s in advance n' (k r) w s1
  | _, _ => (p, s)
  end.

(** The state in which a thread of [push_vehicle_data] started in [s] is
    when its [MAX_RETRIES] requests have failed and line 356 has handed over
    its notification: line 357 is still to come. *)
Definition alert_sent (s : state) : state :=
  set_outbox (fun l => l ++ [site_mail TelemetryExhausted])
    (set_smtp_calls S
       (set_clock_reads S (set_sfmta_calls (Nat.add MAX_RETRIES) s))).


(** A complete vehicle of a location response. *)
Record position_row : Type := {
  pos_id : string;
  pos_latitude : option R;
  pos_longitude : option R;
  pos_onTrip : bool;
}.

Definition vehicle_of_position (p : position_row) : vehicle_json :=
  {| v_id := Some (pos_id p);
     v_latitude := Some (pos_latitude p);
     v_longitude := Some (pos_longitude p);
     v_onTrip := Some (pos_onTrip p) |}.

(** What lines 262-265 do with a complete vehicle. *)
Definition store_position (p : position_row) (s : state) : state :=
  set_vehicle_onTrip <[pos_id p := pos_onTrip p]>
    (set_vehicle_long <[pos_id p := pos_longitude p]>
       (set_vehicle_lat <[pos_id p := pos_latitude p]> s)).

(** The last vehicle of the response with a given id. *)
Fixpoint last_position (vehicle_id : string) (rows : list position_row)
    : option position_row :=
  match rows with
  | [] => None
  | p :: rest =>
      match last_position vehicle_id rest with
      | Some p' => Some p'
      | None => if decide (pos_id p = vehicle_id) then Some p else None
      end
  end.

(** The part of [get_vehicle_details] that follows [urlopen]. *)
Definition read_feed (code : Z) (content : exn + (exn + sheet_json)) : M string :=
  (if decide (code ≠ 200) then
     response_read content;;
     mret tt
   else
     body ← response_read content;
     json_data ← json_loads body;
     modify (set_vehicle_ids (fun _ => ∅));;
     f ← subscript (feed json_data) "feed";
     entries ← subscript (entry f) "entry";
     for_each entries store_entry);;
  mret "Success".

Definition with_group_id (g : option env_int) (w : world) : world :=
  {| clock := clock w; sheet := sheet w; samsara := samsara w; s3 := s3 w;
     sfmta := sfmta w; smtp := smtp w;
     SAMSARA_SFMTA_GROUP_ID := g;
     SFMTA_TECH_PROVIDER_ID := SFMTA_TECH_PROVIDER_ID w;
     SFMTA_SHUTTLE_COMPANY_ID := SFMTA_SHUTTLE_COMPANY_ID w;
     strftime_localtime := strftime_localtime w; float_repr := float_repr w;
     encode_basestring := encode_basestring w;
     math_domain_error := math_domain_error w; schedule := schedule w |}.

Definition with_sfmta (f : nat -> sfmta_reply) (w : world) : world :=
  {| clock := clock w; sheet := sheet w; samsara := samsara w; s3 := s3 w;
     sfmta := f; smtp := smtp w;
     SAMSARA_SFMTA_GROUP_ID := SAMSARA_SFMTA_GROUP_ID w;
     SFMTA_TECH_PROVIDER_ID := SFMTA_TECH_PROVIDER_ID w;
     SFMTA_SHUTTLE_COMPANY_ID := SFMTA_SHUTTLE_COMPANY_ID w;
     strftime_localtime := strftime_localtime w; float_repr := float_repr w;
     encode_basestring := encode_basestring w;
     math_domain_error := math_domain_error w; schedule := schedule w |}.

(** Everything [build_sfmta_payload] looks up for a vehicle is there, and the
    provider id is a numeral. *)
Definition has_payload (w : world) (s : state) (vehicle_id : string) : Prop :=
  (exists tech_provider_id,
     SFMTA_TECH_PROVIDER_ID w = Some (Numeral tech_provider_id))
  /\ is_Some (SFMTA_SHUTTLE_COMPANY_ID w)
  /\ is_Some (placards s !! vehicle_id)
  /\ is_Some (license_plates s !! vehicle_id)
  /\ is_Some (vehicle_onTrip s !! vehicle_id)
  /\ is_Some (vehicle_lat s !! vehicle_id)
  /\ is_Some (vehicle_long s !! vehicle_id).

(** The dictionaries [build_sfmta_payload] reads. *)
Definition registers (s : state)
    : gmap string string * gmap string string * gmap string bool
      * gmap string (option R) * gmap string (option R) :=
  (placards s, license_plates s, vehicle_onTrip s, vehicle_lat s, vehicle_long s).

(** A world whose telemetry endpoint accepts every request, and is out of
    reach otherwise. *)
Definition accepting_world : world := with_sfmta (fun _ => TelemetryOk) outage_world.

(** The part of the [try] block that follows a successful location fetch
    (lines 418-431). *)
Definition dispatch_and_wait (start_time : Z) : M unit :=
  now ← time_time;
  push_all_vehicle_data start_time;;
  end_time ← time_time;
  if decide (FREQUENCY - (end_time - start_time) >= 0)
  then time_sleep (FREQUENCY - (end_time - start_time))
  else mret tt.

(** ** Further sample inputs *)

(** The roster source answers 503 with a body that is not JSON. *)
Definition bad_status_world : world :=
  with_sheet
    (fun _ => SheetStatus 503 (inl (ValueError "No JSON object could be decoded")))
    outage_world.

(** The roster source answers 503 and the connection breaks while the body is
    read. *)
Definition unreadable_world : world :=
  with_sheet (fun _ => SheetUnreadable 503 (IOError "connection reset by peer"))
    outage_world.

(** The roster source answers 200 with a JSON object without [feed]. *)
Definition no_feed_world : world :=
  with_sheet (fun _ => SheetStatus 200 (inr {| feed := None |})) outage_world.

(** Vehicle 305, on a trip, its coordinates unknown to the provider. *)
Definition position_305 : position_row :=
  {| pos_id := "305"; pos_latitude := None; pos_longitude := None;
     pos_onTrip := true |}.

Definition row_305 : roster_row :=
  {| row_id := "305"; row_placard := "P7"; row_plate := "XYZ789";
     row_name := "Shuttle 7" |}.

(** Every collaborator answers: the roster and the locations list vehicle
    305, the telemetry endpoint accepts. *)
Definition healthy_world : world :=
  with_sfmta (fun _ => TelemetryOk)
    (with_samsara
       (fun _ => LocationsOk {| vehicles := Some [vehicle_of_position position_305] |})
       (feed_world [complete_entry "305" "P7" "XYZ789" "Shuttle 7"])).

(** The state the first location fetch of [healthy_world] leaves. *)
Definition served_state : state :=
  store_position position_305
    (set_samsara_calls S
       (store_row row_305
          (set_vehicle_ids (fun _ => ∅)
             (set_sheet_calls S (set_clock_reads S initial_state))))).


(** Vehicles 212 and 305, both on a trip, their coordinates unknown to the
    provider. *)
Definition fleet_state : state :=
  set_vehicle_onTrip (fun m => <["305" := true]> (<["212" := true]> m))
    (set_vehicle_long (fun m => <["305" := None]> (<["212" := None]> m))
       (set_vehicle_lat (fun m => <["305" := None]> (<["212" := None]> m))
          (set_license_plates
             (fun m => <["305" := "XYZ789"]> (<["212" := "ABC123"]> m))
             (set_placards (fun m => <["305" := "P7"]> (<["212" := "P1"]> m))
                (set_vehicle_ids (fun _ => {["212"; "305"]}) initial_state))))).

(** * Properties *)

(** ** Great-circle distance *)

Module GeoFacts.

Import Geo.
Open Scope R_scope.

Lemma radians_0 : radians 0 = 0.
Proof. unfold radians. lra. Qed.

Lemma radians_opp (x : R) : radians (- x) = - radians x.
Proof. unfold radians. lra. Qed.

Lemma sin_half_sqr_opp (x : R) :
  sin (- x / 2) * sin (- x / 2) = sin (x / 2) * sin (x / 2).
Proof.
  replace (- x / 2) with (- (x / 2)) by lra.
  rewrite sin_neg. lra.
Qed.

Lemma haversine_self (lat lon : R) : haversine lat lon lat lon = 0.
Proof.
  unfold haversine.
  replace (lat - lat) with 0 by lra.
  replace (lon - lon) with 0 by lra.
  rewrite radians_0.
  replace (0 / 2) with 0 by lra.
  rewrite sin_0. lra.
Qed.

Lemma haversine_sym (lat1 lon1 lat2 lon2 : R) :
  haversine lat1 lon1 lat2 lon2 = haversine lat2 lon2 lat1 lon1.
Proof.
  unfold haversine.
  replace (lat2 - lat1) with (- (lat1 - lat2)) by lra.
  replace (lon2 - lon1) with (- (lon1 - lon2)) by lra.
  rewrite !radians_opp.
  set (p := radians (lat1 - lat2)).
  set (q := radians (lon1 - lon2)).
  pose proof (sin_half_sqr_opp p) as Hp.
  pose proof (sin_half_sqr_opp q) as Hq.
  rewrite Hp.
  rewrite !Rmult_assoc, Hq.
  ring.
Qed.

Lemma atan2_0_1 : atan2 0 1 = 0.
Proof.
  unfold atan2.
  destruct (Rlt_dec 0 1) as [_ | H]; [| exfalso; lra].
  replace (0 / 1) with 0 by lra.
  apply atan_0.
Qed.

(** The argument of the two square roots stays in [[0, 1]], so neither
    [math.sqrt] call can leave its domain. *)
Lemma haversine_range (lat1 lon1 lat2 lon2 : R) :
  0 <= haversine lat1 lon1 lat2 lon2 <= 1.
Proof.
  unfold haversine.
  set (u := radians lat1). set (v := radians lat2).
  replace (radians (lat2 - lat1)) with (v - u) by (unfold u, v, radians; lra).
  set (t := sin (radians (lon2 - lon1) / 2)).
  assert (Ht : 0 <= t * t <= 1).
  { pose proof (SIN_bound (radians (lon2 - lon1) / 2)) as [H1 H2].
    fold t in H1, H2. nra. }
  assert (Hs : sin ((v - u) / 2) * sin ((v - u) / 2) = (1 - cos (v - u)) / 2).
  { pose proof (cos_2a_sin ((v - u) / 2)) as H.
    replace (2 * ((v - u) / 2)) with (v - u) in H by lra. lra. }
  rewrite Hs.
  assert (Hd : cos (v - u) = cos v * cos u + sin v * sin u) by apply cos_minus.
  assert (Hp : cos (v + u) = cos v * cos u - sin v * sin u) by apply cos_plus.
  pose proof (COS_bound (v - u)) as [Hd1 Hd2].
  pose proof (COS_bound (v + u)) as [Hp1 Hp2].
  assert (Hc : cos u * cos v = (cos (v - u) + cos (v + u)) / 2) by lra.
  rewrite !Rmult_assoc.
  rewrite <- (Rmult_assoc (cos u) (cos v)).
  rewrite Hc.
  set (w := t * t) in *.
  set (cd := cos (v - u)) in *.
  set (cp := cos (v + u)) in *.
  split; nra.
Qed.


Lemma distance_self (lat lon : R) :
  distance (Some lat) (Some lon) (Some lat) (Some lon) = 0.
Proof.
  unfold distance.
  rewrite haversine_self.
  replace (1 - 0) with 1 by lra.
  rewrite sqrt_0, sqrt_1, atan2_0_1. lra.
Qed.

Lemma distance_sym (a_lat a_lon b_lat b_lon : option R) :
  distance a_lat a_lon b_lat b_lon = distance b_lat b_lon a_lat a_lon.
Proof.
  destruct a_lat as [lat1 |], a_lon as [lon1 |], b_lat as [lat2 |],
    b_lon as [lon2 |]; cbn [distance]; try reflexivity.
  rewrite (haversine_sym lat1 lon1 lat2 lon2). reflexivity.
Qed.

(** A null component puts the two coordinates [99999] apart. *)
Lemma distance_null_dest (origin_lat origin_long dest_long : option R) :
  distance origin_lat origin_long None dest_long = 99999.
Proof. destruct origin_lat, origin_long; reflexivity. Qed.

Lemma distance_null_origin (origin_long dest_lat dest_long : option R) :
  distance None origin_long dest_lat dest_long = 99999.
Proof. reflexivity. Qed.

(** C9.  The distance from a coordinate with non-null latitude and longitude
    to itself is 0, and the distance is symmetric in its two coordinates
    (null components included: both sides are then the far-away value). *)
Theorem distance_self_zero_and_symmetric :
  (forall lat lon : R, distance (Some lat) (Some lon) (Some lat) (Some lon) = 0)
  /\ (forall a_lat a_lon b_lat b_lon : option R,
        distance a_lat a_lon b_lat b_lon = distance b_lat b_lon a_lat a_lon).
Proof. split; [exact distance_self | exact distance_sym]. Qed.

End GeoFacts.

(** ** Running the monad *)

Lemma run_bind {A B : Type} (m : M A) (f : A -> M B) (w : world) (s : state) :
  (m ≫= f) w s =
  match m w s with
  | (Return a, s1) => f a w s1
  | (Raise e, s1) => (Raise e, s1)
  end.
Proof. reflexivity. Qed.

Lemma run_bind_return {A B : Type} (m : M A) (f : A -> M B) w s a s1 :
  m w s = (Return a, s1) -> (m ≫= f) w s = f a w s1.
Proof. intros H. rewrite run_bind, H. reflexivity. Qed.

Lemma run_bind_raise {A B : Type} (m : M A) (f : A -> M B) w s e s1 :
  m w s = (Raise e, s1) -> (m ≫= f) w s = (Raise e, s1).
Proof. intros H. rewrite run_bind, H. reflexivity. Qed.

Lemma run_try_return {A : Type} (m : M A) (h : exn -> M A) w s a s1 :
  m w s = (Return a, s1) -> try_except m h w s = (Return a, s1).
Proof. intros H. unfold try_except. rewrite H. reflexivity. Qed.

Lemma run_try_raise {A : Type} (m : M A) (h : exn -> M A) w s e s1 :
  m w s = (Raise e, s1) -> try_except m h w s = h e w s1.
Proof. intros H. unfold try_except. rewrite H. reflexivity. Qed.

Ltac munfold :=
  unfold os_environ, global_item, asks, gets, modify, subscript, raise,
    mbind, M_bind, mret, M_ret in *.

(** ** What the program leaves untouched *)

Create HintDb frames discriminated.

Section Frames.

Context {X : Type}.
Variables (proj : state -> X) (w : world).

Lemma frames_mret {A : Type} (a : A) : frames proj w (mret a).
Proof. intros s. reflexivity. Qed.

Lemma frames_raise {A : Type} (e : exn) : frames proj w (raise e : M A).
Proof. intros s. reflexivity. Qed.

Lemma frames_gets {A : Type} (f : state -> A) : frames proj w (gets f).
Proof. intros s. reflexivity. Qed.

Lemma frames_asks {A : Type} (f : world -> A) : frames proj w (asks f).
Proof. intros s. reflexivity. Qed.

Lemma frames_bind {A B : Type} (m : M A) (f : A -> M B) :
  frames proj w m -> (forall a, frames proj w (f a)) -> frames proj w (m ≫= f).
Proof.
  intros Hm Hf s. rewrite run_bind. specialize (Hm s).
  destruct (m w s) as [[a | e] s1]; cbn in *; [| exact Hm].
  rewrite (Hf a s1). exact Hm.
Qed.

Lemma frames_try_except {A : Type} (m : M A) (h : exn -> M A) :
  frames proj w m -> (forall e, frames proj w (h e)) ->
  frames proj w (try_except m h).
Proof.
  intros Hm Hh s. unfold try_except. specialize (Hm s).
  destruct (m w s) as [[a | e] s1]; cbn in *; [exact Hm |].
  rewrite (Hh e s1). exact Hm.
Qed.

Lemma frames_subscript {A : Type} (d_key : option A) (key : string) :
  frames proj w (subscript d_key key).
Proof. intros s. destruct d_key; reflexivity. Qed.

Lemma frames_response_read {A : Type} (content : exn + A) :
  frames proj w (response_read content).
Proof. intros s. destruct content; reflexivity. Qed.

Lemma frames_json_loads {A : Type} (body : exn + A) :
  frames proj w (json_loads body).
Proof. intros s. destruct body; reflexivity. Qed.

Lemma frames_int (value : env_int) : frames proj w (int value).
Proof. intros s. destruct value; reflexivity. Qed.

Lemma frames_for_each {A : Type} (xs : list A) (f : A -> M unit) :
  (forall a, a ∈ xs -> frames proj w (f a)) -> frames proj w (for_each xs f).
Proof.
  induction xs as [| x rest IH]; intros Hf; cbn [for_each].
  - apply frames_mret.
  - apply frames_bind.
    + apply Hf. left.
    + intros _. apply IH. intros a Ha. apply Hf. right. exact Ha.
Qed.

Lemma frames_retry {A : Type} (attempt exhausted : M A) (n : nat) :
  frames proj w attempt -> frames proj w exhausted ->
  frames proj w (retry attempt exhausted n).
Proof.
  intros Ha He. induction n as [| n IH]; cbn [retry]; [exact He |].
  apply frames_try_except; [exact Ha | intros _; exact IH].
Qed.

End Frames.

#[export] Hint Resolve frames_mret frames_raise frames_gets frames_asks
  frames_subscript frames_response_read frames_json_loads frames_int : frames.
#[export] Hint Extern 2 (frames _ _ (_ ≫= _)) =>
  apply frames_bind; [| intros ?] : frames.
#[export] Hint Extern 2 (frames _ _ (try_except _ _)) =>
  apply frames_try_except; [| intros ?] : frames.
#[export] Hint Extern 2 (frames _ _ (if ?c then _ else _)) => destruct c : frames.
#[export] Hint Extern 2 (frames _ _ (match ?c with _ => _ end)) => destruct c : frames.

(** ** Tasks: run alone *)

Lemma run_atomic {A : Type} (m : M A) (w : world) (s : state) :
  run (atomic m) w s = m w s.
Proof. cbn. destruct (m w s). reflexivity. Qed.

Lemma run_proc_bind {A B : Type} (p : proc A) (f : A -> proc B)
    (w : world) (s : state) :
  run (p ≫= f) w s = (run p ≫= fun a => run (f a)) w s.
Proof.
  revert s. induction p as [[a | e] | C m k IH]; intros s; [reflexivity .. |].
  rewrite run_bind. cbn. destruct (m w s) as [r s1].
  exact (IH r s1).
Qed.

Lemma run_proc_try {A : Type} (p : proc A) (h : exn -> proc A)
    (w : world) (s : state) :
  run (proc_try p h) w s = try_except (run p) (fun e => run (h e)) w s.
Proof.
  revert s. induction p as [[a | e] | C m k IH]; intros s.
  - reflexivity.
  - unfold try_except. cbn. destruct (run (h e) w s). reflexivity.
  - unfold try_except in *. cbn. destruct (m w s) as [r s1]. apply IH.
Qed.

Lemma bind_ext {A B : Type} (m1 m2 : M A) (f1 f2 : A -> M B) (w : world) :
  (forall s, m1 w s = m2 w s) ->
  (forall a s, f1 a w s = f2 a w s) ->
  forall s, (m1 ≫= f1) w s = (m2 ≫= f2) w s.
Proof.
  intros Hm Hf s. rewrite !run_bind, Hm.
  destruct (m2 w s) as [[a | e] s1]; [apply Hf | reflexivity].
Qed.

Lemma try_except_ext {A : Type} (m1 m2 : M A) (h1 h2 : exn -> M A) (w : world) :
  (forall s, m1 w s = m2 w s) ->
  (forall e s, h1 e w s = h2 e w s) ->
  forall s, try_except m1 h1 w s = try_except m2 h2 w s.
Proof.
  intros Hm Hh s. unfold try_except. rewrite Hm.
  destruct (m2 w s) as [[a | e] s1]; [reflexivity | apply Hh].
Qed.

Ltac thread_step :=
  intros; cbv zeta;
  first
    [ reflexivity
    | apply run_atomic
    | rewrite run_proc_bind; apply bind_ext
    | rewrite run_proc_try; apply try_except_ext
    | match goal with |- context [if ?c then _ else _] => destruct c end
    | match goal with |- context [let '(_, _) := ?p in _] => destruct p end ].

(** Run without another thread in between, the steps of a task are the
    function they were cut from. *)
Lemma run_find_stop_id_thread (lat lon : option R) (w : world) (s : state) :
  run (find_stop_id_thread lat lon) w s = find_stop_id lat lon w s.
Proof. unfold find_stop_id_thread, find_stop_id. repeat thread_step. Qed.

Lemma run_build_sfmta_payload_thread (vehicle_id : string) (current_time : Z)
    (w : world) (s : state) :
  run (build_sfmta_payload_thread vehicle_id current_time) w s
  = build_sfmta_payload vehicle_id current_time w s.
Proof.
  unfold build_sfmta_payload_thread, build_sfmta_payload.
  repeat first [apply run_find_stop_id_thread | thread_step].
Qed.

Lemma run_telemetry_exhausted_thread (w : world) (s : state) :
  run telemetry_exhausted_thread w s = telemetry_exhausted w s.
Proof. unfold telemetry_exhausted_thread, telemetry_exhausted. repeat thread_step. Qed.

Lemma run_telemetry_loop_thread (data : string) (local_retries : nat)
    (w : world) (s : state) :
  run (telemetry_loop_thread data local_retries) w s
  = telemetry_loop data local_retries w s.
Proof.
  revert s. induction local_retries as [| n IH]; intros s.
  - apply run_telemetry_exhausted_thread.
  - cbn [telemetry_loop_thread telemetry_loop].
    rewrite run_proc_try. apply try_except_ext; [| intros _; exact IH].
    repeat thread_step.
Qed.

Lemma run_push_vehicle_data_thread (vehicle_id : string) (current_time : Z)
    (w : world) (s : state) :
  run (push_vehicle_data_thread vehicle_id current_time) w s
  = push_vehicle_data vehicle_id current_time w s.
Proof.
  unfold push_vehicle_data_thread, push_vehicle_data.
  rewrite run_proc_bind.
  apply bind_ext; [apply run_build_sfmta_payload_thread |].
  intros payload s1. rewrite run_proc_bind.
  apply bind_ext; [apply run_atomic |].
  intros data s2. apply run_telemetry_loop_thread.
Qed.

(** ** Tasks: step by step *)

Lemma all_steps_ret {A : Type} (P : forall B : Type, M B -> Prop) (a : A) :
  all_steps P (mret a : proc A).
Proof. constructor. Qed.

Lemma all_steps_atomic {A : Type} (P : forall B : Type, M B -> Prop) (m : M A) :
  P _ m -> all_steps P (atomic m).
Proof. intros H. split; [exact H | intros r; constructor]. Qed.

Lemma all_steps_bind {A B : Type} (P : forall B : Type, M B -> Prop)
    (p : proc A) (f : A -> proc B) :
  all_steps P p -> (forall a, all_steps P (f a)) -> all_steps P (p ≫= f).
Proof.
  induction p as [[a | e] | C m k IH]; intros Hp Hf.
  - apply Hf.
  - constructor.
  - destruct Hp as [Hm Hk]. split; [exact Hm |].
    intros r. apply IH; [apply Hk | exact Hf].
Qed.

Lemma all_steps_try {A : Type} (P : forall B : Type, M B -> Prop)
    (p : proc A) (h : exn -> proc A) :
  all_steps P p -> (forall e, all_steps P (h e)) -> all_steps P (proc_try p h).
Proof.
  induction p as [[a | e] | C m k IH]; intros Hp Hh.
  - constructor.
  - apply Hh.
  - destruct Hp as [Hm Hk]. split; [exact Hm |].
    intros r. apply IH; [apply Hk | exact Hh].
Qed.

Lemma all_steps_mono {A : Type} (P Q : forall B : Type, M B -> Prop) (p : proc A) :
  (forall B (m : M B), P B m -> Q B m) -> all_steps P p -> all_steps Q p.
Proof.
  intros HPQ. induction p as [r | C m k IH]; intros Hp; [constructor |].
  destruct Hp as [Hm Hk]. split; [apply HPQ, Hm | intros r; apply IH, Hk].
Qed.

Lemma steps_frame_keep {X A : Type} (proj : state -> X) (w : world)
    (p : proc A) (x : X) :
  steps_frame proj w p -> steps_keep (fun s => proj s = x) w p.
Proof.
  apply all_steps_mono. intros B m Hm s Hs. rewrite Hm. exact Hs.
Qed.

(** Walks through the steps of a task, leaving each step to [tac]. *)
Ltac steps_walk tac :=
  repeat (cbv zeta;
          first
            [ apply all_steps_ret
            | apply all_steps_atomic; tac
            | apply all_steps_bind; [| intros ?]
            | apply all_steps_try; [| intros ?]
            | match goal with
              | |- all_steps _ (if ?c then _ else _) => destruct c
              | |- all_steps _ (let '(_, _) := ?p in _) => destruct p
              end ]).

(** ** The pool: what every step keeps, the fan-out keeps *)

Section PoolKeeps.

Context {A : Type}.
Variables (I : state -> Prop) (w : world).

Lemma keeps_run (p : proc A) : steps_keep I w p -> keeps I w (run p).
Proof.
  induction p as [r | C m k IH]; intros Hp s Hs; cbn; [exact Hs |].
  destruct Hp as [Hm Hk]. specialize (Hm s Hs).
  destruct (m w s) as [r s1]. cbn in Hm. exact (IH r (Hk r) s1 Hm).
Qed.

Lemma keeps_interleave (picks : list nat) (tasks : list (proc A))
    (failed : option exn) (s : state) :
  Forall (steps_keep I w) tasks -> I s ->
  Forall (steps_keep I w) (interleave picks tasks failed w s).1.1
  /\ I (interleave picks tasks failed w s).2.
Proof.
  revert tasks failed s.
  induction picks as [| i rest IH]; intros tasks failed s Htasks Hs;
    [split; assumption |].
  cbn [interleave].
  destruct (tasks !! i) as [[r | C m k] |] eqn:Ei;
    [apply IH; assumption | | apply IH; assumption].
  pose proof (Forall_lookup_1 _ _ _ _ Htasks Ei) as [Hm Hk].
  specialize (Hm s Hs). destruct (m w s) as [r s1]. cbn in Hm.
  apply IH; [| exact Hm]. apply Forall_insert; [exact Htasks | apply Hk].
Qed.

Lemma keeps_join (tasks : list (proc A)) (failed : option exn) (s : state) :
  Forall (steps_keep I w) tasks -> I s -> I (join tasks failed w s).2.
Proof.
  revert failed s.
  induction tasks as [| p rest IH]; intros failed s Htasks Hs; [exact Hs |].
  cbn [join]. inversion Htasks as [| ? ? Hp Hrest]; subst.
  pose proof (keeps_run p Hp s Hs) as H1.
  destruct (run p w s) as [r s1]. cbn in H1.
  specialize (IH (note_failure r failed) s1 Hrest H1).
  destruct (join rest (note_failure r failed) w s1) as [[rs failed1] s2].
  exact IH.
Qed.

End PoolKeeps.

Lemma keeps_pool_map {A B : Type} (I : state -> Prop) (w : world)
    (f : A -> proc B) (xs : list A) :
  (forall x, steps_keep I w (f x)) -> keeps I w (pool_map f xs).
Proof.
  intros Hf s Hs. unfold pool_map.
  assert (Htasks : Forall (steps_keep I w) (f <$> xs)).
  { apply Forall_fmap, Forall_forall. intros x _. apply Hf. }
  destruct (keeps_interleave I w (schedule w s) (f <$> xs) None s Htasks Hs)
    as [H1 H2].
  destruct (interleave (schedule w s) (f <$> xs) None w s)
    as [[tasks failed] s1]. cbn in H1, H2.
  pose proof (keeps_join I w tasks failed s1 H1 H2) as H3.
  destruct (join tasks failed w s1) as [[results failed1] s2]. exact H3.
Qed.

Lemma frames_pool_map {X A B : Type} (proj : state -> X) (w : world)
    (f : A -> proc B) (xs : list A) :
  (forall x, steps_frame proj w (f x)) -> frames proj w (pool_map f xs).
Proof.
  intros Hf s.
  apply (keeps_pool_map (fun s' => proj s' = proj s) w f xs);
    [intros x; apply steps_frame_keep, Hf | reflexivity].
Qed.

(** ** The pool: how the call ends *)

Lemma note_failure_none {A : Type} (r : result A) (failed : option exn) :
  note_failure r failed = None <-> failed = None /\ returns r.
Proof.
  unfold returns. destruct failed as [e0 |], r as [a | e]; cbn; split;
    try discriminate; try (intros [H1 H2]; discriminate H1).
  - intros _. eauto.
  - intros _. reflexivity.
  - intros [_ [a Ha]]. discriminate Ha.
Qed.

Lemma join_failed {A : Type} (w : world) (tasks : list (proc A))
    (failed : option exn) (s : state) :
  (join tasks failed w s).1.2 = None
  <-> failed = None /\ Forall returns (join tasks failed w s).1.1.
Proof.
  revert failed s. induction tasks as [| p rest IH]; intros failed s.
  - cbn. split; [intros ->; split; [reflexivity | constructor] | intros [-> _]; reflexivity].
  - cbn [join]. destruct (run p w s) as [r s1].
    specialize (IH (note_failure r failed) s1).
    destruct (join rest (note_failure r failed) w s1) as [[rs failed1] s2].
    cbn in *. rewrite IH, note_failure_none, Forall_cons. tauto.
Qed.

Lemma join_results {A : Type} (w : world) (tasks : list (proc A))
    (failed : option exn) (s : state) (i : nat) (r : result A) :
  tasks !! i = Some (Done r) -> (join tasks failed w s).1.1 !! i = Some r.
Proof.
  revert failed s i. induction tasks as [| p rest IH]; intros failed s i Hi;
    [discriminate Hi |].
  cbn [join]. destruct (run p w s) as [r0 s1] eqn:Erun.
  specialize (IH (note_failure r0 failed) s1).
  destruct (join rest (note_failure r0 failed) w s1) as [[rs failed1] s2].
  destruct i as [| i]; cbn in *.
  - inversion Hi; subst p. cbn in Erun. inversion Erun. reflexivity.
  - apply IH. exact Hi.
Qed.

Lemma interleave_done {A : Type} (w : world) (picks : list nat)
    (tasks : list (proc A)) (failed : option exn) (s : state)
    (i : nat) (r : result A) :
  tasks !! i = Some (Done r) ->
  (interleave picks tasks failed w s).1.1 !! i = Some (Done r).
Proof.
  revert tasks failed s. induction picks as [| j rest IH];
    intros tasks failed s Hi; [exact Hi |].
  cbn [interleave].
  destruct (tasks !! j) as [[r' | C m k] |] eqn:Ej;
    [apply IH; exact Hi | | apply IH; exact Hi].
  destruct (m w s) as [r' s1]. apply IH.
  rewrite list_lookup_insert_ne; [exact Hi |].
  intros ->. rewrite Hi in Ej. discriminate Ej.
Qed.

Lemma interleave_failed {A : Type} (w : world) (picks : list nat)
    (tasks : list (proc A)) (s : state) :
  Forall (fun p => forall e, p <> Done (Raise e))
    (interleave picks tasks None w s).1.1 ->
  (interleave picks tasks None w s).1.2 = None.
Proof.
  revert tasks s. induction picks as [| j rest IH]; intros tasks s Hall;
    [reflexivity |].
  cbn [interleave] in *.
  destruct (tasks !! j) as [[r' | C m k] |] eqn:Ej;
    [apply IH; exact Hall | | apply IH; exact Hall].
  destruct (m w s) as [r' s1].
  destruct (k r') as [[a | e] | D m' k'] eqn:Ek; cbn [note_failure] in *;
    [apply IH; exact Hall | | apply IH; exact Hall].
  exfalso.
  assert (Hj : <[j := Done (Raise e)]> tasks !! j = Some (Done (Raise e))).
  { apply list_lookup_insert_eq. apply lookup_lt_Some in Ej. exact Ej. }
  pose proof (interleave_done w rest _ (Some e) s1 j (Raise e) Hj) as Hfinal.
  exact (Forall_lookup_1 _ _ _ _ Hall Hfinal e eq_refl).
Qed.

(** The call returns when every task returned, and raises when one raised. *)
Lemma pool_map_result {A B : Type} (f : A -> proc B) (xs : list A)
    (w : world) (s : state) :
  (Forall returns (pool_results f xs w s) ->
   (pool_map f xs w s).1 = Return (omap returned (pool_results f xs w s)))
  /\ (Exists raises (pool_results f xs w s) -> raises (pool_map f xs w s).1).
Proof.
  unfold pool_map, pool_results.
  pose proof (interleave_failed w (schedule w s) (f <$> xs) s) as Hnone.
  destruct (interleave (schedule w s) (f <$> xs) None w s)
    as [[tasks failed] s1]. cbn in Hnone.
  pose proof (join_failed w tasks failed s1) as Hjoin.
  pose proof (join_results w tasks failed s1) as Hres.
  destruct (join tasks failed w s1) as [[results failed1] s2].
  cbn in *. split.
  - intros Hall.
    assert (Hf1 : failed1 = None).
    { apply Hjoin. split; [| exact Hall]. apply Hnone.
      apply Forall_lookup. intros i p Hi e ->.
      pose proof (Forall_lookup_1 _ _ _ _ Hall (Hres i _ Hi)) as [a Ha].
      discriminate Ha. }
    rewrite Hf1. reflexivity.
  - intros Hex. destruct failed1 as [e |]; [exists e; reflexivity |].
    exfalso. destruct Hjoin as [Hjoin _].
    destruct (Hjoin eq_refl) as [_ Hall].
    apply Exists_exists in Hex as (r & Hin & e & ->).
    rewrite Forall_forall in Hall. destruct (Hall _ Hin) as [a Ha].
    discriminate Ha.
Qed.

(** ** The pool: counting what the tasks do *)

Section PoolTallies.

Context {A : Type}.
Variables (I : state -> Prop) (c : state -> nat) (w : world).

#[local] Abbreviation meets :=
  (fun (p : proc A) (spec : nat * (result A -> Prop)) =>
     tallies I c spec.2 w p spec.1).

Lemma tallies_run (Q : result A -> Prop) (p : proc A) (budget : nat) (s : state) :
  tallies I c Q w p budget -> I s ->
  I (run p w s).2
  /\ c (run p w s).2 = (c s + budget)%nat
  /\ Q (run p w s).1.
Proof.
  revert budget s. induction p as [r | C m k IH]; intros budget s Hp Hs.
  - destruct Hp as [-> HQ]. cbn. repeat split; [exact Hs | lia | exact HQ].
  - cbn [run]. destruct (Hp s Hs) as (HI & spent & Hle & Hc & Hk).
    destruct (m w s) as [r s1]. cbn in *.
    destruct (IH r (budget - spent)%nat s1 Hk HI) as (H1 & H2 & H3).
    repeat split; [exact H1 | lia | exact H3].
Qed.

Lemma sum_budgets_insert (specs : list (nat * (result A -> Prop))) (i : nat)
    (spec spec' : nat * (result A -> Prop)) :
  specs !! i = Some spec ->
  (sum_list_with fst (<[i := spec']> specs) + spec.1
   = sum_list_with fst specs + spec'.1)%nat.
Proof.
  assert (Hcons : forall (sp : nat * (result A -> Prop)) l,
            sum_list_with fst (sp :: l) = (sp.1 + sum_list_with fst l)%nat)
    by reflexivity.
  revert i. induction specs as [| sp rest IH]; intros i Hi; [discriminate Hi |].
  destruct i as [| i].
  - injection Hi as ->.
    change (<[0%nat := spec']> (spec :: rest)) with (spec' :: rest).
    rewrite !Hcons. rewrite (Nat.add_comm spec'.1), <- Nat.add_assoc.
    rewrite (Nat.add_comm spec'.1). rewrite Nat.add_assoc.
    rewrite (Nat.add_comm _ spec.1). reflexivity.
  - change (<[S i := spec']> (sp :: rest)) with (sp :: <[i := spec']> rest).
    rewrite !Hcons, <- !Nat.add_assoc. f_equal. apply IH. exact Hi.
Qed.

Lemma tallies_interleave (picks : list nat) (tasks : list (proc A))
    (specs : list (nat * (result A -> Prop))) (failed : option exn) (s : state) :
  Forall2 meets tasks specs -> I s ->
  exists specs',
    Forall2 meets (interleave picks tasks failed w s).1.1 specs'
    /\ I (interleave picks tasks failed w s).2
    /\ (c (interleave picks tasks failed w s).2 + sum_list_with fst specs'
        = c s + sum_list_with fst specs)%nat
    /\ snd <$> specs' = snd <$> specs.
Proof.
  revert tasks specs failed s.
  induction picks as [| i rest IH]; intros tasks specs failed s Hall Hs.
  { exists specs. repeat split; assumption. }
  cbn [interleave].
  destruct (tasks !! i) as [[r | C m k] |] eqn:Ei;
    [apply IH; assumption | | apply IH; assumption].
  destruct (Forall2_lookup_l _ _ _ _ _ Hall Ei) as (spec & Hspec & Hmeets).
  cbn in Hmeets. destruct (Hmeets s Hs) as (HI & spent & Hle & Hc & Hk).
  destruct (m w s) as [r s1]. cbn in *.
  set (spec' := ((spec.1 - spent)%nat, spec.2)).
  assert (Hall' : Forall2 meets (<[i := k r]> tasks) (<[i := spec']> specs)).
  { apply Forall2_insert; [exact Hall | exact Hk]. }
  match goal with |- context [interleave rest _ ?f w s1] =>
    destruct (IH _ _ f s1 Hall' HI) as (specs' & H1 & H2 & H3 & H4) end.
  exists specs'. split; [exact H1 |]. split; [exact H2 |]. split.
  - pose proof (sum_budgets_insert specs i spec spec' Hspec) as Hsum.
    cbn in Hsum. lia.
  - rewrite H4, list_fmap_insert. apply list_insert_id.
    rewrite list_lookup_fmap, Hspec. reflexivity.
Qed.

Lemma tallies_join (tasks : list (proc A))
    (specs : list (nat * (result A -> Prop))) (failed : option exn) (s : state) :
  Forall2 meets tasks specs -> I s ->
  I (join tasks failed w s).2
  /\ c (join tasks failed w s).2 = (c s + sum_list_with fst specs)%nat
  /\ Forall2 (fun r (spec : nat * (result A -> Prop)) => spec.2 r)
       (join tasks failed w s).1.1 specs.
Proof.
  intros Hall. revert failed s.
  induction Hall as [| p spec rest specs Hp _ IH]; intros failed s Hs.
  { cbn. repeat split; [exact Hs | lia | constructor]. }
  cbn [join].
  destruct (tallies_run spec.2 p spec.1 s Hp Hs) as (H1 & H2 & H3).
  destruct (run p w s) as [r s1]. cbn in H1, H2, H3.
  destruct (IH (note_failure r failed) s1 H1) as (H4 & H5 & H6).
  destruct (join rest (note_failure r failed) w s1) as [[rs failed1] s2].
  cbn in *. repeat split; [exact H4 | lia | constructor; assumption].
Qed.

End PoolTallies.

(** When each task, whatever happens between its steps, spends its budget
    on the counter and ends within its outcomes, the fan-out spends the sum
    of the budgets and every task ends within its outcomes. *)
Lemma pool_map_tallies {A B : Type} (I : state -> Prop) (c : state -> nat)
    (Q : A -> result B -> Prop) (budget : A -> nat) (w : world)
    (f : A -> proc B) (xs : list A) (s : state) :
  (forall x, x ∈ xs -> tallies I c (Q x) w (f x) (budget x)) ->
  I s ->
  I (pool_map f xs w s).2
  /\ c (pool_map f xs w s).2 = (c s + sum_list_with budget xs)%nat
  /\ Forall2 Q xs (pool_results f xs w s).
Proof.
  intros Hf Hs. unfold pool_map, pool_results.
  set (specs := (fun x => (budget x, Q x)) <$> xs).
  assert (Hall : Forall2 (fun p (spec : nat * (result B -> Prop)) =>
                            tallies I c spec.2 w p spec.1) (f <$> xs) specs).
  { unfold specs. apply Forall2_fmap, Forall_Forall2_diag, Forall_forall.
    intros x Hx. apply Hf. exact Hx. }
  destruct (tallies_interleave I c w (schedule w s) (f <$> xs) specs None s
              Hall Hs) as (specs' & H1 & H2 & H3 & H4).
  destruct (interleave (schedule w s) (f <$> xs) None w s)
    as [[tasks failed] s1]. cbn in H1, H2, H3.
  destruct (tallies_join I c w tasks specs' failed s1 H1 H2) as (H5 & H6 & H7).
  destruct (join tasks failed w s1) as [[results failed1] s2].
  cbn in *. split; [exact H5 |]. split.
  - assert (Hsum : sum_list_with fst specs = sum_list_with budget xs).
    { unfold specs. clear. induction xs as [| x rest IH]; cbn; [reflexivity |].
      rewrite IH. reflexivity. }
    lia.
  - assert (Hq : Forall2 (fun r (q : result B -> Prop) => q r) results
                   (snd <$> specs')).
    { apply Forall2_fmap_r. exact H7. }
    rewrite H4 in Hq. unfold specs in Hq.
    rewrite <- list_fmap_compose in Hq. apply Forall2_fmap_r in Hq.
    apply Forall2_flip. exact Hq.
Qed.

(** ** Tasks: rules for what they do under interference *)

Section TalliesRules.

Context {A : Type}.
Variables (I : state -> Prop) (c : state -> nat) (w : world).

Lemma tallies_ret (Q : result A -> Prop) (a : A) :
  Q (Return a) -> tallies I c Q w (mret a) 0.
Proof. intros HQ. split; [reflexivity | exact HQ]. Qed.

Lemma tallies_atomic (Q : result A -> Prop) (m : M A) (budget : nat) :
  (forall s, I s ->
     I (m w s).2 /\ c (m w s).2 = (c s + budget)%nat /\ Q (m w s).1) ->
  tallies I c Q w (atomic m) budget.
Proof.
  intros H s Hs. destruct (H s Hs) as (H1 & H2 & H3).
  split; [exact H1 |]. exists budget. split; [lia |]. split; [exact H2 |].
  cbn. split; [lia | exact H3].
Qed.

Lemma tallies_mono (Q Q' : result A -> Prop) (p : proc A) (budget : nat) :
  (forall r, Q r -> Q' r) ->
  tallies I c Q w p budget -> tallies I c Q' w p budget.
Proof.
  intros HQ. revert budget.
  induction p as [r | C m k IH]; intros budget Hp.
  - destruct Hp as [Hb Hr]. split; [exact Hb | apply HQ, Hr].
  - intros s Hs. destruct (Hp s Hs) as (H1 & spent & H2 & H3 & H4).
    split; [exact H1 |]. exists spent.
    split; [exact H2 |]. split; [exact H3 |]. apply IH, H4.
Qed.

Lemma tallies_bind {B : Type} (Q1 : result A -> Prop) (Q : result B -> Prop)
    (p : proc A) (f : A -> proc B) (b1 b2 : nat) :
  tallies I c Q1 w p b1 ->
  (forall a, Q1 (Return a) -> tallies I c Q w (f a) b2) ->
  (forall e, Q1 (Raise e) -> b2 = 0%nat /\ Q (Raise e)) ->
  tallies I c Q w (p ≫= f) (b1 + b2).
Proof.
  intros Hp Hf He. revert b1 Hp.
  induction p as [[a | e] | C m k IH]; intros b1 Hp.
  - destruct Hp as [-> Ha]. apply Hf, Ha.
  - destruct Hp as [-> Hr]. destruct (He e Hr) as [-> HQ].
    split; [reflexivity | exact HQ].
  - intros s Hs. destruct (Hp s Hs) as (H1 & spent & H2 & H3 & H4).
    split; [exact H1 |]. exists spent.
    split; [lia |]. split; [exact H3 |].
    replace (b1 + b2 - spent)%nat with (b1 - spent + b2)%nat by lia.
    apply IH, H4.
Qed.

Lemma tallies_try (Q1 Q : result A -> Prop) (p : proc A) (h : exn -> proc A)
    (b1 b2 : nat) :
  tallies I c Q1 w p b1 ->
  (forall a, Q1 (Return a) -> b2 = 0%nat /\ Q (Return a)) ->
  (forall e, Q1 (Raise e) -> tallies I c Q w (h e) b2) ->
  tallies I c Q w (proc_try p h) (b1 + b2).
Proof.
  intros Hp Ha Hh. revert b1 Hp.
  induction p as [[a | e] | C m k IH]; intros b1 Hp.
  - destruct Hp as [-> Hr]. destruct (Ha a Hr) as [-> HQ].
    split; [reflexivity | exact HQ].
  - destruct Hp as [-> Hr]. apply Hh, Hr.
  - intros s Hs. destruct (Hp s Hs) as (H1 & spent & H2 & H3 & H4).
    split; [exact H1 |]. exists spent.
    split; [lia |]. split; [exact H3 |].
    replace (b1 + b2 - spent)%nat with (b1 - spent + b2)%nat by lia.
    apply IH, H4.
Qed.

End TalliesRules.

(** A task all of whose steps keep [I] keeps it under interference. *)
Lemma tallies_steps_keep {A : Type} (I : state -> Prop) (w : world) (p : proc A) :
  steps_keep I w p -> tallies I (fun _ => 0%nat) (fun _ => True) w p 0.
Proof.
  induction p as [r | C m k IH]; intros Hp; [split; [reflexivity | constructor] |].
  destruct Hp as [Hm Hk]. intros s Hs.
  split; [apply Hm, Hs |]. exists 0%nat.
  split; [lia |]. split; [reflexivity |]. apply IH, Hk.
Qed.

(** ** Nearest allowed stop *)

Section NearestStop.

Variables stop_lat stop_long : option R.

#[local] Abbreviation stop_distance := (stop_distance stop_lat stop_long).
#[local] Abbreviation first_closest := (first_closest stop_lat stop_long).

(** What the scan leaves in [closest_stop_id] and [min_distance]: either no
    stop was strictly below the starting distance and both are unchanged, or
    they belong to the first stop at the least distance. *)
Lemma scan_stops_value_spec (stops : list stop_json) (id0 : Z) (d0 : R) :
  (scan_stops_value stops stop_lat stop_long id0 d0 = (id0, d0)
   /\ Forall (fun stop => (d0 <= stop_distance stop)%R) stops)
  \/ (exists i stop,
        first_closest stops i stop
        /\ scan_stops_value stops stop_lat stop_long id0 d0
           = (StopId stop, stop_distance stop)
        /\ (stop_distance stop < d0)%R).
Proof.
  revert id0 d0.
  induction stops as [| stop rest IH]; intros id0 d0.
  - left. split; [reflexivity | constructor].
  - cbn [scan_stops_value]. fold (stop_distance stop).
    destruct (Rlt_dec (stop_distance stop) d0) as [Hlt | Hge].
    + right.
      destruct (IH (StopId stop) (stop_distance stop))
        as [[Heq Hall] | (i & st & (Hi & Hmin & Hfirst) & Heq & Hlt')].
      * exists 0%nat, stop. split; [| split; [exact Heq | exact Hlt]].
        split; [reflexivity | split].
        -- intros [| j] other Hj; cbn in Hj.
           ++ inversion Hj; subst. lra.
           ++ rewrite Forall_forall in Hall.
              apply Hall. apply list_elem_of_lookup. eauto.
        -- intros j other _ Hj. lia.
      * exists (S i), st. split; [| split; [exact Heq | lra]].
        split; [exact Hi | split].
        -- intros [| j] other Hj; cbn in Hj.
           ++ inversion Hj; subst. lra.
           ++ eapply Hmin; eauto.
        -- intros [| j] other Hj Hlt2; cbn in Hj.
           ++ inversion Hj; subst. lra.
           ++ eapply Hfirst; eauto. lia.
    + destruct (IH id0 d0)
        as [[Heq Hall] | (i & st & (Hi & Hmin & Hfirst) & Heq & Hlt')].
      * left. split; [exact Heq |]. constructor; [lra | exact Hall].
      * right. exists (S i), st. split; [| split; [exact Heq | exact Hlt']].
        split; [exact Hi | split].
        -- intros [| j] other Hj; cbn in Hj.
           ++ inversion Hj; subst. lra.
           ++ eapply Hmin; eauto.
        -- intros [| j] other Hj Hlt2; cbn in Hj.
           ++ inversion Hj; subst. lra.
           ++ eapply Hfirst; eauto. lia.
Qed.



(** On a loaded stop list the resolution is 9999 or the id of a listed stop. *)
Lemma nearest_stop_value_listed_or_sentinel (stops : list stop_json) :
  nearest_stop_value stops stop_lat stop_long = 9999
  \/ exists stop, stop ∈ stops /\ nearest_stop_value stops stop_lat stop_long = StopId stop.
Proof.
  unfold nearest_stop_value.
  destruct (scan_stops_value_spec stops 9999 99999%R)
    as [[Heq _] | (i & st & (Hi & _ & _) & Heq & _)]; rewrite Heq.
  - left. destruct (Rle_dec 99999 DISTANCE_THRESHOLD); reflexivity.
  - destruct (Rle_dec (stop_distance st) DISTANCE_THRESHOLD); [| left; reflexivity].
    right. exists st. split; [| reflexivity].
    apply list_elem_of_lookup. eauto.
Qed.

End NearestStop.

Lemma run_call_distance (origin_lat origin_long dest_lat dest_long : option R)
    (w : world) (s : state) :
  call_distance origin_lat origin_long dest_lat dest_long w s
  = (if distance_raises w origin_lat origin_long dest_lat dest_long
     then Raise (ValueError "math domain error")
     else Return (Geo.distance origin_lat origin_long dest_lat dest_long),
     s).
Proof.
  unfold call_distance. munfold.
  destruct (distance_raises w origin_lat origin_long dest_lat dest_long);
    reflexivity.
Qed.

(** The scan raises when the distance to one of the stops does, and leaves
    the values of the scan over the reals otherwise; it changes no global. *)
Lemma run_scan_stops (stops : list stop_json) (lat lon : option R)
    (id0 : Z) (d0 : R) (w : world) (s : state) :
  scan_stops stops lat lon id0 d0 w s
  = (if existsb (stop_raises w lat lon) stops
     then Raise (ValueError "math domain error")
     else Return (scan_stops_value stops lat lon id0 d0),
     s).
Proof.
  revert id0 d0. induction stops as [| stop rest IH]; intros id0 d0;
    [reflexivity |].
  cbn [scan_stops scan_stops_value existsb].
  rewrite run_bind, run_call_distance. unfold stop_raises at 1.
  destruct (distance_raises w (StopLocationLatitude stop)
              (StopLocationLongitude stop) lat lon); [reflexivity |].
  cbn [orb].
  destruct (Rlt_dec _ d0); apply IH.
Qed.

Lemma run_nearest_stop (stops : list stop_json) (lat lon : option R)
    (w : world) (s : state) :
  nearest_stop stops lat lon w s
  = (if existsb (stop_raises w lat lon) stops
     then Raise (ValueError "math domain error")
     else Return (nearest_stop_value stops lat lon),
     s).
Proof.
  unfold nearest_stop, nearest_stop_value. rewrite run_bind, run_scan_stops.
  destruct (existsb (stop_raises w lat lon) stops); [reflexivity |].
  destruct (scan_stops_value stops lat lon 9999 99999%R). reflexivity.
Qed.

Lemma frames_nearest_stop {X : Type} (proj : state -> X) (w : world)
    (stops : list stop_json) (lat lon : option R) :
  frames proj w (nearest_stop stops lat lon).
Proof. intros s. rewrite run_nearest_stop. reflexivity. Qed.

#[export] Hint Resolve frames_nearest_stop : frames.

Lemma run_find_stop_id (lat lon : option R) (w : world) (s : state) :
  find_stop_id lat lon w s
  = (Return (resolved_stop w (s3 w (s3_calls s)) lat lon), set_s3_calls S s).
Proof.
  unfold find_stop_id, try_except. rewrite run_bind. unfold s3_get.
  destruct (s3 w (s3_calls s)) as [e | stops] eqn:E; cbn [resolved_stop];
    [reflexivity |].
  rewrite run_bind, run_nearest_stop.
  destruct (existsb (stop_raises w lat lon) stops); reflexivity.
Qed.



Lemma run_find_stop_id_failed (lat lon : option R) (w : world) (s : state)
    (e : exn) :
  s3 w (s3_calls s) = S3Fails e ->
  find_stop_id lat lon w s
  = (Return (PStr ("Error loading data from S3 bucket" +:+ newline +:+ str_exn e)),
     set_s3_calls S s).
Proof. intros Hs3. rewrite run_find_stop_id, Hs3. reflexivity. Qed.



(** ** Payload *)

Section Payload.

Variables (w : world) (s : state) (vehicle_id : string) (current_time : Z).
Variables (tech_provider_id : Z) (shuttle_company_id placard plate : string).

Hypothesis env_provider : SFMTA_TECH_PROVIDER_ID w = Some (Numeral tech_provider_id).
Hypothesis env_company : SFMTA_SHUTTLE_COMPANY_ID w = Some shuttle_company_id.
Hypothesis roster_placard : placards s !! vehicle_id = Some placard.
Hypothesis roster_plate : license_plates s !! vehicle_id = Some plate.

Lemma run_build_on_trip (lat lon : option R) :
  vehicle_onTrip s !! vehicle_id = Some true ->
  vehicle_lat s !! vehicle_id = Some lat ->
  vehicle_long s !! vehicle_id = Some lon ->
  build_sfmta_payload vehicle_id current_time w s
  = (Return (telemetry_record tech_provider_id shuttle_company_id placard plate
               (PInt 9999) 1 lat lon (strftime_localtime w current_time)),
     s).
Proof.
  intros Hot Hlat Hlon. unfold build_sfmta_payload. munfold.
  rewrite env_provider. unfold int. munfold.
  rewrite env_company, roster_placard, roster_plate, Hot.
  cbn. rewrite Hlat, Hlon. reflexivity.
Qed.

Lemma run_build_off_trip (lat lon : option R) :
  vehicle_onTrip s !! vehicle_id = Some false ->
  vehicle_lat s !! vehicle_id = Some lat ->
  vehicle_long s !! vehicle_id = Some lon ->
  build_sfmta_payload vehicle_id current_time w s
  = (Return (telemetry_record tech_provider_id shuttle_company_id placard plate
               (resolved_stop w (s3 w (s3_calls s)) lat lon) 2 lat lon
               (strftime_localtime w current_time)),
     set_s3_calls S s).
Proof.
  intros Hot Hlat Hlon. unfold build_sfmta_payload. munfold.
  rewrite env_provider. unfold int. munfold.
  rewrite env_company, roster_placard, roster_plate, Hot.
  cbn. rewrite Hlat, Hlon, run_find_stop_id. cbn. rewrite Hlat. cbn.
  rewrite Hlon. reflexivity.
Qed.

Lemma run_build_no_position :
  vehicle_onTrip s !! vehicle_id = None ->
  build_sfmta_payload vehicle_id current_time w s = (Raise (KeyError vehicle_id), s).
Proof.
  intros Hot. unfold build_sfmta_payload. munfold.
  rewrite env_provider. unfold int. munfold.
  rewrite env_company, roster_placard, roster_plate, Hot.
  reflexivity.
Qed.

End Payload.

(** Without an on-trip flag the builder raises, whatever else is known. *)
Lemma build_raises_without_on_trip (w : world) (s : state) (vehicle_id : string)
    (current_time : Z) :
  vehicle_onTrip s !! vehicle_id = None ->
  exists e, build_sfmta_payload vehicle_id current_time w s = (Raise e, s).
Proof.
  intros Hot. unfold build_sfmta_payload. munfold.
  destruct (SFMTA_TECH_PROVIDER_ID w) as [[z | text] |]; [| eauto ..].
  unfold int. munfold.
  destruct (SFMTA_SHUTTLE_COMPANY_ID w); [| eauto].
  destruct (placards s !! vehicle_id); [| eauto].
  destruct (license_plates s !! vehicle_id); [| eauto].
  rewrite Hot. eauto.
Qed.

(** C3.  For a vehicle whose roster entry and position are known, the payload
    is built, and: with [onTrip] true, [StopId] is 9999 and [VehicleStatus]
    is 1 whatever the stops are; otherwise [VehicleStatus] is 2 and [StopId]
    is the value [find_stop_id] returns for the vehicle's coordinate. *)
Theorem build_sfmta_payload_status_and_stop (w : world) (s : state)
    (vehicle_id : string) (current_time : Z)
    (tech_provider_id : Z) (shuttle_company_id placard plate : string)
    (on_trip : bool) (lat lon : option R) :
  SFMTA_TECH_PROVIDER_ID w = Some (Numeral tech_provider_id) ->
  SFMTA_SHUTTLE_COMPANY_ID w = Some shuttle_company_id ->
  placards s !! vehicle_id = Some placard ->
  license_plates s !! vehicle_id = Some plate ->
  vehicle_onTrip s !! vehicle_id = Some on_trip ->
  vehicle_lat s !! vehicle_id = Some lat ->
  vehicle_long s !! vehicle_id = Some lon ->
  exists payload,
    (build_sfmta_payload vehicle_id current_time w s).1 = Return payload
    /\ (on_trip = true ->
        od_getitem "StopId" payload = Some (PInt 9999)
        /\ od_getitem "VehicleStatus" payload = Some (PInt 1))
    /\ (on_trip = false ->
        od_getitem "VehicleStatus" payload = Some (PInt 2)
        /\ exists stop_id,
             (find_stop_id lat lon w s).1 = Return stop_id
             /\ od_getitem "StopId" payload = Some stop_id).
Proof.
  intros Htp Hsc Hp Hlp Hot Hlat Hlon.
  destruct on_trip.
  - rewrite (run_build_on_trip w s vehicle_id current_time _ _ _ _
               Htp Hsc Hp Hlp lat lon Hot Hlat Hlon).
    eexists. split; [reflexivity |]. split.
    + intros _. split; reflexivity.
    + intros Hf. discriminate Hf.
  - rewrite (run_build_off_trip w s vehicle_id current_time _ _ _ _
               Htp Hsc Hp Hlp lat lon Hot Hlat Hlon).
    eexists. split; [reflexivity |]. split.
    + intros Hf. discriminate Hf.
    + intros _. split; [reflexivity |].
      rewrite run_find_stop_id. eexists. split; reflexivity.
Qed.

(** C5 (the code departs from the claim).  When reading the allowed stops
    fails for a vehicle that is not on a trip, the payload is still built and
    its [StopId] is the error text of line 231, not 9999 and not a stop id. *)
Theorem stop_load_failure_reaches_StopId (w : world) (s : state)
    (vehicle_id : string) (current_time : Z)
    (tech_provider_id : Z) (shuttle_company_id placard plate : string)
    (lat lon : option R) (e : exn) :
  SFMTA_TECH_PROVIDER_ID w = Some (Numeral tech_provider_id) ->
  SFMTA_SHUTTLE_COMPANY_ID w = Some shuttle_company_id ->
  placards s !! vehicle_id = Some placard ->
  license_plates s !! vehicle_id = Some plate ->
  vehicle_onTrip s !! vehicle_id = Some false ->
  vehicle_lat s !! vehicle_id = Some lat ->
  vehicle_long s !! vehicle_id = Some lon ->
  s3 w (s3_calls s) = S3Fails e ->
  exists payload,
    (build_sfmta_payload vehicle_id current_time w s).1 = Return payload
    /\ od_getitem "StopId" payload
       = Some (PStr ("Error loading data from S3 bucket" +:+ newline +:+ str_exn e))
    /\ od_getitem "StopId" payload <> Some (PInt 9999).
Proof.
  intros Htp Hsc Hp Hlp Hot Hlat Hlon Hs3.
  rewrite (run_build_off_trip w s vehicle_id current_time _ _ _ _
             Htp Hsc Hp Hlp lat lon Hot Hlat Hlon).
  rewrite Hs3. eexists. split; [reflexivity |].
  split; [reflexivity | discriminate].
Qed.

(** C8.  For a vehicle whose roster entry and position are known, the payload
    holds exactly the nine fields in the order TechProviderId,
    ShuttleCompanyId, VehiclePlacardNum, LicensePlateNum, StopId,
    VehicleStatus, LocationLatitude, LocationLongitude, TimeStampLocal; the
    text handed to every POST of [push_vehicle_data] is its [json.dumps],
    which lists the members in that order. *)
Theorem telemetry_body_field_order (w : world) (s : state)
    (vehicle_id : string) (current_time : Z)
    (tech_provider_id : Z) (shuttle_company_id placard plate : string)
    (on_trip : bool) (lat lon : option R) :
  SFMTA_TECH_PROVIDER_ID w = Some (Numeral tech_provider_id) ->
  SFMTA_SHUTTLE_COMPANY_ID w = Some shuttle_company_id ->
  placards s !! vehicle_id = Some placard ->
  license_plates s !! vehicle_id = Some plate ->
  vehicle_onTrip s !! vehicle_id = Some on_trip ->
  vehicle_lat s !! vehicle_id = Some lat ->
  vehicle_long s !! vehicle_id = Some lon ->
  exists (stop_id : pyval) (vehicle_status : Z) (s1 : state),
    let payload :=
      telemetry_record tech_provider_id shuttle_company_id placard plate
        stop_id vehicle_status lat lon (strftime_localtime w current_time) in
    let key := encode_basestring w in
    build_sfmta_payload vehicle_id current_time w s = (Return payload, s1)
    /\ od_keys payload
       = ["TechProviderId"; "ShuttleCompanyId"; "VehiclePlacardNum";
          "LicensePlateNum"; "StopId"; "VehicleStatus"; "LocationLatitude";
          "LocationLongitude"; "TimeStampLocal"]
    /\ push_vehicle_data vehicle_id current_time w s
       = telemetry_loop (json_dumps w payload) MAX_RETRIES w s1
    /\ json_dumps w payload
       = "{" +:+ String.concat ", "
           [key "TechProviderId" +:+ ": " +:+ pretty tech_provider_id;
            key "ShuttleCompanyId" +:+ ": " +:+ encode_basestring w shuttle_company_id;
            key "VehiclePlacardNum" +:+ ": " +:+ encode_basestring w placard;
            key "LicensePlateNum" +:+ ": " +:+ encode_basestring w plate;
            key "StopId" +:+ ": " +:+ json_value w stop_id;
            key "VehicleStatus" +:+ ": " +:+ pretty vehicle_status;
            key "LocationLatitude" +:+ ": " +:+ json_value w (of_coord lat);
            key "LocationLongitude" +:+ ": " +:+ json_value w (of_coord lon);
            key "TimeStampLocal" +:+ ": "
              +:+ encode_basestring w (strftime_localtime w current_time)]
         +:+ "}".
Proof.
  intros Htp Hsc Hp Hlp Hot Hlat Hlon.
  assert (Hbuild : exists stop_id vehicle_status s1,
             build_sfmta_payload vehicle_id current_time w s
             = (Return (telemetry_record tech_provider_id shuttle_company_id
                          placard plate stop_id vehicle_status lat lon
                          (strftime_localtime w current_time)), s1)).
  { destruct on_trip.
    - do 3 eexists. eapply run_build_on_trip; eauto.
    - do 3 eexists. eapply run_build_off_trip; eauto. }
  destruct Hbuild as (stop_id & vehicle_status & s1 & Hb).
  exists stop_id, vehicle_status, s1. cbn zeta.
  split; [exact Hb |]. split; [reflexivity |]. split; [| reflexivity].
  unfold push_vehicle_data.
  rewrite (run_bind_return _ _ _ _ _ _ Hb). reflexivity.
Qed.

(** ** Bounded retry *)

Section Retry.

Context {A : Type}.
Variables (attempt exhausted : M A) (w : world).

Lemma retry_succeeds (k n : nat) (s sk s' : state) (a : A) :
  (k < n)%nat ->
  after_failures attempt k w s = Some sk ->
  attempt w sk = (Return a, s') ->
  retry attempt exhausted n w s = (Return a, s').
Proof.
  revert n s. induction k as [| k IH]; intros n s Hlt Hfail Hok.
  - cbn in Hfail. inversion Hfail; subst sk.
    destruct n as [| n]; [lia |].
    cbn [retry]. apply run_try_return. exact Hok.
  - destruct n as [| n]; [lia |].
    cbn [after_failures] in Hfail.
    destruct (attempt w s) as [[a0 | e] s1] eqn:E; [discriminate |].
    cbn [retry]. rewrite (run_try_raise _ _ _ _ _ _ E).
    apply IH; [lia | exact Hfail | exact Hok].
Qed.

Lemma retry_exhausted (n : nat) (s sn : state) :
  after_failures attempt n w s = Some sn ->
  retry attempt exhausted n w s = exhausted w sn.
Proof.
  revert s. induction n as [| n IH]; intros s Hfail.
  - cbn in Hfail. inversion Hfail. reflexivity.
  - cbn [after_failures] in Hfail.
    destruct (attempt w s) as [[a0 | e] s1] eqn:E; [discriminate |].
    cbn [retry]. rewrite (run_try_raise _ _ _ _ _ _ E).
    apply IH. exact Hfail.
Qed.

End Retry.

Lemma locations_loop_retry (n : nat) :
  locations_loop n = retry locations_attempt locations_exhausted n.
Proof. induction n as [| n IH]; cbn; [| rewrite IH]; reflexivity. Qed.

Lemma telemetry_loop_retry (data : string) (n : nat) :
  telemetry_loop data n = retry (telemetry_attempt data) telemetry_exhausted n.
Proof. induction n as [| n IH]; cbn; [| rewrite IH]; reflexivity. Qed.

(** ** Failure reports *)

Lemma run_locations_exhausted (w : world) (s : state) :
  locations_exhausted w s
  = (match alert_raises w s with Some e => Raise e | None => Return "Failure" end,
     alert_state (site_mail LocationsExhausted) w s).
Proof.
  unfold locations_exhausted, alert_raises, alert_state, alert_due, time_time,
    send_error_email.
  munfold. cbn.
  destruct (decide (clock w (clock_reads s) - LAST_ERROR_EMAIL_TIME s
                    > ERROR_EMAIL_DELAY)) as [Hd | Hd].
  - rewrite (bool_decide_eq_true_2 _ Hd). cbn.
    destruct (smtp w (smtp_calls s)); reflexivity.
  - rewrite (bool_decide_eq_false_2 _ Hd). reflexivity.
Qed.

Lemma run_telemetry_exhausted (w : world) (s : state) :
  telemetry_exhausted w s
  = (match alert_raises w s with
     | Some e => Raise e
     | None => Return (if alert_due w s then Some "Failure" else None)
     end,
     alert_state (site_mail TelemetryExhausted) w s).
Proof.
  unfold telemetry_exhausted, alert_raises, alert_state, alert_due, time_time,
    send_error_email.
  munfold. cbn.
  destruct (decide (clock w (clock_reads s) - LAST_ERROR_EMAIL_TIME s
                    > ERROR_EMAIL_DELAY)) as [Hd | Hd].
  - rewrite (bool_decide_eq_true_2 _ Hd). cbn.
    destruct (smtp w (smtp_calls s)); reflexivity.
  - rewrite (bool_decide_eq_false_2 _ Hd). reflexivity.
Qed.

Lemma run_cycle_except (w : world) (s : state) :
  cycle_except w s
  = (match alert_raises w s with Some e => Raise e | None => Return tt end,
     alert_state (site_mail CycleFailed) w s).
Proof.
  unfold cycle_except, alert_raises, alert_state, alert_due, time_time,
    send_error_email.
  munfold. cbn.
  destruct (decide (clock w (clock_reads s) - LAST_ERROR_EMAIL_TIME s
                    > ERROR_EMAIL_DELAY)) as [Hd | Hd].
  - rewrite (bool_decide_eq_true_2 _ Hd). cbn.
    destruct (smtp w (smtp_calls s)); reflexivity.
  - rewrite (bool_decide_eq_false_2 _ Hd). reflexivity.
Qed.

Lemma report_state (site : failure_site) (w : world) (s : state) :
  (report site w s).2 = alert_state (site_mail site) w s.
Proof.
  destruct site; cbn [report].
  - rewrite run_bind, run_locations_exhausted.
    destruct (alert_raises w s); reflexivity.
  - rewrite run_bind, run_telemetry_exhausted.
    destruct (alert_raises w s); reflexivity.
  - rewrite run_cycle_except. reflexivity.
Qed.

Lemma alert_state_clock_reads (email : mail) (w : world) (s : state) :
  clock_reads (alert_state email w s) = S (clock_reads s).
Proof.
  unfold alert_state.
  destruct (alert_due w s); [destruct (smtp w (smtp_calls s)) |]; reflexivity.
Qed.

Lemma alert_state_not_due (email : mail) (w : world) (s : state) :
  alert_due w s = false -> alert_state email w s = set_clock_reads S s.
Proof. intros H. unfold alert_state. rewrite H. reflexivity. Qed.

Lemma alert_state_sent (email : mail) (w : world) (s : state) :
  alert_due w s = true ->
  smtp w (smtp_calls s) = None ->
  alert_state email w s
  = set_LAST_ERROR_EMAIL_TIME (fun _ => clock w (clock_reads s))
      (set_outbox (fun l => l ++ [email])
         (set_smtp_calls S (set_clock_reads S s))).
Proof. intros H1 H2. unfold alert_state. rewrite H1, H2. reflexivity. Qed.

Lemma alert_due_true (w : world) (s : state) :
  clock w (clock_reads s) - LAST_ERROR_EMAIL_TIME s > ERROR_EMAIL_DELAY ->
  alert_due w s = true.
Proof. intros H. unfold alert_due. apply bool_decide_eq_true_2. exact H. Qed.

Lemma alert_due_false (w : world) (s : state) :
  clock w (clock_reads s) - LAST_ERROR_EMAIL_TIME s <= ERROR_EMAIL_DELAY ->
  alert_due w s = false.
Proof. intros H. unfold alert_due. apply bool_decide_eq_false_2. lia. Qed.

(** Reports that all fall within [ERROR_EMAIL_DELAY] of the last notification
    send nothing. *)
Lemma reports_quiet (w : world) (sites : list failure_site) (s : state) :
  (forall k, (k < length sites)%nat ->
     clock w (clock_reads s + k) - LAST_ERROR_EMAIL_TIME s <= ERROR_EMAIL_DELAY) ->
  outbox (reports sites w s) = outbox s.
Proof.
  revert s. induction sites as [| site rest IH]; intros s Hquiet; [reflexivity |].
  cbn [reports]. rewrite report_state.
  assert (Hnd : alert_due w s = false).
  { apply alert_due_false. specialize (Hquiet 0%nat).
    rewrite Nat.add_0_r in Hquiet. apply Hquiet. cbn. lia. }
  rewrite (alert_state_not_due _ _ _ Hnd).
  rewrite IH; [reflexivity |].
  intros k Hk. cbn.
  replace (S (clock_reads s + k))%nat with (clock_reads s + S k)%nat by lia.
  apply Hquiet. cbn. lia.
Qed.

(** Reports whose clock readings all lie in one window of length
    [ERROR_EMAIL_DELAY] send at most one notification. *)
Lemma reports_one_per_window (w : world) (sites : list failure_site) (s : state)
    (window_start : Z) :
  (forall k, (k < length sites)%nat ->
     window_start <= clock w (clock_reads s + k) <= window_start + ERROR_EMAIL_DELAY) ->
  (notifications s (reports sites w s) <= 1)%nat.
Proof.
  unfold notifications.
  revert s. induction sites as [| site rest IH]; intros s Hwin; [cbn; lia |].
  cbn [reports]. rewrite report_state.
  assert (Hrest : forall s1, clock_reads s1 = S (clock_reads s) ->
            forall k, (k < length rest)%nat ->
              window_start <= clock w (clock_reads s1 + k)
              <= window_start + ERROR_EMAIL_DELAY).
  { intros s1 Hs1 k Hk. rewrite Hs1.
    replace (S (clock_reads s) + k)%nat with (clock_reads s + S k)%nat by lia.
    apply Hwin. cbn. lia. }
  destruct (alert_due w s) eqn:Hdue.
  - destruct (smtp w (smtp_calls s)) as [e |] eqn:Hsmtp.
    + unfold alert_state. rewrite Hdue, Hsmtp.
      exact (IH (set_smtp_calls S (set_clock_reads S s))
                (Hrest (set_smtp_calls S (set_clock_reads S s)) eq_refl)).
    + rewrite (alert_state_sent _ _ _ Hdue Hsmtp).
      rewrite reports_quiet.
      * cbn. rewrite length_app. cbn. lia.
      * intros k Hk. cbn.
        pose proof (Hwin 0%nat ltac:(cbn; lia)) as H0.
        rewrite Nat.add_0_r in H0.
        pose proof (Hrest (set_clock_reads S s) eq_refl k Hk) as Hk'.
        cbn in Hk'. lia.
  - rewrite (alert_state_not_due _ _ _ Hdue).
    exact (IH (set_clock_reads S s) (Hrest (set_clock_reads S s) eq_refl)).
Qed.

(** Reports made one after the other, each finished before the next begins
    (those of the location fetch and of the loop always are).  A report made
    more than [ERROR_EMAIL_DELAY] after the last notification, followed by a
    second report from any of the three sites: one notification when the two
    clock readings differ by less than the delay, two when they differ by
    more (the notification sink accepting); and however many reports of
    whatever site fall in one window of length [ERROR_EMAIL_DELAY], at most
    one notification is sent. *)
Lemma reports_throttled (w : world) (s : state) :
  (forall first second : failure_site,
     clock w (clock_reads s) - LAST_ERROR_EMAIL_TIME s > ERROR_EMAIL_DELAY ->
     smtp w (smtp_calls s) = None ->
     smtp w (S (smtp_calls s)) = None ->
     (clock w (S (clock_reads s)) - clock w (clock_reads s) < ERROR_EMAIL_DELAY ->
      notifications s (reports [first; second] w s) = 1%nat)
     /\ (clock w (S (clock_reads s)) - clock w (clock_reads s) > ERROR_EMAIL_DELAY ->
         notifications s (reports [first; second] w s) = 2%nat))
  /\ (forall (sites : list failure_site) (window_start : Z),
        (forall k, (k < length sites)%nat ->
           window_start <= clock w (clock_reads s + k)
           <= window_start + ERROR_EMAIL_DELAY) ->
        (notifications s (reports sites w s) <= 1)%nat).
Proof.
  split; [| intros sites window_start; apply reports_one_per_window].
  intros first second Hdue Hsmtp1 Hsmtp2.
  unfold notifications. cbn [reports]. rewrite !report_state.
  rewrite (alert_state_sent _ _ _ (alert_due_true _ _ Hdue) Hsmtp1).
  set (s1 := set_LAST_ERROR_EMAIL_TIME _ _).
  split; intros Hgap.
  - rewrite (alert_state_not_due _ w s1);
      [| apply alert_due_false; subst s1; cbn; lia].
    subst s1. cbn. rewrite length_app. cbn. lia.
  - rewrite (alert_state_sent _ w s1);
      [| apply alert_due_true; subst s1; cbn; lia | subst s1; exact Hsmtp2].
    subst s1. cbn. rewrite !length_app. cbn. lia.
Qed.

(** ** Failure reports of the threads of the pool *)

Lemma advance_act {A B : Type} (n : nat) (m : M B) (k : result B -> proc A)
    (w : world) (s : state) (r : result B) (s1 : state) :
  m w s = (r, s1) -> advance (S n) (Act m k) w s = advance n (k r) w s1.
Proof. intros H. cbn. rewrite H. reflexivity. Qed.

(** The scheduler picks one thread [n] times in a row, and the thread has
    not finished then. *)
Lemma interleave_replicate {A : Type} (n i : nat) (rest : list nat)
    (tasks : list (proc A)) (failed : option exn) (w : world) (s : state)
    (p : proc A) {B : Type} (m : M B) (k : result B -> proc A) (s' : state) :
  tasks !! i = Some p ->
  advance n p w s = (Act m k, s') ->
  interleave (replicate n i ++ rest) tasks failed w s
  = interleave rest (<[i := Act m k]> tasks) failed w s'.
Proof.
  revert tasks p s. induction n as [| n IH]; intros tasks p s Hi Hadv.
  - cbn in Hadv. injection Hadv as -> ->.
    rewrite list_insert_id by exact Hi. reflexivity.
  - destruct p as [r | C m0 k0]; [discriminate |].
    cbn [replicate app interleave]. rewrite Hi.
    cbn [advance] in Hadv. destruct (m0 w s) as [r s1].
    assert (Hact : match k0 r with
                   | Done r' => note_failure r' failed
                   | Act _ _ => failed
                   end = failed).
    { destruct (k0 r); [| reflexivity]. destruct n; discriminate. }
    rewrite Hact.
    rewrite (IH (<[i := k0 r]> tasks) (k0 r) s1).
    + rewrite list_insert_insert_eq. reflexivity.
    + apply list_lookup_insert_eq. eapply lookup_lt_Some, Hi.
    + exact Hadv.
Qed.

(** Takes the next step of the task, [tac] saying what the step does. *)
Ltac advance_step tac :=
  lazymatch goal with
  | |- advance (S ?n) ?p ?w ?s = _ =>
      let p' := eval hnf in p in
      change p with p'; erewrite advance_act; [| tac]; cbv beta
  end.

Section Race.

Variables (w : world) (current_time : Z).
Hypothesis sfmta_down : forall k, exists e, sfmta w k = TelemetryFail e.
Hypothesis smtp_up : forall k, smtp w k = None.

Lemma set_sfmta_calls_add (n : nat) (s : state) :
  set_sfmta_calls (Nat.add n) (set_sfmta_calls S s)
  = set_sfmta_calls (Nat.add (S n)) s.
Proof. destruct s. unfold set_sfmta_calls. cbn. f_equal. lia. Qed.

(** The requests of the retry loop, all failing, are one step each. *)
Lemma advance_telemetry_loop_thread (data : string) (n j : nat) (s : state) :
  advance (n + j) (telemetry_loop_thread data n) w s
  = advance j telemetry_exhausted_thread w (set_sfmta_calls (Nat.add n) s).
Proof.
  revert s. induction n as [| n IH]; intros s.
  - destruct s. reflexivity.
  - destruct (sfmta_down (sfmta_calls s)) as [e He].
    cbn [Nat.add telemetry_loop_thread].
    advance_step ltac:(unfold requests_post_telemetry; rewrite He; reflexivity).
    cbn [proc_bind proc_try]. rewrite IH, set_sfmta_calls_add. reflexivity.
Qed.

(** The thread of a vehicle on a trip, by itself up to line 356: eight reads
    for the payload and [json.dumps], the [MAX_RETRIES] requests, the clock,
    the read of [LAST_ERROR_EMAIL_TIME] for the test of line 353 and the
    notification.  The assignment of line 357 is what it does next. *)
Lemma advance_push_vehicle_data_thread (vehicle_id : string) (s : state) :
  has_payload w s vehicle_id ->
  vehicle_onTrip s !! vehicle_id = Some true ->
  clock w (clock_reads s) - LAST_ERROR_EMAIL_TIME s > ERROR_EMAIL_DELAY ->
  advance (9 + MAX_RETRIES + 3)
    (push_vehicle_data_thread vehicle_id current_time) w s
  = (atomic (modify (set_LAST_ERROR_EMAIL_TIME
                       (fun _ => clock w (clock_reads s))))
       ≫= (fun _ => mret (Some "Failure")),
     alert_sent s).
Proof.
  intros (Htech & Hcompany & Hplacard & Hplate & _ & Hlat & Hlong) Htrip Hdue.
  destruct Htech as [tech Htech]. destruct Hcompany as [company Hcompany].
  destruct Hplacard as [placard Hplacard]. destruct Hplate as [plate Hplate].
  destruct Hlat as [lat Hlat]. destruct Hlong as [lon Hlong].
  change (9 + MAX_RETRIES + 3)%nat with 22%nat.
  do 9 advance_step
    ltac:(munfold;
          rewrite ?Htech, ?Hcompany, ?Hplacard, ?Hplate, ?Htrip, ?Hlat, ?Hlong;
          cbn; reflexivity).
  cbn [proc_mbind proc_bind].
  change 13%nat with (MAX_RETRIES + 3)%nat.
  rewrite advance_telemetry_loop_thread. unfold telemetry_exhausted_thread.
  advance_step ltac:(unfold time_time; reflexivity).
  advance_step ltac:(munfold; reflexivity).
  cbn [proc_mbind proc_bind].
  rewrite decide_True by exact Hdue.
  advance_step ltac:(unfold send_error_email; cbn; rewrite smtp_up; reflexivity).
  reflexivity.
Qed.

End Race.

(** The scheduler lets the first thread run up to line 356, then the second:
    the second passes the test of line 353 on the time of the last
    notification that the first one has yet to overwrite. *)
Lemma run_pool_map_race (w : world) (s : state) (current_time : Z)
    (first second : string) :
  schedule w s
  = replicate (9 + MAX_RETRIES + 3) 0%nat ++ replicate (9 + MAX_RETRIES + 3) 1%nat ->
  has_payload w s first ->
  has_payload w s second ->
  vehicle_onTrip s !! first = Some true ->
  vehicle_onTrip s !! second = Some true ->
  (forall k, exists e, sfmta w k = TelemetryFail e) ->
  (forall k, smtp w k = None) ->
  clock w (clock_reads s) - LAST_ERROR_EMAIL_TIME s > ERROR_EMAIL_DELAY ->
  clock w (S (clock_reads s)) - LAST_ERROR_EMAIL_TIME s > ERROR_EMAIL_DELAY ->
  pool_map (fun vehicle_id => push_vehicle_data_thread vehicle_id current_time)
    [first; second] w s
  = (Return [Some "Failure"; Some "Failure"],
     set_LAST_ERROR_EMAIL_TIME (fun _ => clock w (S (clock_reads s)))
       (set_LAST_ERROR_EMAIL_TIME (fun _ => clock w (clock_reads s))
          (alert_sent (alert_sent s)))).
Proof.
  intros Hpicks Hfirst Hsecond Htrip1 Htrip2 Hdown Hup Hdue1 Hdue2.
  unfold pool_map. rewrite Hpicks. cbn [fmap list_fmap].
  erewrite interleave_replicate;
    [| reflexivity
     | apply (advance_push_vehicle_data_thread w current_time Hdown Hup first s
                Hfirst Htrip1 Hdue1)].
  rewrite <- (app_nil_r (replicate _ 1%nat)).
  erewrite interleave_replicate;
    [| reflexivity
     | apply (advance_push_vehicle_data_thread w current_time Hdown Hup second
                (alert_sent s) Hsecond Htrip2 Hdue2)].
  reflexivity.
Qed.

(** C2 (the code departs from the claim).  Two vehicles on a trip whose
    payloads can be built, a telemetry endpoint that fails every request, a
    notification sink that accepts, and the last notification more than
    [ERROR_EMAIL_DELAY] before both of the next two clock readings.  Under
    some order of the steps of the two threads of the pool the fan-out
    returns having read the clock twice, once for either failure, and having
    handed over two notifications, however little time lies between the two
    readings: the second thread makes the test of line 353 before the first
    has made the assignment of line 357. *)
Theorem alert_throttle_race (w : world) (s : state) (current_time : Z)
    (first second : string) :
  elements (vehicle_ids s) = [first; second] ->
  has_payload w s first ->
  has_payload w s second ->
  vehicle_onTrip s !! first = Some true ->
  vehicle_onTrip s !! second = Some true ->
  (forall k, exists e, sfmta w k = TelemetryFail e) ->
  (forall k, smtp w k = None) ->
  clock w (clock_reads s) - LAST_ERROR_EMAIL_TIME s > ERROR_EMAIL_DELAY ->
  clock w (S (clock_reads s)) - LAST_ERROR_EMAIL_TIME s > ERROR_EMAIL_DELAY ->
  exists picks : list nat,
    let w' := with_schedule (fun _ => picks) w in
    let s' := (push_all_vehicle_data current_time w' s).2 in
    (push_all_vehicle_data current_time w' s).1 = Return tt
    /\ clock_reads s' = S (S (clock_reads s))
    /\ outbox s'
       = outbox s ++ [site_mail TelemetryExhausted; site_mail TelemetryExhausted]
    /\ notifications s s' = 2%nat.
Proof.
  intros Hids Hfirst Hsecond Htrip1 Htrip2 Hdown Hup Hdue1 Hdue2.
  exists (replicate (9 + MAX_RETRIES + 3) 0%nat
          ++ replicate (9 + MAX_RETRIES + 3) 1%nat).
  cbv zeta. set (w' := with_schedule _ w).
  assert (Hsize : size (vehicle_ids s) = 2%nat).
  { unfold size, set_size. cbn. rewrite Hids. reflexivity. }
  assert (Hrun : push_all_vehicle_data current_time w' s
                 = (Return tt,
                    set_LAST_ERROR_EMAIL_TIME (fun _ => clock w (S (clock_reads s)))
                      (set_LAST_ERROR_EMAIL_TIME (fun _ => clock w (clock_reads s))
                         (alert_sent (alert_sent s))))).
  { unfold push_all_vehicle_data.
    rewrite run_bind. cbn [gets]. rewrite run_bind.
    destruct (decide (size (vehicle_ids s) < 1)%nat) as [Hsz | _]; [lia |].
    change ((mret tt : M unit) w' s) with (Return tt, s). cbn beta iota.
    rewrite run_bind, Hids.
    rewrite (run_pool_map_race w' s current_time first second eq_refl
               Hfirst Hsecond Htrip1 Htrip2 Hdown Hup Hdue1 Hdue2).
    reflexivity. }
  rewrite Hrun. cbn [fst snd].
  assert (Hout : outbox (set_LAST_ERROR_EMAIL_TIME (fun _ => clock w (S (clock_reads s)))
                   (set_LAST_ERROR_EMAIL_TIME (fun _ => clock w (clock_reads s))
                      (alert_sent (alert_sent s))))
                 = outbox s ++ [site_mail TelemetryExhausted;
                                site_mail TelemetryExhausted]).
  { cbn. rewrite <- app_assoc. reflexivity. }
  split; [reflexivity |]. split; [reflexivity |]. split; [exact Hout |].
  unfold notifications. rewrite Hout, length_app. cbn. lia.
Qed.

(** ** Attempts of the two retry loops *)

Lemma run_telemetry_attempt_fail (data : string) (w : world) (s : state) (e : exn) :
  sfmta w (sfmta_calls s) = TelemetryFail e ->
  telemetry_attempt data w s = (Raise e, set_sfmta_calls S s).
Proof.
  intros H. unfold telemetry_attempt, requests_post_telemetry. munfold.
  rewrite H. reflexivity.
Qed.

Lemma run_telemetry_attempt_ok (data : string) (w : world) (s : state) :
  sfmta w (sfmta_calls s) = TelemetryOk ->
  telemetry_attempt data w s
  = (Return (Some "Success"),
     set_accepted (fun l => l ++ [data]) (set_sfmta_calls S s)).
Proof.
  intros H. unfold telemetry_attempt, requests_post_telemetry. munfold.
  rewrite H. reflexivity.
Qed.

Lemma sfmta_calls_iter (k : nat) (s : state) :
  sfmta_calls (Nat.iter k (set_sfmta_calls S) s) = (sfmta_calls s + k)%nat.
Proof.
  induction k as [| k IH]; [cbn; lia |].
  rewrite Nat.iter_succ. cbn [sfmta_calls set_sfmta_calls]. rewrite IH. lia.
Qed.

(** [k] failing replies in a row are [k] failed attempts; nothing but the
    count of requests changes. *)
Lemma telemetry_failures (data : string) (w : world) (k : nat) (s : state) :
  (forall i, (i < k)%nat -> exists e, sfmta w (sfmta_calls s + i) = TelemetryFail e) ->
  after_failures (telemetry_attempt data) k w s
  = Some (Nat.iter k (set_sfmta_calls S) s).
Proof.
  revert s. induction k as [| k IH]; intros s Hfail; [reflexivity |].
  destruct (Hfail 0%nat ltac:(lia)) as [e He].
  rewrite Nat.add_0_r in He.
  cbn [after_failures]. rewrite (run_telemetry_attempt_fail _ _ _ _ He).
  rewrite IH.
  - rewrite Nat.iter_succ_r. reflexivity.
  - intros i Hi. cbn.
    destruct (Hfail (S i) ltac:(lia)) as [e' He'].
    exists e'. rewrite <- He'. f_equal. lia.
Qed.

(** The telemetry loop returns ["Success"] when fewer than [MAX_RETRIES]
    replies fail before one is accepted, having made one request more than
    the failures. *)
Lemma telemetry_loop_succeeds (data : string) (w : world) (k : nat) (s : state) :
  (k < MAX_RETRIES)%nat ->
  (forall i, (i < k)%nat -> exists e, sfmta w (sfmta_calls s + i) = TelemetryFail e) ->
  sfmta w (sfmta_calls s + k) = TelemetryOk ->
  exists s',
    telemetry_loop data MAX_RETRIES w s = (Return (Some "Success"), s')
    /\ sfmta_calls s' = (sfmta_calls s + S k)%nat
    /\ accepted s' = accepted s ++ [data].
Proof.
  intros Hk Hfail Hok.
  rewrite telemetry_loop_retry.
  eexists. split; [| split].
  - eapply retry_succeeds; [exact Hk | apply telemetry_failures; exact Hfail |].
    apply run_telemetry_attempt_ok. rewrite sfmta_calls_iter. exact Hok.
  - cbn. rewrite sfmta_calls_iter. lia.
  - cbn [accepted set_accepted]. f_equal. clear.
    induction k as [| k IH]; [reflexivity |].
    rewrite Nat.iter_succ. exact IH.
Qed.

(** After [MAX_RETRIES] failing replies the loop has made exactly
    [MAX_RETRIES] requests and is in the block of lines 348-359. *)
Lemma telemetry_loop_exhausted (data : string) (w : world) (s : state) :
  (forall i, (i < MAX_RETRIES)%nat ->
     exists e, sfmta w (sfmta_calls s + i) = TelemetryFail e) ->
  telemetry_loop data MAX_RETRIES w s
  = telemetry_exhausted w (Nat.iter MAX_RETRIES (set_sfmta_calls S) s).
Proof.
  intros Hfail. rewrite telemetry_loop_retry.
  apply retry_exhausted, telemetry_failures. exact Hfail.
Qed.

Lemma alert_state_sfmta_calls (email : mail) (w : world) (s : state) :
  sfmta_calls (alert_state email w s) = sfmta_calls s.
Proof.
  unfold alert_state.
  destruct (alert_due w s); [destruct (smtp w (smtp_calls s)) |]; reflexivity.
Qed.

(** C1 (the code departs from the claim).  When all [MAX_RETRIES] requests
    of [push_vehicle_data] fail while the last notification is no more than
    [ERROR_EMAIL_DELAY] old, the call has made exactly [MAX_RETRIES] requests
    and returns [None], where [get_all_vehicle_data] returns ["Failure"]. *)
Theorem push_vehicle_data_exhausted_in_cooldown (w : world) (s s1 : state)
    (vehicle_id : string) (current_time : Z) (payload : OrderedDict) :
  build_sfmta_payload vehicle_id current_time w s = (Return payload, s1) ->
  (forall i, (i < MAX_RETRIES)%nat ->
     exists e, sfmta w (sfmta_calls s1 + i) = TelemetryFail e) ->
  clock w (clock_reads s1) - LAST_ERROR_EMAIL_TIME s1 <= ERROR_EMAIL_DELAY ->
  (push_vehicle_data vehicle_id current_time w s).1 = Return None
  /\ sfmta_calls (push_vehicle_data vehicle_id current_time w s).2
     = (sfmta_calls s1 + MAX_RETRIES)%nat.
Proof.
  intros Hb Hfail Hcool.
  unfold push_vehicle_data.
  rewrite (run_bind_return _ _ _ _ _ _ Hb).
  rewrite run_bind. cbn [asks].
  rewrite (telemetry_loop_exhausted _ _ _ Hfail).
  rewrite run_telemetry_exhausted.
  set (sn := Nat.iter MAX_RETRIES (set_sfmta_calls S) s1).
  assert (Hnd : alert_due w sn = false).
  { apply alert_due_false. subst sn.
    replace (clock_reads (Nat.iter MAX_RETRIES (set_sfmta_calls S) s1))
      with (clock_reads s1) by reflexivity.
    replace (LAST_ERROR_EMAIL_TIME (Nat.iter MAX_RETRIES (set_sfmta_calls S) s1))
      with (LAST_ERROR_EMAIL_TIME s1) by reflexivity.
    exact Hcool. }
  unfold alert_raises. rewrite Hnd. cbn [fst snd].
  split; [reflexivity |].
  rewrite alert_state_sfmta_calls. subst sn. apply sfmta_calls_iter.
Qed.

Lemma for_each_frame {A X : Type} (proj : state -> X) (f : A -> M unit)
    (xs : list A) (w : world) :
  (forall a s, proj (f a w s).2 = proj s) ->
  forall s, proj (for_each xs f w s).2 = proj s.
Proof.
  intros Hf. induction xs as [| x rest IH]; intros s; [reflexivity |].
  cbn [for_each]. rewrite run_bind.
  specialize (Hf x s).
  destruct (f x w s) as [[[] | e] s1]; cbn in *; [| exact Hf].
  rewrite IH. exact Hf.
Qed.

Lemma store_vehicle_samsara_calls (v : vehicle_json) (w : world) (s : state) :
  samsara_calls (store_vehicle v w s).2 = samsara_calls s.
Proof.
  unfold store_vehicle. munfold.
  destruct (v_id v), (v_latitude v), (v_longitude v), (v_onTrip v); reflexivity.
Qed.

Lemma locations_attempt_samsara_calls (w : world) (s : state) :
  samsara_calls (locations_attempt w s).2 = S (samsara_calls s).
Proof.
  unfold locations_attempt, requests_post_locations.
  rewrite run_bind.
  destruct (samsara w (samsara_calls s)) as [e | body]; [reflexivity |].
  rewrite run_bind. unfold subscript.
  destruct (vehicles body) as [vs |]; [| reflexivity].
  unfold mret at 1, M_ret at 1. rewrite run_bind.
  pose proof (for_each_frame samsara_calls store_vehicle vs w
                (fun a s0 => store_vehicle_samsara_calls a w s0)
                (set_samsara_calls S s)) as Hframe.
  destruct (for_each vs store_vehicle w (set_samsara_calls S s)) as [[[] | e] s1];
    cbn in *; exact Hframe.
Qed.

Lemma locations_attempt_returns_success (w : world) (s s' : state) (r : string) :
  locations_attempt w s = (Return r, s') -> r = "Success".
Proof.
  unfold locations_attempt. rewrite run_bind.
  destruct (requests_post_locations w s) as [[locations | e] s1]; [| discriminate].
  rewrite run_bind.
  destruct (subscript (vehicles locations) "vehicles" w s1) as [[vs | e] s2];
    [| discriminate].
  rewrite run_bind.
  destruct (for_each vs store_vehicle w s2) as [[[] | e] s3]; [| discriminate].
  intros H. inversion H. reflexivity.
Qed.

Lemma after_failures_locations_calls (w : world) (k : nat) (s sk : state) :
  after_failures locations_attempt k w s = Some sk ->
  samsara_calls sk = (samsara_calls s + k)%nat.
Proof.
  revert s. induction k as [| k IH]; intros s H.
  - cbn in H. inversion H. lia.
  - cbn [after_failures] in H.
    pose proof (locations_attempt_samsara_calls w s) as Hc.
    destruct (locations_attempt w s) as [[r | e] s1]; [discriminate |].
    cbn in Hc. rewrite (IH _ H), Hc. lia.
Qed.

Lemma store_entry_samsara_calls (e : sheet_entry) (w : world) :
  frames samsara_calls w (store_entry e).
Proof.
  intros s. unfold store_entry, cell_text. munfold.
  destruct (gsx_samsaradeviceid e) as [[[t1 |]] |]; try reflexivity.
  destruct (gsx_vehicleplacardnumber e) as [[[t2 |]] |]; try reflexivity.
  destruct (gsx_licenseplatenumber e) as [[[t3 |]] |]; try reflexivity.
  destruct (gsx_vehicleidname e) as [[[t4 |]] |]; reflexivity.
Qed.

(** The roster refresh makes no location request. *)
Lemma get_vehicle_details_samsara_calls (w : world) :
  frames samsara_calls w get_vehicle_details.
Proof.
  unfold get_vehicle_details.
  apply frames_try_except; [| auto with frames].
  apply frames_bind.
  { intros s. unfold urlopen. destruct (sheet w (sheet_calls s)); reflexivity. }
  intros [code content].
  apply frames_bind; [| auto with frames].
  destruct (decide (code ≠ 200)); [auto with frames |].
  apply frames_bind; [auto with frames |]. intros body.
  apply frames_bind; [auto with frames |]. intros json_data.
  apply frames_bind; [intros s; reflexivity |]. intros _.
  apply frames_bind; [auto with frames |]. intros f.
  apply frames_bind; [auto with frames |]. intros entries.
  apply frames_for_each. intros e _. apply store_entry_samsara_calls.
Qed.

Lemma get_vehicle_details_returns (w : world) (s : state) :
  exists r, (get_vehicle_details w s).1 = Return r.
Proof.
  unfold get_vehicle_details, try_except.
  match goal with |- context [match ?m w s with _ => _ end] =>
    destruct (m w s) as [[r | e] s1] end; eexists; reflexivity.
Qed.

Lemma run_get_all_vehicle_data (w : world) (s : state) (group_id : Z) :
  SAMSARA_SFMTA_GROUP_ID w = Some (Numeral group_id) ->
  get_all_vehicle_data w s
  = locations_loop MAX_RETRIES w (get_vehicle_details w s).2.
Proof.
  intros Hg. unfold get_all_vehicle_data. rewrite run_bind.
  destruct (get_vehicle_details_returns w s) as [r Hr].
  destruct (get_vehicle_details w s) as [[r0 | e] s0]; [| discriminate].
  rewrite run_bind. unfold os_environ. munfold. rewrite Hg. reflexivity.
Qed.

(** The location fetch returns ["Success"] when fewer than [MAX_RETRIES]
    attempts fail before one succeeds. *)
Lemma get_all_vehicle_data_succeeds (w : world) (s sk s' : state)
    (group_id : Z) (k : nat) (r : string) :
  SAMSARA_SFMTA_GROUP_ID w = Some (Numeral group_id) ->
  (k < MAX_RETRIES)%nat ->
  after_failures locations_attempt k w (get_vehicle_details w s).2 = Some sk ->
  locations_attempt w sk = (Return r, s') ->
  get_all_vehicle_data w s = (Return "Success", s')
  /\ samsara_calls s' = (samsara_calls s + S k)%nat.
Proof.
  intros Hg Hk Hfail Hok.
  pose proof (locations_attempt_returns_success _ _ _ _ Hok) as ->.
  rewrite (run_get_all_vehicle_data _ _ _ Hg), locations_loop_retry.
  split.
  - eapply retry_succeeds; eauto.
  - pose proof (locations_attempt_samsara_calls w sk) as Hc.
    rewrite Hok in Hc. cbn in Hc.
    rewrite Hc, (after_failures_locations_calls _ _ _ _ Hfail).
    rewrite (get_vehicle_details_samsara_calls w s). lia.
Qed.

(** After [MAX_RETRIES] failed attempts the location fetch has made exactly
    [MAX_RETRIES] requests and returns ["Failure"], unless the notification
    it then sends raises. *)
Lemma get_all_vehicle_data_exhausted (w : world) (s sn : state) (group_id : Z) :
  SAMSARA_SFMTA_GROUP_ID w = Some (Numeral group_id) ->
  after_failures locations_attempt MAX_RETRIES w (get_vehicle_details w s).2
  = Some sn ->
  get_all_vehicle_data w s
  = (match alert_raises w sn with Some e => Raise e | None => Return "Failure" end,
     alert_state (site_mail LocationsExhausted) w sn)
  /\ samsara_calls sn = (samsara_calls s + MAX_RETRIES)%nat.
Proof.
  intros Hg Hfail.
  rewrite (run_get_all_vehicle_data _ _ _ Hg), locations_loop_retry.
  rewrite (retry_exhausted _ _ _ _ _ _ Hfail), run_locations_exhausted.
  split; [reflexivity |].
  rewrite (after_failures_locations_calls _ _ _ _ Hfail).
  rewrite (get_vehicle_details_samsara_calls w s). reflexivity.
Qed.

(** With the notification due and accepted, the exhausted push returns
    ["Failure"]. *)
Lemma push_vehicle_data_exhausted_alerting (w : world) (s s1 : state)
    (vehicle_id : string) (current_time : Z) (payload : OrderedDict) :
  build_sfmta_payload vehicle_id current_time w s = (Return payload, s1) ->
  (forall i, (i < MAX_RETRIES)%nat ->
     exists e, sfmta w (sfmta_calls s1 + i) = TelemetryFail e) ->
  clock w (clock_reads s1) - LAST_ERROR_EMAIL_TIME s1 > ERROR_EMAIL_DELAY ->
  smtp w (smtp_calls s1) = None ->
  (push_vehicle_data vehicle_id current_time w s).1 = Return (Some "Failure").
Proof.
  intros Hb Hfail Hdue Hsmtp.
  unfold push_vehicle_data.
  rewrite (run_bind_return _ _ _ _ _ _ Hb).
  rewrite run_bind. cbn [asks].
  rewrite (telemetry_loop_exhausted _ _ _ Hfail).
  rewrite run_telemetry_exhausted.
  set (sn := Nat.iter MAX_RETRIES (set_sfmta_calls S) s1).
  assert (Hd : alert_due w sn = true) by (apply alert_due_true; exact Hdue).
  unfold alert_raises. rewrite Hd.
  replace (smtp_calls sn) with (smtp_calls s1) by reflexivity.
  rewrite Hsmtp. reflexivity.
Qed.

(** ** The synchronization loop *)

Lemma cycle_reports (w : world) (s s1 : state) (e : exn) :
  cycle_body w s = (Raise e, s1) -> cycle w s = cycle_except w s1.
Proof. intros H. unfold cycle, try_except. rewrite H. reflexivity. Qed.

Lemma cycle_returns (w : world) (s : state) :
  (forall k, smtp w k = None) -> (cycle w s).1 = Return tt.
Proof.
  intros Hsmtp. unfold cycle, try_except.
  destruct (cycle_body w s) as [[[] | e] s1]; [reflexivity |].
  rewrite run_cycle_except. unfold alert_raises.
  rewrite Hsmtp. destruct (alert_due w s1); reflexivity.
Qed.

(** While the notification sink accepts every message the loop is never
    left: after any number of iterations it is still running. *)
Lemma push_all_data_keeps_running (w : world) :
  (forall k, smtp w k = None) ->
  forall (iterations : nat) (s : state),
    (push_all_data iterations w s).1 = Return tt.
Proof.
  intros Hsmtp. induction iterations as [| n IH]; intros s; [reflexivity |].
  cbn [push_all_data]. rewrite run_bind.
  pose proof (cycle_returns w s Hsmtp) as Hc.
  destruct (cycle w s) as [[[] | e] s1]; [apply IH | discriminate].
Qed.

(** C6 (the code departs from the claim).  An exception raised in a cycle is
    caught and reported, but when the report is due and sending it raises,
    that exception leaves the [except] block: [push_all_data] ends with it
    in that very iteration. *)
Theorem push_all_data_left_by_failed_report (w : world) (s s1 : state)
    (e e' : exn) (more : nat) :
  cycle_body w s = (Raise e, s1) ->
  clock w (clock_reads s1) - LAST_ERROR_EMAIL_TIME s1 > ERROR_EMAIL_DELAY ->
  smtp w (smtp_calls s1) = Some e' ->
  (push_all_data (S more) w s).1 = Raise e'.
Proof.
  intros Hbody Hdue Hsmtp.
  cbn [push_all_data]. rewrite run_bind.
  rewrite (cycle_reports _ _ _ _ Hbody), run_cycle_except.
  unfold alert_raises. rewrite (alert_due_true _ _ Hdue), Hsmtp. reflexivity.
Qed.

(** ** Roster refresh *)

Lemma run_store_entry (e : sheet_entry) (r : roster_row) (w : world) (s : state) :
  row_of_entry e = Some r ->
  store_entry e w s = (Return tt, store_row r s).
Proof.
  unfold row_of_entry, store_entry, cell_text, store_row. munfold.
  destruct e as [c1 c2 c3 c4]. cbn.
  destruct c1 as [[[t1 |]] |]; cbn; try discriminate.
  destruct c2 as [[[t2 |]] |]; cbn; try discriminate.
  destruct c3 as [[[t3 |]] |]; cbn; try discriminate.
  destruct c4 as [[[t4 |]] |]; cbn; try discriminate.
  intros H. inversion H. reflexivity.
Qed.

Lemma run_store_entries (entries : list sheet_entry) (rows : list roster_row)
    (w : world) (s : state) :
  mapM row_of_entry entries = Some rows ->
  for_each entries store_entry w s
  = (Return tt, foldl (fun s0 r => store_row r s0) s rows).
Proof.
  revert rows s. induction entries as [| e rest IH]; intros rows s H.
  - cbn in H. inversion H. reflexivity.
  - cbn in H.
    destruct (row_of_entry e) as [r |] eqn:Er; [| discriminate].
    cbn in H.
    destruct (mapM row_of_entry rest) as [rs |] eqn:Ers; [| discriminate].
    cbn in H. inversion H; subst rows.
    cbn [for_each foldl].
    rewrite (run_bind_return _ _ _ _ _ _ (run_store_entry e r w s Er)).
    apply IH. reflexivity.
Qed.

Lemma stored_vehicle_ids (rows : list roster_row) (s : state) :
  vehicle_ids (foldl (fun s0 r => store_row r s0) s rows)
  = vehicle_ids s ∪ list_to_set (row_id <$> rows).
Proof.
  revert s. induction rows as [| r rest IH]; intros s; cbn [foldl].
  - cbn. rewrite (right_id_L ∅ (∪)). reflexivity.
  - rewrite IH. cbn. rewrite (assoc_L (∪)). reflexivity.
Qed.

Section StoredRows.

Variable vehicle_id : string.

Lemma stored_placards (rows : list roster_row) (s : state) :
  placards (foldl (fun s0 r => store_row r s0) s rows) !! vehicle_id
  = match last_row vehicle_id rows with
    | Some r => Some (row_placard r)
    | None => placards s !! vehicle_id
    end.
Proof.
  revert s. induction rows as [| r rest IH]; intros s; cbn [foldl last_row].
  - reflexivity.
  - rewrite IH. destruct (last_row vehicle_id rest); [reflexivity |].
    cbn. destruct (decide (row_id r = vehicle_id)) as [-> | Hne].
    + apply lookup_insert_eq.
    + apply lookup_insert_ne. exact Hne.
Qed.

Lemma stored_license_plates (rows : list roster_row) (s : state) :
  license_plates (foldl (fun s0 r => store_row r s0) s rows) !! vehicle_id
  = match last_row vehicle_id rows with
    | Some r => Some (row_plate r)
    | None => license_plates s !! vehicle_id
    end.
Proof.
  revert s. induction rows as [| r rest IH]; intros s; cbn [foldl last_row].
  - reflexivity.
  - rewrite IH. destruct (last_row vehicle_id rest); [reflexivity |].
    cbn. destruct (decide (row_id r = vehicle_id)) as [-> | Hne].
    + apply lookup_insert_eq.
    + apply lookup_insert_ne. exact Hne.
Qed.

Lemma stored_vehicle_names (rows : list roster_row) (s : state) :
  vehicle_names (foldl (fun s0 r => store_row r s0) s rows) !! vehicle_id
  = match last_row vehicle_id rows with
    | Some r => Some (row_name r)
    | None => vehicle_names s !! vehicle_id
    end.
Proof.
  revert s. induction rows as [| r rest IH]; intros s; cbn [foldl last_row].
  - reflexivity.
  - rewrite IH. destruct (last_row vehicle_id rest); [reflexivity |].
    cbn. destruct (decide (row_id r = vehicle_id)) as [-> | Hne].
    + apply lookup_insert_eq.
    + apply lookup_insert_ne. exact Hne.
Qed.

End StoredRows.

Lemma run_get_vehicle_details_rows (w : world) (s : state) (rows : list roster_row) :
  rows_of (sheet w (sheet_calls s)) = Some rows ->
  get_vehicle_details w s
  = (Return "Success",
     foldl (fun s0 r => store_row r s0)
       (set_vehicle_ids (fun _ => ∅) (set_sheet_calls S s)) rows).
Proof.
  unfold rows_of.
  destruct (sheet w (sheet_calls s)) as [e | code e | code [e | json_data]]
    eqn:Ereply; try discriminate.
  destruct (decide (code = 200)) as [-> | Hne]; [| discriminate].
  destruct (feed json_data) as [f |] eqn:Ef; [| discriminate].
  cbn [mbind option_bind].
  destruct (entry f) as [entries |] eqn:Ee; [| discriminate].
  cbn [mbind option_bind]. intros Hrows.
  unfold get_vehicle_details, try_except, urlopen, response_read, json_loads.
  munfold. rewrite Ereply. cbn. rewrite Ef, Ee.
  destruct (decide (200 ≠ 200)) as [Hc | _]; [exfalso; apply Hc; reflexivity |].
  rewrite (run_store_entries entries rows w _ Hrows). reflexivity.
Qed.

Lemma run_get_vehicle_details_early (w : world) (s : state) :
  fails_before_feed (sheet w (sheet_calls s)) ->
  (get_vehicle_details w s).2 = set_sheet_calls S s.
Proof.
  unfold fails_before_feed.
  destruct (sheet w (sheet_calls s)) as [e | code e | code body] eqn:Ereply;
    unfold get_vehicle_details, try_except, urlopen, response_read, json_loads;
    munfold; rewrite Ereply; [reflexivity | |].
  { intros _. cbn. destruct (decide (code ≠ 200)); reflexivity. }
  cbn. intros [Hne | Hbody].
  - destruct (decide (code ≠ 200)) as [_ | Heq]; [reflexivity | contradiction].
  - destruct (decide (code ≠ 200)) as [_ | Heq]; [reflexivity |].
    destruct body as [e | json_data]; [reflexivity | contradiction].
Qed.

(** C7, as amended.  When the source delivers a complete feed the call
    returns ["Success"], the id set is exactly the ids of the feed and each
    of the three dictionaries is the old one overwritten at those ids; when
    the reply fails before the feed is looked at (source unreachable,
    unreadable response, status other than 200, unparsable body) ids and
    dictionaries are unchanged. *)
Theorem get_vehicle_details_refresh (w : world) (s : state) :
  (forall rows, rows_of (sheet w (sheet_calls s)) = Some rows ->
     (get_vehicle_details w s).1 = Return "Success"
     /\ roster_updated rows s (get_vehicle_details w s).2)
  /\ (fails_before_feed (sheet w (sheet_calls s)) ->
      roster_unchanged s (get_vehicle_details w s).2).
Proof.
  split.
  - intros rows Hrows. rewrite (run_get_vehicle_details_rows w s rows Hrows).
    split; [reflexivity |]. cbn [snd]. split.
    + rewrite stored_vehicle_ids. cbn. apply (left_id_L ∅ (∪)).
    + intros vehicle_id.
      rewrite stored_placards, stored_license_plates, stored_vehicle_names.
      auto.
  - intros Hearly. rewrite (run_get_vehicle_details_early w s Hearly).
    repeat split.
Qed.

(** ** The on-trip flags are written by the location fetch only *)

Section OnTripFrames.

Variables (vehicle_id : string) (w : world).

(** The observation of interest: the on-trip flag recorded for the vehicle. *)
#[local] Abbreviation flag := (fun s : state => vehicle_onTrip s !! vehicle_id).

Lemma frames_flag_step {A : Type} (m : M A) :
  (forall s, vehicle_onTrip (m w s).2 = vehicle_onTrip s) -> frames flag w m.
Proof. intros H s. cbn. rewrite H. reflexivity. Qed.

Lemma frames_flag_time_time : frames flag w time_time.
Proof. apply frames_flag_step. reflexivity. Qed.

Lemma frames_flag_time_sleep (secs : Z) : frames flag w (time_sleep secs).
Proof. apply frames_flag_step. reflexivity. Qed.

Lemma frames_flag_send_error_email (email_body email_subject : string) :
  frames flag w (send_error_email email_body email_subject).
Proof.
  apply frames_flag_step. intros s. unfold send_error_email.
  destruct (smtp w (smtp_calls s)); reflexivity.
Qed.

Lemma frames_flag_modify (f : state -> state) :
  (forall s, vehicle_onTrip (f s) = vehicle_onTrip s) -> frames flag w (modify f).
Proof. intros H. apply frames_flag_step. exact H. Qed.

Lemma frames_flag_urlopen : frames flag w urlopen.
Proof.
  apply frames_flag_step. intros s. unfold urlopen.
  destruct (sheet w (sheet_calls s)); reflexivity.
Qed.

Lemma frames_flag_s3_get : frames flag w s3_get.
Proof.
  apply frames_flag_step. intros s. unfold s3_get.
  destruct (s3 w (s3_calls s)); reflexivity.
Qed.

Lemma frames_flag_requests_post_telemetry (data : string) :
  frames flag w (requests_post_telemetry data).
Proof.
  apply frames_flag_step. intros s. unfold requests_post_telemetry.
  destruct (sfmta w (sfmta_calls s)); reflexivity.
Qed.

Hint Resolve frames_flag_time_time frames_flag_time_sleep
  frames_flag_send_error_email frames_flag_urlopen frames_flag_s3_get
  frames_flag_requests_post_telemetry : frames.
Hint Extern 1 (frames _ _ (modify _)) =>
  apply frames_flag_modify; reflexivity : frames.

Lemma frames_flag_store_entry (e : sheet_entry) : frames flag w (store_entry e).
Proof. unfold store_entry, cell_text. auto 20 with frames. Qed.

Lemma frames_flag_get_vehicle_details : frames flag w get_vehicle_details.
Proof.
  unfold get_vehicle_details.
  apply frames_try_except; [| auto with frames].
  apply frames_bind; [auto with frames |]. intros [code content].
  apply frames_bind; [| auto with frames].
  destruct (decide (code ≠ 200)); [auto with frames |].
  apply frames_bind; [auto with frames |]. intros body.
  apply frames_bind; [auto with frames |]. intros json_data.
  apply frames_bind; [auto with frames |]. intros _.
  apply frames_bind; [auto with frames |]. intros f.
  apply frames_bind; [auto with frames |]. intros entries.
  apply frames_for_each. intros e _. apply frames_flag_store_entry.
Qed.

Lemma frames_flag_find_stop_id (lat lon : option R) :
  frames flag w (find_stop_id lat lon).
Proof. apply frames_flag_step. intros s. rewrite run_find_stop_id. reflexivity. Qed.

Lemma frames_flag_build_sfmta_payload (vid : string) (current_time : Z) :
  frames flag w (build_sfmta_payload vid current_time).
Proof.
  unfold build_sfmta_payload, os_environ, global_item.
  pose proof frames_flag_find_stop_id.
  repeat (first [ apply frames_bind; [auto 10 with frames |]; intros ?
                | match goal with |- frames _ _ (if ?c then _ else _) =>
                    destruct c end
                | match goal with |- frames _ _ (let '(_, _) := ?p in _) =>
                    destruct p end
                | solve [auto 10 with frames] ]).
Qed.

Lemma frames_flag_alert_block {A : Type} (m : M A) (email : mail) :
  (forall s, (m w s).2 = alert_state email w s) -> frames flag w m.
Proof.
  intros H. apply frames_flag_step. intros s. rewrite H. unfold alert_state.
  destruct (alert_due w s); [destruct (smtp w (smtp_calls s)) |]; reflexivity.
Qed.

Lemma frames_flag_locations_exhausted : frames flag w locations_exhausted.
Proof.
  apply (frames_flag_alert_block _ (site_mail LocationsExhausted)).
  intros s. rewrite run_locations_exhausted. reflexivity.
Qed.

Lemma frames_flag_telemetry_exhausted : frames flag w telemetry_exhausted.
Proof.
  apply (frames_flag_alert_block _ (site_mail TelemetryExhausted)).
  intros s. rewrite run_telemetry_exhausted. reflexivity.
Qed.

Lemma frames_flag_cycle_except : frames flag w cycle_except.
Proof.
  apply (frames_flag_alert_block _ (site_mail CycleFailed)).
  intros s. rewrite run_cycle_except. reflexivity.
Qed.

Lemma frames_flag_push_vehicle_data (vid : string) (current_time : Z) :
  frames flag w (push_vehicle_data vid current_time).
Proof.
  unfold push_vehicle_data.
  apply frames_bind; [apply frames_flag_build_sfmta_payload |]. intros payload.
  apply frames_bind; [auto with frames |]. intros data.
  rewrite telemetry_loop_retry. apply frames_retry.
  - unfold telemetry_attempt. auto 10 with frames.
  - apply frames_flag_telemetry_exhausted.
Qed.

Lemma steps_flag_telemetry_loop_thread (data : string) (n : nat) :
  steps_frame flag w (telemetry_loop_thread data n).
Proof.
  unfold steps_frame. induction n as [| n IH]; cbn [telemetry_loop_thread].
  - unfold telemetry_exhausted_thread.
    steps_walk ltac:(auto 10 with frames).
  - apply all_steps_try; [| intros _; exact IH].
    steps_walk ltac:(auto 10 with frames).
Qed.

(** No step of a task of the pool writes an on-trip flag. *)
Lemma steps_flag_push_vehicle_data_thread (vid : string) (current_time : Z) :
  steps_frame flag w (push_vehicle_data_thread vid current_time).
Proof.
  unfold steps_frame, push_vehicle_data_thread.
  apply all_steps_bind; [| intros payload; apply all_steps_bind; [| intros data]].
  - unfold build_sfmta_payload_thread, find_stop_id_thread.
    steps_walk ltac:(unfold os_environ, global_item; auto 10 with frames).
  - apply all_steps_atomic. auto with frames.
  - apply steps_flag_telemetry_loop_thread.
Qed.

Lemma frames_flag_push_all_vehicle_data (current_time : Z) :
  frames flag w (push_all_vehicle_data current_time).
Proof.
  unfold push_all_vehicle_data.
  apply frames_bind; [auto with frames |]. intros ids.
  apply frames_bind; [auto with frames |]. intros _.
  apply frames_bind; [| auto with frames].
  apply frames_pool_map. intros vid. apply steps_flag_push_vehicle_data_thread.
Qed.

(** Storing a vehicle of another id does not record a flag for this one. *)
Lemma frames_flag_store_vehicle (v : vehicle_json) :
  v_id v <> Some vehicle_id -> frames flag w (store_vehicle v).
Proof.
  intros Hne s. unfold store_vehicle. munfold.
  destruct (v_id v) as [vid |]; [| reflexivity].
  destruct (v_latitude v), (v_longitude v), (v_onTrip v); cbn; try reflexivity.
  apply lookup_insert_ne. congruence.
Qed.

Hypothesis unlisted : never_listed vehicle_id w.

Lemma frames_flag_locations_attempt : frames flag w locations_attempt.
Proof.
  intros s. unfold locations_attempt, requests_post_locations.
  rewrite run_bind.
  destruct (samsara w (samsara_calls s)) as [e | body] eqn:Ereply;
    [reflexivity |].
  rewrite run_bind. unfold subscript.
  destruct (vehicles body) as [vs |] eqn:Evs; [| reflexivity].
  unfold mret at 1, M_ret at 1.
  assert (Hvs : frames flag w (for_each vs store_vehicle)).
  { apply frames_for_each. intros v Hv. apply frames_flag_store_vehicle.
    exact (unlisted _ _ _ _ Ereply Evs Hv). }
  rewrite run_bind. specialize (Hvs (set_samsara_calls S s)).
  destruct (for_each vs store_vehicle w (set_samsara_calls S s))
    as [[[] | e] s1]; exact Hvs.
Qed.

Lemma frames_flag_get_all_vehicle_data : frames flag w get_all_vehicle_data.
Proof.
  unfold get_all_vehicle_data, os_environ.
  apply frames_bind; [apply frames_flag_get_vehicle_details |]. intros _.
  apply frames_bind; [auto with frames |]. intros _.
  rewrite locations_loop_retry. apply frames_retry.
  - apply frames_flag_locations_attempt.
  - apply frames_flag_locations_exhausted.
Qed.

Lemma frames_flag_cycle : frames flag w cycle.
Proof.
  unfold cycle. apply frames_try_except; [| intros _; apply frames_flag_cycle_except].
  unfold cycle_body.
  apply frames_bind; [auto with frames |]. intros start_time.
  apply frames_bind; [apply frames_flag_get_all_vehicle_data |]. intros status.
  destruct (negb (String.eqb status "Success")); [auto with frames |].
  apply frames_bind; [auto with frames |]. intros now.
  apply frames_bind; [apply frames_flag_push_all_vehicle_data |]. intros _.
  apply frames_bind; [auto with frames |]. intros end_time.
  destruct (decide (FREQUENCY - (end_time - start_time) >= 0));
    auto with frames.
Qed.

Lemma frames_flag_push_all_data (iterations : nat) :
  frames flag w (push_all_data iterations).
Proof.
  induction iterations as [| n IH]; cbn [push_all_data]; [auto with frames |].
  apply frames_bind; [apply frames_flag_cycle | intros _; exact IH].
Qed.

End OnTripFrames.

(** A vehicle that no location response lists has no on-trip flag after any
    number of iterations of the loop. *)
Lemma never_listed_never_located (vehicle_id : string) (w : world)
    (iterations : nat) :
  never_listed vehicle_id w ->
  vehicle_onTrip (push_all_data iterations w initial_state).2 !! vehicle_id = None.
Proof.
  intros Hnl.
  rewrite (frames_flag_push_all_data vehicle_id w Hnl iterations initial_state).
  reflexivity.
Qed.

(** However the other tasks run, the task of a vehicle without on-trip
    flag ends with an exception. *)
Lemma push_vehicle_data_thread_needs_position (w : world) (vehicle_id : string)
    (current_time : Z) :
  tallies (fun s => vehicle_onTrip s !! vehicle_id = None) (fun _ => 0%nat)
    raises w (push_vehicle_data_thread vehicle_id current_time) 0.
Proof.
  set (I := fun s : state => vehicle_onTrip s !! vehicle_id = None).
  assert (Hread : forall (B : Type) (m : M B),
            (forall s, (m w s).2 = s) ->
            tallies I (fun _ => 0%nat) (fun _ => True) w (atomic m) 0).
  { intros B m Hm. apply tallies_atomic. intros s Hs. rewrite Hm. auto. }
  unfold push_vehicle_data_thread.
  apply (tallies_bind I _ w raises raises _ _ 0 0);
    [| intros a [x Hx]; discriminate Hx | intros e _; split; [reflexivity | eexists; reflexivity]].
  unfold build_sfmta_payload_thread. cbv zeta.
  apply (tallies_bind I _ w (fun _ => True) raises _ _ 0 0);
    [apply Hread; intros s; unfold os_environ; munfold;
     destruct (SFMTA_TECH_PROVIDER_ID w) as [[z | text] |]; reflexivity
    | intros tech_provider_id _
    | intros e _; split; [reflexivity | eexists; reflexivity]].
  apply (tallies_bind I _ w (fun _ => True) raises _ _ 0 0);
    [apply Hread; intros s; unfold os_environ; munfold;
     destruct (SFMTA_SHUTTLE_COMPANY_ID w); reflexivity
    | intros shuttle_company_id _
    | intros e _; split; [reflexivity | eexists; reflexivity]].
  apply (tallies_bind I _ w (fun _ => True) raises _ _ 0 0);
    [apply Hread; intros s; unfold global_item; munfold;
     destruct (placards s !! vehicle_id); reflexivity
    | intros placard _
    | intros e _; split; [reflexivity | eexists; reflexivity]].
  apply (tallies_bind I _ w (fun _ => True) raises _ _ 0 0);
    [apply Hread; intros s; unfold global_item; munfold;
     destruct (license_plates s !! vehicle_id); reflexivity
    | intros plate _
    | intros e _; split; [reflexivity | eexists; reflexivity]].
  apply (tallies_bind I _ w raises raises _ _ 0 0);
    [| intros a [x Hx]; discriminate Hx
     | intros e _; split; [reflexivity | eexists; reflexivity]].
  apply tallies_atomic. intros s Hs. unfold global_item. munfold.
  unfold I in Hs. rewrite Hs. cbn.
  split; [exact Hs |]. split; [reflexivity | eexists; reflexivity].
Qed.

(** The fan-out raises when the roster holds a vehicle without on-trip flag. *)
Lemma push_all_vehicle_data_needs_positions (w : world) (s : state)
    (vehicle_id : string) (current_time : Z) :
  vehicle_id ∈ vehicle_ids s ->
  vehicle_onTrip s !! vehicle_id = None ->
  exists e, (push_all_vehicle_data current_time w s).1 = Raise e.
Proof.
  intros Hin Hflag. unfold push_all_vehicle_data.
  rewrite run_bind. cbn [gets]. rewrite run_bind.
  destruct (decide (size (vehicle_ids s) < 1)%nat) as [Hsz | Hsz].
  { eexists. reflexivity. }
  unfold mret at 1, M_ret at 1. rewrite run_bind.
  set (I := fun s0 : state => vehicle_onTrip s0 !! vehicle_id = None).
  set (f := fun vid => push_vehicle_data_thread vid current_time).
  destruct (pool_map_tallies I (fun _ => 0%nat)
              (fun vid r => vid = vehicle_id -> raises r) (fun _ => 0%nat)
              w f (elements (vehicle_ids s)) s) as (_ & _ & Hresults).
  { intros vid _. unfold f.
    destruct (decide (vid = vehicle_id)) as [-> | Hne].
    - eapply tallies_mono;
        [| apply push_vehicle_data_thread_needs_position].
      intros r Hr _. exact Hr.
    - eapply tallies_mono; [| apply tallies_steps_keep].
      + intros r _ Heq. contradiction.
      + apply (steps_frame_keep (fun s0 => vehicle_onTrip s0 !! vehicle_id)).
        apply steps_flag_push_vehicle_data_thread. }
  { exact Hflag. }
  assert (Hex : Exists raises (pool_results f (elements (vehicle_ids s)) w s)).
  { assert (Hid : vehicle_id ∈ elements (vehicle_ids s))
      by (apply elem_of_elements; exact Hin).
    apply list_elem_of_lookup in Hid as [i Hi].
    destruct (Forall2_lookup_l _ _ _ _ _ Hresults Hi) as (r & Hr & Hraises).
    apply Exists_exists. exists r.
    split; [apply list_elem_of_lookup; eauto | apply Hraises; reflexivity]. }
  destruct (pool_map_result f (elements (vehicle_ids s)) w s) as [_ Hraise].
  destruct (Hraise Hex) as [e He].
  destruct (pool_map f (elements (vehicle_ids s)) w s) as [r s2].
  cbn in He. subst r. eexists. reflexivity.
Qed.

(** C10.  A vehicle that no location response lists never gets an on-trip
    flag, however long the loop runs; and a vehicle without on-trip flag
    cannot be given a payload: the builder raises whatever else is known;
    with the roster entry and the environment in place it raises [KeyError]
    on the vehicle id, and so does [push_vehicle_data], before any request is
    made; and a roster holding such a vehicle makes the fan-out of the
    dispatch phase raise. *)
Theorem build_sfmta_payload_needs_position (w : world)
    (vehicle_id : string) (current_time : Z)
    (tech_provider_id : Z) (shuttle_company_id placard plate : string) :
  (never_listed vehicle_id w ->
   forall iterations,
     vehicle_onTrip (push_all_data iterations w initial_state).2 !! vehicle_id
     = None)
  /\ (forall s : state,
        vehicle_onTrip s !! vehicle_id = None ->
        (exists e, (build_sfmta_payload vehicle_id current_time w s).1 = Raise e)
        /\ (SFMTA_TECH_PROVIDER_ID w = Some (Numeral tech_provider_id) ->
            SFMTA_SHUTTLE_COMPANY_ID w = Some shuttle_company_id ->
            placards s !! vehicle_id = Some placard ->
            license_plates s !! vehicle_id = Some plate ->
            build_sfmta_payload vehicle_id current_time w s
            = (Raise (KeyError vehicle_id), s)
            /\ push_vehicle_data vehicle_id current_time w s
               = (Raise (KeyError vehicle_id), s))
        /\ (vehicle_id ∈ vehicle_ids s ->
            exists e, (push_all_vehicle_data current_time w s).1 = Raise e)).
Proof.
  split.
  - intros Hnl iterations. apply never_listed_never_located. exact Hnl.
  - intros s Hot. split; [| split].
    + destruct (build_raises_without_on_trip w s vehicle_id current_time Hot)
        as [e He].
      exists e. rewrite He. reflexivity.
    + intros Htp Hsc Hp Hlp.
      pose proof (run_build_no_position w s vehicle_id current_time _ _ _ _
                    Htp Hsc Hp Hlp Hot) as Hb.
      split; [exact Hb |].
      unfold push_vehicle_data. rewrite (run_bind_raise _ _ _ _ _ _ Hb).
      reflexivity.
    + intros Hin.
      exact (push_all_vehicle_data_needs_positions w s vehicle_id current_time
               Hin Hot).
Qed.

(** ** The statements at sample inputs *)

Lemma build_sfmta_payload_status_and_stop_witness :
  exists payload,
    (build_sfmta_payload "212" 1700000000 (stops_world [stop_here])
       (located_state true)).1 = Return payload
    /\ od_getitem "StopId" payload = Some (PInt 9999)
    /\ od_getitem "VehicleStatus" payload = Some (PInt 1).
Proof.
  destruct (build_sfmta_payload_status_and_stop
              (stops_world [stop_here]) (located_state true) "212" 1700000000
              7 "42" "P1" "ABC123" true (Some 37%R) (Some (-122)%R)
              eq_refl eq_refl eq_refl eq_refl eq_refl eq_refl eq_refl)
    as (payload & Hbuilt & Hon & _).
  exists payload. split; [exact Hbuilt | exact (Hon eq_refl)].
Defined.

Lemma stop_load_failure_reaches_StopId_witness :
  exists payload,
    (build_sfmta_payload "212" 1700000000 outage_world (located_state false)).1
    = Return payload
    /\ od_getitem "StopId" payload
       = Some (PStr ("Error loading data from S3 bucket" +:+ newline
                     +:+ str_exn (IOError "bucket unreachable")))
    /\ od_getitem "StopId" payload <> Some (PInt 9999).
Proof.
  exact (stop_load_failure_reaches_StopId
           outage_world (located_state false) "212" 1700000000
           7 "42" "P1" "ABC123" (Some 37%R) (Some (-122)%R)
           (IOError "bucket unreachable")
           eq_refl eq_refl eq_refl eq_refl eq_refl eq_refl eq_refl eq_refl).
Defined.

Lemma telemetry_body_field_order_witness :
  exists (stop_id : pyval) (vehicle_status : Z) (s1 : state),
    build_sfmta_payload "212" 1700000000 (stops_world [stop_here])
      (located_state true)
    = (Return (telemetry_record 7 "42" "P1" "ABC123" stop_id vehicle_status
                 (Some 37%R) (Some (-122)%R) (pretty 1700000000)), s1)
    /\ od_keys (telemetry_record 7 "42" "P1" "ABC123" stop_id vehicle_status
                  (Some 37%R) (Some (-122)%R) (pretty 1700000000))
       = ["TechProviderId"; "ShuttleCompanyId"; "VehiclePlacardNum";
          "LicensePlateNum"; "StopId"; "VehicleStatus"; "LocationLatitude";
          "LocationLongitude"; "TimeStampLocal"].
Proof.
  destruct (telemetry_body_field_order
              (stops_world [stop_here]) (located_state true) "212" 1700000000
              7 "42" "P1" "ABC123" true (Some 37%R) (Some (-122)%R)
              eq_refl eq_refl eq_refl eq_refl eq_refl eq_refl eq_refl)
    as (stop_id & vehicle_status & s1 & Hbuilt & Hkeys & _).
  exists stop_id, vehicle_status, s1. split; [exact Hbuilt | exact Hkeys].
Defined.

Lemma build_sfmta_payload_needs_position_witness :
  vehicle_onTrip (push_all_data 2 tracking_world initial_state).2 !! "212" = None
  /\ (build_sfmta_payload "212" 1700000000 outage_world listed_state
      = (Raise (KeyError "212"), listed_state)
      /\ push_vehicle_data "212" 1700000000 outage_world listed_state
         = (Raise (KeyError "212"), listed_state))
  /\ exists e, (push_all_vehicle_data 1700000000 outage_world listed_state).1
               = Raise e.
Proof.
  split.
  - apply (proj1 (build_sfmta_payload_needs_position
                    tracking_world "212" 1700000000 7 "42" "P1" "ABC123")).
    intros k body vs v Hreply Hvs Hv.
    inversion Hreply; subst body. inversion Hvs; subst vs.
    apply list_elem_of_singleton in Hv. subst v. discriminate.
  - destruct (proj2 (build_sfmta_payload_needs_position
                       outage_world "212" 1700000000 7 "42" "P1" "ABC123"))
      with (s := listed_state) as (_ & Hkey & Hfan); [reflexivity |].
    split.
    + exact (Hkey eq_refl eq_refl eq_refl eq_refl).
    + apply Hfan.
      change (vehicle_ids listed_state) with ({["212"]} : gset string).
      apply elem_of_singleton_2. reflexivity.
Defined.

Lemma push_vehicle_data_exhausted_in_cooldown_witness :
  (push_vehicle_data "212" 1700000000 outage_world cooling_state).1 = Return None
  /\ sfmta_calls (push_vehicle_data "212" 1700000000 outage_world cooling_state).2
     = (sfmta_calls (set_s3_calls S cooling_state) + MAX_RETRIES)%nat.
Proof.
  eapply (push_vehicle_data_exhausted_in_cooldown
            outage_world cooling_state (set_s3_calls S cooling_state)
            "212" 1700000000).
  - eapply (run_build_off_trip outage_world cooling_state "212" 1700000000
              7 "42" "P1" "ABC123"); reflexivity.
  - intros i _. eexists. reflexivity.
  - vm_compute. discriminate.
Defined.

Lemma reports_throttled_at_outage :
  notifications initial_state
    (reports [LocationsExhausted; TelemetryExhausted] outage_world initial_state)
  = 1%nat
  /\ notifications initial_state
       (reports [LocationsExhausted; CycleFailed]
          (with_clock (fun k => 1700000000 + 10000 * Z.of_nat k) outage_world)
          initial_state)
     = 2%nat
  /\ (notifications initial_state
        (reports [TelemetryExhausted; TelemetryExhausted; CycleFailed;
                  LocationsExhausted] outage_world initial_state)
      <= 1)%nat.
Proof.
  split; [| split].
  - apply (proj1 (reports_throttled outage_world initial_state)
             LocationsExhausted TelemetryExhausted);
      [vm_compute; reflexivity | reflexivity | reflexivity
      | vm_compute; reflexivity].
  - apply (proj1 (reports_throttled
                    (with_clock (fun k => 1700000000 + 10000 * Z.of_nat k)
                       outage_world) initial_state)
             LocationsExhausted CycleFailed);
      [vm_compute; reflexivity | reflexivity | reflexivity
      | vm_compute; reflexivity].
  - apply (proj2 (reports_throttled outage_world initial_state) _ 1700000000).
    intros k Hk. cbn in *. unfold ERROR_EMAIL_DELAY. lia.
Qed.

Lemma has_payload_fleet (vehicle_id : string) :
  vehicle_id ∈ ["305"; "212"] -> has_payload outage_world fleet_state vehicle_id.
Proof.
  intros Hin. apply list_elem_of_In in Hin.
  destruct Hin as [<- | [<- | []]]; repeat split; eexists; reflexivity.
Qed.

Lemma alert_throttle_race_witness :
  clock outage_world 1 - clock outage_world 0 < ERROR_EMAIL_DELAY
  /\ exists picks : list nat,
       let w' := with_schedule (fun _ => picks) outage_world in
       let s' := (push_all_vehicle_data 1700000000 w' fleet_state).2 in
       (push_all_vehicle_data 1700000000 w' fleet_state).1 = Return tt
       /\ clock_reads s' = 2%nat
       /\ outbox s'
          = [site_mail TelemetryExhausted; site_mail TelemetryExhausted]
       /\ notifications fleet_state s' = 2%nat.
Proof.
  split; [reflexivity |].
  apply (alert_throttle_race outage_world fleet_state 1700000000 "305" "212").
  - vm_compute. reflexivity.
  - apply has_payload_fleet. left.
  - apply has_payload_fleet. right. left.
  - reflexivity.
  - reflexivity.
  - intros k. eexists. reflexivity.
  - intros k. reflexivity.
  - vm_compute. reflexivity.
  - vm_compute. reflexivity.
Defined.

Lemma push_all_data_left_by_failed_report_witness :
  (push_all_data 3
     (with_smtp (fun _ => Some (SMTPException "connection refused")) outage_world)
     initial_state).1
  = Raise (SMTPException "connection refused").
Proof.
  eapply (push_all_data_left_by_failed_report
            (with_smtp (fun _ => Some (SMTPException "connection refused"))
               outage_world)
            initial_state).
  - vm_compute. reflexivity.
  - vm_compute. reflexivity.
  - reflexivity.
Defined.







Lemma get_vehicle_details_refresh_witness :
  ((get_vehicle_details (feed_world [complete_entry "305" "P7" "XYZ789" "Shuttle 7"])
      listed_state).1 = Return "Success"
   /\ roster_updated
        [{| row_id := "305"; row_placard := "P7"; row_plate := "XYZ789";
            row_name := "Shuttle 7" |}]
        listed_state
        (get_vehicle_details
           (feed_world [complete_entry "305" "P7" "XYZ789" "Shuttle 7"])
           listed_state).2)
  /\ roster_unchanged listed_state (get_vehicle_details outage_world listed_state).2.
Proof.
  split.
  - apply (proj1 (get_vehicle_details_refresh
                    (feed_world [complete_entry "305" "P7" "XYZ789" "Shuttle 7"])
                    listed_state)).
    reflexivity.
  - apply (proj2 (get_vehicle_details_refresh outage_world listed_state)).
    exact I.
Defined.

(** C7, as the claim states it, fails twice.  A feed whose second entry lacks
    a column makes the call fail with vehicle 212 gone from the id set and
    vehicle 305 added; a complete feed for vehicle 305 alone leaves the
    placard, plate and name of vehicle 212 in the dictionaries. *)
Lemma get_vehicle_details_not_atomic :
  ~ refresh_is_atomic
      (feed_world [complete_entry "305" "P7" "XYZ789" "Shuttle 7"; broken_entry "306"])
      listed_state
  /\ ~ refresh_is_atomic
         (feed_world [complete_entry "305" "P7" "XYZ789" "Shuttle 7"])
         listed_state.
Proof.
  split.
  - intros [(Hids & _) | (rows & Hrows & _)].
    + apply (f_equal (fun ids => bool_decide ("212" ∈ ids))) in Hids.
      vm_compute in Hids. discriminate Hids.
    + vm_compute in Hrows. discriminate Hrows.
  - intros [(Hids & _) | (rows & Hrows & _ & Hmaps)].
    + apply (f_equal (fun ids => bool_decide ("212" ∈ ids))) in Hids.
      vm_compute in Hids. discriminate Hids.
    + vm_compute in Hrows. inversion Hrows; subst rows.
      destruct (Hmaps "212") as (Hplacard & _).
      vm_compute in Hplacard. discriminate Hplacard.
Qed.

(** The failing call of the first case returns the error text. *)
Example get_vehicle_details_partial_failure :
  (get_vehicle_details
     (feed_world [complete_entry "305" "P7" "XYZ789" "Shuttle 7"; broken_entry "306"])
     listed_state).1
  = Return ("Error reading vehicle details from Google Sheet" +:+ newline
            +:+ str_exn (KeyError "gsx$vehicleplacardnumber")).
Proof. vm_compute. reflexivity. Qed.

(** After it the id set holds 305 and 306, and no longer 212. *)
Example get_vehicle_details_partial_failure_ids :
  let s' := (get_vehicle_details
               (feed_world [complete_entry "305" "P7" "XYZ789" "Shuttle 7";
                            broken_entry "306"])
               listed_state).2 in
  bool_decide ("305" ∈ vehicle_ids s') = true
  /\ bool_decide ("306" ∈ vehicle_ids s') = true
  /\ bool_decide ("212" ∈ vehicle_ids s') = false
  /\ placards s' !! "306" = None.
Proof. vm_compute. repeat split. Qed.

(** The exhausted location fetch, ten seconds after a notification, returns
    ["Failure"] where the exhausted push returns [None]. *)
Example get_all_vehicle_data_exhausted_in_cooldown :
  (get_all_vehicle_data outage_world
     (set_LAST_ERROR_EMAIL_TIME (fun _ => 1699999990) initial_state)).1
  = Return "Failure".
Proof. vm_compute. reflexivity. Qed.

(** * Further properties *)

(** ** Footprints *)

(** Each operation changes only some fields of the state.  An observation
    [proj] that does not look at those fields is left as it was. *)
Section Footprint.

Context {X : Type}.
Variables (proj : state -> X) (w : world).

Hypothesis blind_vehicle_ids : forall f s, proj (set_vehicle_ids f s) = proj s.
Hypothesis blind_placards : forall f s, proj (set_placards f s) = proj s.
Hypothesis blind_license_plates : forall f s, proj (set_license_plates f s) = proj s.
Hypothesis blind_vehicle_names : forall f s, proj (set_vehicle_names f s) = proj s.
Hypothesis blind_vehicle_lat : forall f s, proj (set_vehicle_lat f s) = proj s.
Hypothesis blind_vehicle_long : forall f s, proj (set_vehicle_long f s) = proj s.
Hypothesis blind_vehicle_onTrip : forall f s, proj (set_vehicle_onTrip f s) = proj s.
Hypothesis blind_LAST_ERROR_EMAIL_TIME :
  forall f s, proj (set_LAST_ERROR_EMAIL_TIME f s) = proj s.
Hypothesis blind_clock_reads : forall f s, proj (set_clock_reads f s) = proj s.
Hypothesis blind_sheet_calls : forall f s, proj (set_sheet_calls f s) = proj s.
Hypothesis blind_samsara_calls : forall f s, proj (set_samsara_calls f s) = proj s.
Hypothesis blind_s3_calls : forall f s, proj (set_s3_calls f s) = proj s.
Hypothesis blind_sfmta_calls : forall f s, proj (set_sfmta_calls f s) = proj s.
Hypothesis blind_smtp_calls : forall f s, proj (set_smtp_calls f s) = proj s.
Hypothesis blind_outbox : forall f s, proj (set_outbox f s) = proj s.
Hypothesis blind_accepted : forall f s, proj (set_accepted f s) = proj s.
Hypothesis blind_slept : forall f s, proj (set_slept f s) = proj s.

Ltac frame_bind := apply frames_bind; [| intros ?].

Lemma footprint_time_time : frames proj w time_time.
Proof. intros s. apply blind_clock_reads. Qed.

Lemma footprint_time_sleep (secs : Z) : frames proj w (time_sleep secs).
Proof. intros s. apply blind_slept. Qed.

Lemma footprint_urlopen : frames proj w urlopen.
Proof.
  intros s. unfold urlopen.
  destruct (sheet w (sheet_calls s)); apply blind_sheet_calls.
Qed.

Lemma footprint_store_entry (e : sheet_entry) : frames proj w (store_entry e).
Proof.
  unfold store_entry, cell_text.
  repeat first
    [ frame_bind
    | apply frames_subscript
    | intros s; cbn [modify snd];
      first [ apply blind_vehicle_ids | apply blind_placards
            | apply blind_license_plates | apply blind_vehicle_names ] ].
Qed.

Lemma footprint_get_vehicle_details : frames proj w get_vehicle_details.
Proof.
  unfold get_vehicle_details.
  apply frames_try_except; [| intros e; apply frames_mret].
  frame_bind; [apply footprint_urlopen |]. destruct a as [code content].
  frame_bind; [| apply frames_mret].
  destruct (decide (code ≠ 200)).
  { frame_bind; [apply frames_response_read | apply frames_mret]. }
  frame_bind; [apply frames_response_read |].
  frame_bind; [apply frames_json_loads |].
  frame_bind; [intros s; apply blind_vehicle_ids |].
  frame_bind; [apply frames_subscript |].
  frame_bind; [apply frames_subscript |].
  apply frames_for_each. intros e _. apply footprint_store_entry.
Qed.

Lemma footprint_send_error_email (email_body email_subject : string) :
  frames proj w (send_error_email email_body email_subject).
Proof.
  intros s. unfold send_error_email.
  destruct (smtp w (smtp_calls s)); cbn [snd].
  - apply blind_smtp_calls.
  - rewrite blind_outbox. apply blind_smtp_calls.
Qed.

Lemma footprint_alert_state (email : mail) (s : state) :
  proj (alert_state email w s) = proj s.
Proof.
  unfold alert_state.
  destruct (alert_due w s); [destruct (smtp w (smtp_calls s)) |].
  - rewrite blind_smtp_calls. apply blind_clock_reads.
  - rewrite blind_LAST_ERROR_EMAIL_TIME, blind_outbox, blind_smtp_calls.
    apply blind_clock_reads.
  - apply blind_clock_reads.
Qed.

Lemma footprint_locations_exhausted : frames proj w locations_exhausted.
Proof.
  intros s. rewrite run_locations_exhausted. apply footprint_alert_state.
Qed.

Lemma footprint_telemetry_exhausted : frames proj w telemetry_exhausted.
Proof.
  intros s. rewrite run_telemetry_exhausted. apply footprint_alert_state.
Qed.

Lemma footprint_cycle_except : frames proj w cycle_except.
Proof.
  intros s. rewrite run_cycle_except. apply footprint_alert_state.
Qed.

Lemma footprint_s3_get : frames proj w s3_get.
Proof.
  intros s. unfold s3_get. destruct (s3 w (s3_calls s)); apply blind_s3_calls.
Qed.

Lemma footprint_find_stop_id (lat lon : option R) :
  frames proj w (find_stop_id lat lon).
Proof.
  intros s. rewrite run_find_stop_id. apply blind_s3_calls.
Qed.

Lemma footprint_build_sfmta_payload (vehicle_id : string) (current_time : Z) :
  frames proj w (build_sfmta_payload vehicle_id current_time).
Proof.
  unfold build_sfmta_payload, os_environ, global_item.
  repeat first
    [ apply frames_mret | apply frames_gets | apply frames_asks
    | apply frames_subscript | apply frames_int | apply footprint_find_stop_id
    | frame_bind
    | match goal with
      | |- frames _ _ (if ?c then _ else _) => destruct c
      | |- frames _ _ (let '(_, _) := ?p in _) => destruct p
      end ].
Qed.

Lemma footprint_requests_post_telemetry (data : string) :
  frames proj w (requests_post_telemetry data).
Proof.
  intros s. unfold requests_post_telemetry.
  destruct (sfmta w (sfmta_calls s)); cbn [snd].
  - apply blind_sfmta_calls.
  - rewrite blind_accepted. apply blind_sfmta_calls.
Qed.

Lemma footprint_push_vehicle_data (vehicle_id : string) (current_time : Z) :
  frames proj w (push_vehicle_data vehicle_id current_time).
Proof.
  unfold push_vehicle_data.
  frame_bind; [apply footprint_build_sfmta_payload |].
  frame_bind; [apply frames_asks |].
  rewrite telemetry_loop_retry. apply frames_retry.
  - unfold telemetry_attempt.
    frame_bind; [apply footprint_requests_post_telemetry | apply frames_mret].
  - apply footprint_telemetry_exhausted.
Qed.

Ltac footprint_step :=
  first
    [ apply frames_gets | apply frames_asks | apply footprint_time_time
    | apply footprint_send_error_email | apply footprint_s3_get
    | apply frames_nearest_stop | apply footprint_requests_post_telemetry
    | intros ?; apply blind_LAST_ERROR_EMAIL_TIME
    | unfold os_environ, global_item;
      repeat first [ frame_bind | apply frames_asks | apply frames_gets
                   | apply frames_subscript | apply frames_int ] ].

Lemma footprint_telemetry_loop_thread (data : string) (n : nat) :
  steps_frame proj w (telemetry_loop_thread data n).
Proof.
  unfold steps_frame. induction n as [| n IH]; cbn [telemetry_loop_thread].
  - unfold telemetry_exhausted_thread. steps_walk footprint_step.
  - apply all_steps_try; [| intros _; exact IH]. steps_walk footprint_step.
Qed.

Lemma footprint_push_vehicle_data_thread (vehicle_id : string) (current_time : Z) :
  steps_frame proj w (push_vehicle_data_thread vehicle_id current_time).
Proof.
  unfold steps_frame, push_vehicle_data_thread.
  apply all_steps_bind; [| intros payload; apply all_steps_bind; [| intros data]].
  - unfold build_sfmta_payload_thread, find_stop_id_thread.
    steps_walk footprint_step.
  - apply all_steps_atomic. apply frames_asks.
  - apply footprint_telemetry_loop_thread.
Qed.

Lemma footprint_push_all_vehicle_data (current_time : Z) :
  frames proj w (push_all_vehicle_data current_time).
Proof.
  unfold push_all_vehicle_data.
  frame_bind; [apply frames_gets |].
  frame_bind; [destruct (decide _); [apply frames_raise | apply frames_mret] |].
  frame_bind; [| apply frames_mret].
  apply frames_pool_map. intros vid. apply footprint_push_vehicle_data_thread.
Qed.

Lemma footprint_requests_post_locations : frames proj w requests_post_locations.
Proof.
  intros s. unfold requests_post_locations.
  destruct (samsara w (samsara_calls s)); apply blind_samsara_calls.
Qed.

Lemma footprint_store_vehicle (v : vehicle_json) : frames proj w (store_vehicle v).
Proof.
  unfold store_vehicle.
  repeat first
    [ frame_bind
    | apply frames_subscript
    | intros s; cbn [modify snd];
      first [ apply blind_vehicle_lat | apply blind_vehicle_long
            | apply blind_vehicle_onTrip ] ].
Qed.

Lemma footprint_locations_attempt : frames proj w locations_attempt.
Proof.
  unfold locations_attempt.
  frame_bind; [apply footprint_requests_post_locations |].
  frame_bind; [apply frames_subscript |].
  frame_bind; [| apply frames_mret].
  apply frames_for_each. intros v _. apply footprint_store_vehicle.
Qed.

Lemma footprint_get_all_vehicle_data : frames proj w get_all_vehicle_data.
Proof.
  unfold get_all_vehicle_data, os_environ.
  frame_bind; [apply footprint_get_vehicle_details |].
  frame_bind;
    [frame_bind;
       [frame_bind; [apply frames_asks | apply frames_subscript]
       | apply frames_int] |].
  rewrite locations_loop_retry. apply frames_retry.
  - apply footprint_locations_attempt.
  - apply footprint_locations_exhausted.
Qed.

End Footprint.

(** ** Great-circle distance: range *)

Module GeoRange.

Import Geo.
Open Scope R_scope.

(** In the quadrant where both arguments are non-negative the angle lies
    between 0 and a right angle. *)
Lemma atan2_quadrant (y x : R) :
  0 <= y -> 0 <= x -> 0 <= atan2 y x <= PI / 2.
Proof.
  intros Hy Hx. pose proof PI_RGT_0 as Hpi. unfold atan2.
  destruct (Rlt_dec 0 x) as [Hpos | Hnpos].
  - pose proof (atan_bound (y / x)) as [_ Hup].
    split; [| lra].
    assert (Hq : 0 <= y / x).
    { apply Rmult_le_pos; [exact Hy |]. left. apply Rinv_0_lt_compat. exact Hpos. }
    destruct Hq as [Hq | Hq].
    + left. rewrite <- atan_0. apply atan_increasing. exact Hq.
    + rewrite <- Hq, atan_0. lra.
  - destruct (Rlt_dec x 0) as [Hneg | _]; [lra |].
    destruct (Rlt_dec 0 y) as [_ | _]; [lra |].
    destruct (Rlt_dec y 0) as [Hyneg | _]; lra.
Qed.

(** Over the reals the value of [distance] is non-negative and at most half
    the circumference of the sphere of radius 6371000 m. *)
Lemma distance_value_bounds (origin_lat origin_long dest_lat dest_long : option R) :
  0 <= distance origin_lat origin_long dest_lat dest_long <= radius * PI.
Proof.
  assert (Hpi : 3 < PI) by (pose proof PI2_3_2; lra).
  assert (Hfar : 0 <= 99999 <= radius * PI) by (unfold radius; lra).
  destruct origin_lat as [lat1 |], origin_long as [lon1 |],
    dest_lat as [lat2 |], dest_long as [lon2 |]; cbn [distance]; try exact Hfar.
  pose proof (GeoFacts.haversine_range lat1 lon1 lat2 lon2) as [Ha0 Ha1].
  set (a := haversine lat1 lon1 lat2 lon2) in *.
  pose proof (atan2_quadrant (sqrt a) (sqrt (1 - a))
                (sqrt_pos a) (sqrt_pos (1 - a))) as [Hc0 Hc1].
  unfold radius. split; nra.
Qed.

(** X1.  A call of [distance] changes no global.  It returns a value that is
    non-negative and at most half the circumference of the sphere of radius
    6371000 m, or it raises the [ValueError] of [math.sqrt]; it raises only
    when none of the four coordinates is null. *)
Theorem distance_bounds (origin_lat origin_long dest_lat dest_long : option R)
    (w : world) (s : state) :
  (exists d,
     call_distance origin_lat origin_long dest_lat dest_long w s = (Return d, s)
     /\ 0 <= d <= radius * PI)
  \/ (call_distance origin_lat origin_long dest_lat dest_long w s
      = (Raise (ValueError "math domain error"), s)
      /\ is_Some origin_lat /\ is_Some origin_long
      /\ is_Some dest_lat /\ is_Some dest_long).
Proof.
  rewrite run_call_distance.
  destruct (distance_raises w origin_lat origin_long dest_lat dest_long) eqn:Hr.
  - right. split; [reflexivity |].
    destruct origin_lat, origin_long, dest_lat, dest_long;
      try discriminate Hr; repeat split; eauto.
  - left. eexists. split; [reflexivity | apply distance_value_bounds].
Qed.

End GeoRange.

(** ** Nearest allowed stop: what does not matter *)

Section FarStops.

Variables stop_lat stop_long : option R.






End FarStops.



(** ** Roster refresh: totality and edge cases *)

Lemma get_vehicle_details_read_feed (w : world) (s : state) :
  get_vehicle_details w s
  = match sheet w (sheet_calls s) with
    | SheetUnreachable e =>
        (Return ("Error reading vehicle details from Google Sheet" +:+ newline
                 +:+ str_exn e), set_sheet_calls S s)
    | SheetUnreadable code e =>
        try_except (read_feed code (inl e))
          (fun e =>
             mret ("Error reading vehicle details from Google Sheet" +:+ newline
                   +:+ str_exn e))
          w (set_sheet_calls S s)
    | SheetStatus code body =>
        try_except (read_feed code (inr body))
          (fun e =>
             mret ("Error reading vehicle details from Google Sheet" +:+ newline
                   +:+ str_exn e))
          w (set_sheet_calls S s)
    end.
Proof.
  unfold get_vehicle_details, try_except. rewrite run_bind. unfold urlopen.
  destruct (sheet w (sheet_calls s)) as [e | code e | code body]; reflexivity.
Qed.

Section RosterFootprint.

Context {X : Type}.
Variables (proj : state -> X) (w : world).

Hypothesis blind_vehicle_ids : forall f s, proj (set_vehicle_ids f s) = proj s.
Hypothesis blind_placards : forall f s, proj (set_placards f s) = proj s.
Hypothesis blind_license_plates : forall f s, proj (set_license_plates f s) = proj s.
Hypothesis blind_vehicle_names : forall f s, proj (set_vehicle_names f s) = proj s.

Lemma footprint_read_feed (code : Z) (content : exn + (exn + sheet_json)) :
  frames proj w (read_feed code content).
Proof.
  unfold read_feed.
  apply frames_bind; [| intros _; apply frames_mret].
  destruct (decide (code ≠ 200)).
  { apply frames_bind; [apply frames_response_read | intros _; apply frames_mret]. }
  apply frames_bind; [apply frames_response_read | intros body].
  apply frames_bind; [apply frames_json_loads | intros json_data].
  apply frames_bind; [intros s; apply blind_vehicle_ids | intros _].
  apply frames_bind; [apply frames_subscript | intros f].
  apply frames_bind; [apply frames_subscript | intros entries].
  apply frames_for_each. intros e _.
  apply footprint_store_entry; assumption.
Qed.

(** To an observation that does not look at the roster, the refresh is one
    more request to the roster source and nothing else. *)
Lemma get_vehicle_details_footprint (s : state) :
  proj (get_vehicle_details w s).2 = proj (set_sheet_calls S s).
Proof.
  rewrite get_vehicle_details_read_feed.
  destruct (sheet w (sheet_calls s)) as [e | code e | code body];
    [reflexivity | |];
    (apply (frames_try_except proj w);
       [apply footprint_read_feed | intros e'; apply frames_mret]).
Qed.

End RosterFootprint.

(** X4.  The roster refresh never raises; it makes exactly one request to the
    roster source and leaves the recorded positions, the time of the last
    notification and everything emitted so far as they were. *)
Theorem get_vehicle_details_total (w : world) (s : state) :
  (exists r, (get_vehicle_details w s).1 = Return r)
  /\ sheet_calls (get_vehicle_details w s).2 = S (sheet_calls s)
  /\ vehicle_lat (get_vehicle_details w s).2 = vehicle_lat s
  /\ vehicle_long (get_vehicle_details w s).2 = vehicle_long s
  /\ vehicle_onTrip (get_vehicle_details w s).2 = vehicle_onTrip s
  /\ LAST_ERROR_EMAIL_TIME (get_vehicle_details w s).2 = LAST_ERROR_EMAIL_TIME s
  /\ outbox (get_vehicle_details w s).2 = outbox s
  /\ accepted (get_vehicle_details w s).2 = accepted s.
Proof.
  split; [apply get_vehicle_details_returns |].
  repeat split;
    match goal with |- ?f _ = _ =>
      rewrite (get_vehicle_details_footprint f w) by (intros; reflexivity)
    end; reflexivity.
Qed.

(** X5.  The body of a reply with a status other than 200 is read, to be
    printed, but not parsed: when it can be read the call returns
    ["Success"] whatever the text is, when reading it raises the call
    returns the error text of that exception; the roster is the one from
    before in both cases. *)
Theorem get_vehicle_details_bad_status (w : world) (s : state) (code : Z) :
  code <> 200 ->
  (forall body,
     sheet w (sheet_calls s) = SheetStatus code body ->
     get_vehicle_details w s = (Return "Success", set_sheet_calls S s))
  /\ (forall e,
        sheet w (sheet_calls s) = SheetUnreadable code e ->
        get_vehicle_details w s
        = (Return ("Error reading vehicle details from Google Sheet" +:+ newline
                   +:+ str_exn e),
           set_sheet_calls S s)).
Proof.
  intros Hcode.
  split; intros x Hreply; rewrite get_vehicle_details_read_feed, Hreply;
    unfold try_except, read_feed; rewrite run_bind;
    (destruct (decide (code ≠ 200)) as [_ | Heq]; [reflexivity | contradiction]).
Qed.

(** X6.  A reply with status 200 whose body parses but has no [feed], or a
    [feed] without [entry], makes the call return the error text of the
    missing key with the id set emptied; the three dictionaries are as
    before. *)
Theorem get_vehicle_details_missing_feed (w : world) (s : state)
    (json_data : sheet_json) :
  sheet w (sheet_calls s) = SheetStatus 200 (inr json_data) ->
  (feed json_data ≫= entry) = None ->
  get_vehicle_details w s
  = (Return ("Error reading vehicle details from Google Sheet" +:+ newline
             +:+ str_exn (KeyError (match feed json_data with
                                   | Some _ => "entry"
                                   | None => "feed"
                                   end))),
     set_vehicle_ids (fun _ => ∅) (set_sheet_calls S s)).
Proof.
  intros Hreply Hmissing. rewrite get_vehicle_details_read_feed, Hreply.
  unfold try_except, read_feed, response_read, json_loads. munfold.
  destruct (decide (200 ≠ 200)) as [Hc | _]; [exfalso; apply Hc; reflexivity |].
  destruct (feed json_data) as [f |]; cbn in *; [| reflexivity].
  rewrite Hmissing. reflexivity.
Qed.

(** ** Location fetch: what is stored, and how much is asked *)

Lemma run_store_vehicle (p : position_row) (w : world) (s : state) :
  store_vehicle (vehicle_of_position p) w s = (Return tt, store_position p s).
Proof. reflexivity. Qed.

Lemma run_store_vehicles (rows : list position_row) (w : world) (s : state) :
  for_each (vehicle_of_position <$> rows) store_vehicle w s
  = (Return tt, foldl (fun s0 p => store_position p s0) s rows).
Proof.
  revert s. induction rows as [| p rest IH]; intros s; [reflexivity |].
  cbn [fmap list_fmap for_each foldl].
  rewrite (run_bind_return _ _ _ _ _ _ (run_store_vehicle p w s)).
  apply IH.
Qed.

Section StoredPositions.

Variable vehicle_id : string.

Lemma stored_vehicle_lat (rows : list position_row) (s : state) :
  vehicle_lat (foldl (fun s0 p => store_position p s0) s rows) !! vehicle_id
  = match last_position vehicle_id rows with
    | Some p => Some (pos_latitude p)
    | None => vehicle_lat s !! vehicle_id
    end.
Proof.
  revert s. induction rows as [| p rest IH]; intros s;
    cbn [foldl last_position]; [reflexivity |].
  rewrite IH. destruct (last_position vehicle_id rest); [reflexivity |].
  cbn. destruct (decide (pos_id p = vehicle_id)) as [-> | Hne].
  - apply lookup_insert_eq.
  - apply lookup_insert_ne. exact Hne.
Qed.

Lemma stored_vehicle_long (rows : list position_row) (s : state) :
  vehicle_long (foldl (fun s0 p => store_position p s0) s rows) !! vehicle_id
  = match last_position vehicle_id rows with
    | Some p => Some (pos_longitude p)
    | None => vehicle_long s !! vehicle_id
    end.
Proof.
  revert s. induction rows as [| p rest IH]; intros s;
    cbn [foldl last_position]; [reflexivity |].
  rewrite IH. destruct (last_position vehicle_id rest); [reflexivity |].
  cbn. destruct (decide (pos_id p = vehicle_id)) as [-> | Hne].
  - apply lookup_insert_eq.
  - apply lookup_insert_ne. exact Hne.
Qed.

Lemma stored_vehicle_onTrip (rows : list position_row) (s : state) :
  vehicle_onTrip (foldl (fun s0 p => store_position p s0) s rows) !! vehicle_id
  = match last_position vehicle_id rows with
    | Some p => Some (pos_onTrip p)
    | None => vehicle_onTrip s !! vehicle_id
    end.
Proof.
  revert s. induction rows as [| p rest IH]; intros s;
    cbn [foldl last_position]; [reflexivity |].
  rewrite IH. destruct (last_position vehicle_id rest); [reflexivity |].
  cbn. destruct (decide (pos_id p = vehicle_id)) as [-> | Hne].
  - apply lookup_insert_eq.
  - apply lookup_insert_ne. exact Hne.
Qed.

End StoredPositions.

Lemma stored_positions_frame {X : Type} (proj : state -> X)
    (rows : list position_row) (s : state) :
  (forall f s0, proj (set_vehicle_lat f s0) = proj s0) ->
  (forall f s0, proj (set_vehicle_long f s0) = proj s0) ->
  (forall f s0, proj (set_vehicle_onTrip f s0) = proj s0) ->
  proj (foldl (fun s0 p => store_position p s0) s rows) = proj s.
Proof.
  intros H1 H2 H3. revert s.
  induction rows as [| p rest IH]; intros s; cbn [foldl]; [reflexivity |].
  rewrite IH. unfold store_position. rewrite H3, H2, H1. reflexivity.
Qed.

(** X7.  When the first location response of a call is complete, the call
    returns ["Success"] after that one request, whatever the roster refresh
    before it did, and sends nothing; each listed vehicle then has the
    latitude, longitude and on-trip flag of its last entry in the response,
    and a vehicle the response does not list keeps what was recorded for it
    before. *)
Theorem get_all_vehicle_data_stores_positions (w : world) (s : state)
    (group_id : Z) (rows : list position_row) :
  SAMSARA_SFMTA_GROUP_ID w = Some (Numeral group_id) ->
  samsara w (samsara_calls s)
  = LocationsOk {| vehicles := Some (vehicle_of_position <$> rows) |} ->
  (get_all_vehicle_data w s).1 = Return "Success"
  /\ samsara_calls (get_all_vehicle_data w s).2 = S (samsara_calls s)
  /\ outbox (get_all_vehicle_data w s).2 = outbox s
  /\ forall vehicle_id,
       vehicle_lat (get_all_vehicle_data w s).2 !! vehicle_id
       = match last_position vehicle_id rows with
         | Some p => Some (pos_latitude p)
         | None => vehicle_lat s !! vehicle_id
         end
       /\ vehicle_long (get_all_vehicle_data w s).2 !! vehicle_id
          = match last_position vehicle_id rows with
            | Some p => Some (pos_longitude p)
            | None => vehicle_long s !! vehicle_id
            end
       /\ vehicle_onTrip (get_all_vehicle_data w s).2 !! vehicle_id
          = match last_position vehicle_id rows with
            | Some p => Some (pos_onTrip p)
            | None => vehicle_onTrip s !! vehicle_id
            end.
Proof.
  intros Hg Hreply.
  rewrite (run_get_all_vehicle_data w s group_id Hg).
  set (s0 := (get_vehicle_details w s).2).
  assert (Hcalls : samsara_calls s0 = samsara_calls s)
    by apply get_vehicle_details_samsara_calls.
  assert (Hattempt : locations_attempt w s0
            = (Return "Success",
               foldl (fun s1 p => store_position p s1)
                 (set_samsara_calls S s0) rows)).
  { unfold locations_attempt, requests_post_locations.
    rewrite run_bind, Hcalls, Hreply. rewrite run_bind. cbn [subscript vehicles].
    unfold mret at 1, M_ret at 1. rewrite run_bind, run_store_vehicles.
    reflexivity. }
  change (locations_loop MAX_RETRIES w s0)
    with (try_except locations_attempt (fun _ => locations_loop 9) w s0).
  rewrite (run_try_return _ _ _ _ _ _ Hattempt). cbn [fst snd].
  split; [reflexivity |].
  split.
  { rewrite (stored_positions_frame samsara_calls) by (intros; reflexivity).
    cbn. rewrite Hcalls. reflexivity. }
  split.
  { rewrite (stored_positions_frame outbox) by (intros; reflexivity).
    cbn. subst s0.
    rewrite (get_vehicle_details_footprint outbox w) by (intros; reflexivity).
    reflexivity. }
  intros vehicle_id.
  rewrite stored_vehicle_lat, stored_vehicle_long, stored_vehicle_onTrip.
  cbn [vehicle_lat vehicle_long vehicle_onTrip set_samsara_calls].
  subst s0.
  rewrite (get_vehicle_details_footprint vehicle_lat w) by (intros; reflexivity).
  rewrite (get_vehicle_details_footprint vehicle_long w) by (intros; reflexivity).
  rewrite (get_vehicle_details_footprint vehicle_onTrip w) by (intros; reflexivity).
  auto.
Qed.

(** The retry loop of the location fetch, whatever the world does. *)
Lemma locations_loop_bounds (w : world) (n : nat) (s : state) :
  (samsara_calls s <= samsara_calls (locations_loop n w s).2 <= samsara_calls s + n)%nat
  /\ (length (outbox (locations_loop n w s).2) <= length (outbox s) + 1)%nat
  /\ ((locations_loop n w s).1 = Return "Success" ->
      outbox (locations_loop n w s).2 = outbox s).
Proof.
  revert s. induction n as [| n IH]; intros s.
  - cbn [locations_loop]. rewrite run_locations_exhausted. cbn [fst snd].
    unfold alert_raises, alert_state.
    destruct (alert_due w s); [destruct (smtp w (smtp_calls s)) |]; cbn;
      try rewrite length_app; cbn; repeat split; try lia; try discriminate.
  - cbn [locations_loop]. unfold try_except.
    pose proof (locations_attempt_samsara_calls w s) as Hc.
    pose proof (footprint_locations_attempt outbox w
                  ltac:(intros; reflexivity) ltac:(intros; reflexivity)
                  ltac:(intros; reflexivity) ltac:(intros; reflexivity) s) as Ho.
    destruct (locations_attempt w s) as [[r | e] s1]; cbn in Hc, Ho.
    + cbn [fst snd]. rewrite Hc, Ho. repeat split; try lia.
    + specialize (IH s1). rewrite Hc, Ho in IH.
      destruct IH as ((H1 & H2) & H3 & H4). repeat split; try lia. exact H4.
Qed.

(** X8.  Whatever the collaborators do, one call of the location fetch makes
    at most [MAX_RETRIES] location requests and sends at most one
    notification, and none when it returns ["Success"]. *)
Theorem get_all_vehicle_data_bounds (w : world) (s : state) :
  (samsara_calls s <= samsara_calls (get_all_vehicle_data w s).2
   <= samsara_calls s + MAX_RETRIES)%nat
  /\ (length (outbox (get_all_vehicle_data w s).2) <= length (outbox s) + 1)%nat
  /\ ((get_all_vehicle_data w s).1 = Return "Success" ->
      outbox (get_all_vehicle_data w s).2 = outbox s).
Proof.
  pose proof (get_vehicle_details_samsara_calls w s) as Hc.
  pose proof (get_vehicle_details_footprint outbox w
                ltac:(intros; reflexivity) ltac:(intros; reflexivity)
                ltac:(intros; reflexivity) ltac:(intros; reflexivity) s) as Ho.
  cbn in Ho.
  destruct (SAMSARA_SFMTA_GROUP_ID w) as [[group_id | text] |] eqn:Hg.
  - rewrite (run_get_all_vehicle_data w s group_id Hg).
    pose proof (locations_loop_bounds w MAX_RETRIES (get_vehicle_details w s).2)
      as H.
    rewrite Hc, Ho in H. exact H.
  - unfold get_all_vehicle_data. rewrite run_bind.
    destruct (get_vehicle_details_returns w s) as [r Hr].
    destruct (get_vehicle_details w s) as [[r0 | e] s0]; [| discriminate].
    cbn in Hc, Ho. rewrite run_bind. unfold os_environ. munfold. rewrite Hg.
    unfold int. munfold.
    cbn [fst snd]. rewrite Hc, Ho. repeat split; try lia; try discriminate.
  - unfold get_all_vehicle_data. rewrite run_bind.
    destruct (get_vehicle_details_returns w s) as [r Hr].
    destruct (get_vehicle_details w s) as [[r0 | e] s0]; [| discriminate].
    cbn in Hc, Ho. rewrite run_bind. unfold os_environ. munfold. rewrite Hg.
    cbn [fst snd]. rewrite Hc, Ho. repeat split; try lia; try discriminate.
Qed.

(** X9.  Without [SAMSARA_SFMTA_GROUP_ID] in the environment the location
    fetch raises [KeyError] on that name once the roster refresh is done,
    and makes no location request. *)
Theorem get_all_vehicle_data_without_group_id (w : world) (s : state) :
  SAMSARA_SFMTA_GROUP_ID w = None ->
  get_all_vehicle_data w s
  = (Raise (KeyError "SAMSARA_SFMTA_GROUP_ID"), (get_vehicle_details w s).2)
  /\ samsara_calls (get_all_vehicle_data w s).2 = samsara_calls s.
Proof.
  intros Hg.
  assert (Hrun : get_all_vehicle_data w s
            = (Raise (KeyError "SAMSARA_SFMTA_GROUP_ID"),
               (get_vehicle_details w s).2)).
  { unfold get_all_vehicle_data. rewrite run_bind.
    destruct (get_vehicle_details_returns w s) as [r Hr].
    destruct (get_vehicle_details w s) as [[r0 | e] s0]; [| discriminate].
    rewrite run_bind. unfold os_environ. munfold. rewrite Hg. reflexivity. }
  split; [exact Hrun |].
  rewrite Hrun. apply get_vehicle_details_samsara_calls.
Qed.

(** ** Payload: where it is defined, and what building it costs *)

Ltac absent :=
  right; right; eexists; split;
  [reflexivity
  | split;
    [first [left; eexists; reflexivity | right; eexists; split; reflexivity]
    | intros ([z H1] & H2 & H3 & H4 & H5 & H6 & H7);
      first [ discriminate H1 | apply is_Some_None in H2
            | apply is_Some_None in H3 | apply is_Some_None in H4
            | apply is_Some_None in H5 | apply is_Some_None in H6
            | apply is_Some_None in H7 ]; contradiction ] ].

Lemma build_sfmta_payload_cases (w : world) (s : state) (vehicle_id : string)
    (current_time : Z) :
  (exists payload,
     build_sfmta_payload vehicle_id current_time w s = (Return payload, s)
     /\ vehicle_onTrip s !! vehicle_id = Some true
     /\ has_payload w s vehicle_id)
  \/ (exists payload,
        build_sfmta_payload vehicle_id current_time w s
        = (Return payload, set_s3_calls S s)
        /\ vehicle_onTrip s !! vehicle_id = Some false
        /\ has_payload w s vehicle_id)
  \/ (exists e,
        build_sfmta_payload vehicle_id current_time w s = (Raise e, s)
        /\ ((exists key, e = KeyError key)
            \/ (exists text,
                  SFMTA_TECH_PROVIDER_ID w = Some (Garbled text)
                  /\ e = ValueError ("invalid literal for int() with base 10: "
                                     +:+ squote +:+ text +:+ squote)))
        /\ ~ has_payload w s vehicle_id).
Proof.
  unfold has_payload.
  destruct (SFMTA_TECH_PROVIDER_ID w) as [[tp | text] |] eqn:Etp;
    [| unfold build_sfmta_payload; munfold; rewrite Etp; absent ..].
  destruct (SFMTA_SHUTTLE_COMPANY_ID w) as [sc |] eqn:Esc;
    [| unfold build_sfmta_payload; munfold; rewrite Etp; unfold int; munfold;
       rewrite Esc; absent].
  destruct (placards s !! vehicle_id) as [p |] eqn:Ep;
    [| unfold build_sfmta_payload; munfold; rewrite Etp; unfold int; munfold;
       rewrite Esc, Ep; absent].
  destruct (license_plates s !! vehicle_id) as [lp |] eqn:Elp;
    [| unfold build_sfmta_payload; munfold; rewrite Etp; unfold int; munfold;
       rewrite Esc, Ep, Elp; absent].
  destruct (vehicle_onTrip s !! vehicle_id) as [on_trip |] eqn:Eot;
    [| unfold build_sfmta_payload; munfold; rewrite Etp; unfold int; munfold;
       rewrite Esc, Ep, Elp, Eot; absent].
  destruct (vehicle_lat s !! vehicle_id) as [lat |] eqn:Elat.
  - destruct (vehicle_long s !! vehicle_id) as [lon |] eqn:Elon.
    + destruct on_trip.
      * left. eexists. split; [eapply run_build_on_trip; eassumption |].
        repeat split; eauto.
      * right. left. eexists.
        split; [eapply run_build_off_trip; eassumption |].
        repeat split; eauto.
    + unfold build_sfmta_payload; munfold.
      rewrite Etp; unfold int; munfold. rewrite Esc, Ep, Elp, Eot.
      destruct on_trip; cbn; rewrite Elat; cbn; rewrite Elon; absent.
  - unfold build_sfmta_payload; munfold.
    rewrite Etp; unfold int; munfold. rewrite Esc, Ep, Elp, Eot.
    destruct on_trip; cbn; rewrite Elat; absent.
Qed.

(** X10.  [build_sfmta_payload] returns a payload exactly when
    [SFMTA_TECH_PROVIDER_ID] is set to a numeral, [SFMTA_SHUTTLE_COMPANY_ID]
    is set, and the vehicle id has a placard, a plate, an on-trip flag, a
    latitude and a longitude recorded.  Otherwise it raises: [KeyError] for
    what is missing, or the [ValueError] of [int()] when the provider id is
    set to a text that is no numeral. *)
Theorem build_sfmta_payload_defined_iff (w : world) (s : state)
    (vehicle_id : string) (current_time : Z) :
  ((exists payload,
      (build_sfmta_payload vehicle_id current_time w s).1 = Return payload)
   <-> (exists tech_provider_id,
          SFMTA_TECH_PROVIDER_ID w = Some (Numeral tech_provider_id))
       /\ is_Some (SFMTA_SHUTTLE_COMPANY_ID w)
       /\ is_Some (placards s !! vehicle_id)
       /\ is_Some (license_plates s !! vehicle_id)
       /\ is_Some (vehicle_onTrip s !! vehicle_id)
       /\ is_Some (vehicle_lat s !! vehicle_id)
       /\ is_Some (vehicle_long s !! vehicle_id))
  /\ ((exists payload,
         (build_sfmta_payload vehicle_id current_time w s).1 = Return payload)
      \/ (exists key,
            (build_sfmta_payload vehicle_id current_time w s).1
            = Raise (KeyError key))
      \/ (exists text,
            SFMTA_TECH_PROVIDER_ID w = Some (Garbled text)
            /\ (build_sfmta_payload vehicle_id current_time w s).1
               = Raise (ValueError ("invalid literal for int() with base 10: "
                                    +:+ squote +:+ text +:+ squote)))).
Proof.
  destruct (build_sfmta_payload_cases w s vehicle_id current_time)
    as [(payload & Hrun & Hot & H) | [(payload & Hrun & Hot & H)
                                     | (e & Hrun & He & Hno)]];
    rewrite Hrun; cbn [fst].
  - split; [| left; eauto]. split; [intros _; exact H | eauto].
  - split; [| left; eauto]. split; [intros _; exact H | eauto].
  - split.
    + split.
      * intros [payload Hp]. discriminate Hp.
      * intros H. contradiction.
    + right. destruct He as [[key ->] | (text & Htext & ->)]; eauto.
Qed.

(** X11.  Building a payload never changes a global: the state afterwards is
    the state before, except for one read of the stop store, which happens
    only for a vehicle recorded as not on a trip. *)
Theorem build_sfmta_payload_reads_only (w : world) (s : state)
    (vehicle_id : string) (current_time : Z) :
  (build_sfmta_payload vehicle_id current_time w s).2 = s
  \/ ((build_sfmta_payload vehicle_id current_time w s).2 = set_s3_calls S s
      /\ vehicle_onTrip s !! vehicle_id = Some false).
Proof.
  destruct (build_sfmta_payload_cases w s vehicle_id current_time)
    as [(payload & Hrun & Hot & H) | [(payload & Hrun & Hot & H) | (e & Hrun & Hno)]];
    rewrite Hrun; cbn [snd]; auto.
Qed.

(** ** Telemetry push: delivered once or not at all *)

Lemma telemetry_loop_delivery (data : string) (w : world) (n : nat) (s : state) :
  ((telemetry_loop data n w s).1 = Return (Some "Success")
   /\ accepted (telemetry_loop data n w s).2 = accepted s ++ [data]
   /\ outbox (telemetry_loop data n w s).2 = outbox s
   \/ (telemetry_loop data n w s).1 <> Return (Some "Success")
      /\ accepted (telemetry_loop data n w s).2 = accepted s
      /\ (length (outbox (telemetry_loop data n w s).2) <= length (outbox s) + 1)%nat)
  /\ (sfmta_calls s <= sfmta_calls (telemetry_loop data n w s).2
      <= sfmta_calls s + n)%nat.
Proof.
  revert s. induction n as [| n IH]; intros s.
  - cbn [telemetry_loop]. rewrite run_telemetry_exhausted. cbn [fst snd].
    rewrite (footprint_alert_state accepted w) by (intros; reflexivity).
    rewrite alert_state_sfmta_calls.
    split; [right | lia]. split; [| split; [reflexivity |]].
    + unfold alert_raises.
      destruct (alert_due w s); [destruct (smtp w (smtp_calls s)) |];
        discriminate.
    + unfold alert_state.
      destruct (alert_due w s); [destruct (smtp w (smtp_calls s)) |]; cbn;
        try rewrite length_app; cbn; lia.
  - cbn [telemetry_loop]. fold (telemetry_attempt data).
    destruct (sfmta w (sfmta_calls s)) as [e |] eqn:Ereply.
    + rewrite (run_try_raise _ _ _ _ _ _
                 (run_telemetry_attempt_fail data w s e Ereply)).
      destruct (IH (set_sfmta_calls S s)) as (Hd & Hc).
      cbn in Hc, Hd. split; [exact Hd | lia].
    + rewrite (run_try_return _ _ _ _ _ _
                 (run_telemetry_attempt_ok data w s Ereply)).
      cbn. split; [left; auto | lia].
Qed.

(** X12.  Whatever the collaborators do, one call of [push_vehicle_data]
    makes at most [MAX_RETRIES] requests and sends at most one notification;
    it returns ["Success"] exactly when one body has been accepted, and then
    no notification is sent; in every other case nothing has been accepted. *)
Theorem push_vehicle_data_delivers_once (w : world) (s : state)
    (vehicle_id : string) (current_time : Z) :
  ((push_vehicle_data vehicle_id current_time w s).1 = Return (Some "Success")
   /\ (exists body,
         accepted (push_vehicle_data vehicle_id current_time w s).2
         = accepted s ++ [body])
   /\ outbox (push_vehicle_data vehicle_id current_time w s).2 = outbox s
   \/ (push_vehicle_data vehicle_id current_time w s).1 <> Return (Some "Success")
      /\ accepted (push_vehicle_data vehicle_id current_time w s).2 = accepted s)
  /\ (sfmta_calls s <= sfmta_calls (push_vehicle_data vehicle_id current_time w s).2
      <= sfmta_calls s + MAX_RETRIES)%nat
  /\ (length (outbox (push_vehicle_data vehicle_id current_time w s).2)
      <= length (outbox s) + 1)%nat.
Proof.
  unfold push_vehicle_data. rewrite run_bind.
  pose proof (footprint_build_sfmta_payload accepted w
                ltac:(intros; reflexivity) vehicle_id current_time s) as Ha.
  pose proof (footprint_build_sfmta_payload outbox w
                ltac:(intros; reflexivity) vehicle_id current_time s) as Ho.
  pose proof (footprint_build_sfmta_payload sfmta_calls w
                ltac:(intros; reflexivity) vehicle_id current_time s) as Hc.
  destruct (build_sfmta_payload vehicle_id current_time w s)
    as [[payload | e] s1]; cbn in Ha, Ho, Hc.
  - rewrite run_bind. cbn [asks].
    destruct (telemetry_loop_delivery (json_dumps w payload) w MAX_RETRIES s1)
      as ([(Hr & Hacc & Hout) | (Hr & Hacc & Hout)] & Hcalls);
      rewrite Ha, Ho in *; rewrite Hc in Hcalls.
    + split; [left | split; [exact Hcalls | rewrite Hout; lia]].
      split; [exact Hr | split; [eauto | exact Hout]].
    + split; [right; auto | split; [exact Hcalls | exact Hout]].
  - cbn [fst snd]. rewrite Ha, Ho, Hc.
    split; [right; split; [discriminate | reflexivity] | split; lia].
Qed.

(** ** Fan-out: the empty roster and the healthy cycle *)

(** X13.  With an empty id set the fan-out raises [ValueError] (a pool of no
    threads) before anything else happens: no payload is built, no request
    is made, the state is untouched. *)
Theorem push_all_vehicle_data_empty_roster (w : world) (s : state)
    (current_time : Z) :
  vehicle_ids s = ∅ ->
  push_all_vehicle_data current_time w s
  = (Raise (ValueError "Number of processes must be at least 1"), s).
Proof.
  intros Hempty. unfold push_all_vehicle_data.
  rewrite run_bind. cbn [gets]. rewrite run_bind, Hempty.
  rewrite size_empty.
  destruct (decide (0 < 1)%nat) as [_ | Hn]; [reflexivity | lia].
Qed.

Lemma has_payload_registers (w : world) (s s' : state) (vehicle_id : string) :
  registers s' = registers s ->
  has_payload w s vehicle_id -> has_payload w s' vehicle_id.
Proof.
  unfold registers, has_payload. intros H. injection H as H1 H2 H3 H4 H5.
  rewrite H1, H2, H3, H4, H5. auto.
Qed.

(** What a task does for a vehicle that has its payload, when every request
    is accepted, whatever the other tasks do in between: it changes neither
    the dictionaries nor the notifications sent, raises by one a counter
    that counts accepted requests, and returns. *)
Section Delivery.

Variables (w : world) (s0 : state) (c : state -> nat).

Hypothesis accepts : forall k, sfmta w k = TelemetryOk.
Hypothesis c_s3 : forall s, c (set_s3_calls S s) = c s.
Hypothesis c_post :
  forall data s,
    c (set_accepted (fun l => l ++ [data]) (set_sfmta_calls S s)) = S (c s).

#[local] Abbreviation quiet :=
  (fun s : state => registers s = registers s0 /\ outbox s = outbox s0).

Lemma tallies_read {B : Type} (m : M B) :
  (forall s, quiet s -> (m w s).2 = s /\ returns (m w s).1) ->
  tallies quiet c returns w (atomic m) 0.
Proof.
  intros H. apply tallies_atomic. intros s Hs.
  destruct (H s Hs) as [H1 H2]. rewrite H1.
  split; [exact Hs |]. split; [lia | exact H2].
Qed.

Lemma find_stop_id_thread_returns (lat lon : option R) :
  tallies quiet c returns w (find_stop_id_thread lat lon) 0.
Proof.
  unfold find_stop_id_thread.
  apply (tallies_try quiet c w (fun _ => True) returns _ _ 0 0).
  - apply (tallies_bind quiet c w (fun _ => True) (fun _ => True) _ _ 0 0).
    + apply tallies_atomic. intros s Hs. unfold s3_get.
      destruct (s3 w (s3_calls s)); cbn [fst snd]; rewrite c_s3;
        (split; [exact Hs | split; [lia | constructor]]).
    + intros stops _.
      apply (tallies_bind quiet c w (fun _ => True) (fun _ => True) _ _ 0 0).
      * apply tallies_atomic. intros s Hs. rewrite run_nearest_stop.
        cbn [fst snd]. split; [exact Hs | split; [lia | constructor]].
      * intros stop_id _. apply tallies_ret. constructor.
      * intros e _. split; [reflexivity | constructor].
    + intros e _. split; [reflexivity | constructor].
  - intros a _. split; [reflexivity | eexists; reflexivity].
  - intros e _. apply tallies_ret. eexists. reflexivity.
Qed.

Ltac read_step :=
  apply (tallies_bind quiet c w returns returns _ _ 0 0);
  [ | intros ? _ | intros ? [? Habsurd]; discriminate Habsurd ].

Ltac lookup_step H :=
  let s := fresh "s" in
  let Hreg := fresh "Hreg" in
  let H1 := fresh in
  let H2 := fresh in
  let H3 := fresh in
  let H4 := fresh in
  let H5 := fresh in
  apply tallies_read; intros s [Hreg _]; unfold registers in Hreg;
  injection Hreg as H1 H2 H3 H4 H5;
  unfold global_item; munfold;
  rewrite ?H1, ?H2, ?H3, ?H4, ?H5, H;
  split; [reflexivity | eexists; reflexivity].

Lemma build_sfmta_payload_thread_returns (vehicle_id : string) (current_time : Z) :
  has_payload w s0 vehicle_id ->
  tallies quiet c returns w (build_sfmta_payload_thread vehicle_id current_time) 0.
Proof.
  intros ([z Htp] & [sc Hsc] & [p Hp] & [lp Hlp] & [ot Hot] & [lat Hlat]
          & [lon Hlon]).
  unfold build_sfmta_payload_thread. cbv zeta.
  read_step.
  { apply tallies_read. intros s _. unfold os_environ, int. munfold.
    rewrite Htp. split; [reflexivity | eexists; reflexivity]. }
  read_step.
  { apply tallies_read. intros s _. unfold os_environ. munfold.
    rewrite Hsc. split; [reflexivity | eexists; reflexivity]. }
  read_step; [lookup_step Hp |].
  read_step; [lookup_step Hlp |].
  read_step; [lookup_step Hot |].
  read_step.
  { destruct (Bool.eqb _ true).
    - apply tallies_ret. eexists. reflexivity.
    - read_step; [lookup_step Hlat |].
      read_step; [lookup_step Hlon |].
      read_step; [apply find_stop_id_thread_returns |].
      apply tallies_ret. eexists. reflexivity. }
  match goal with x : (Z * pyval)%type |- _ => destruct x end.
  read_step; [lookup_step Hlat |].
  read_step; [lookup_step Hlon |].
  read_step.
  { apply tallies_read. intros s _. split; [reflexivity | eexists; reflexivity]. }
  apply tallies_ret. eexists. reflexivity.
Qed.

Lemma push_vehicle_data_thread_delivers (vehicle_id : string) (current_time : Z) :
  has_payload w s0 vehicle_id ->
  tallies quiet c returns w (push_vehicle_data_thread vehicle_id current_time) 1.
Proof.
  intros Hready. unfold push_vehicle_data_thread.
  apply (tallies_bind quiet c w returns returns _ _ 0 1);
    [apply build_sfmta_payload_thread_returns; exact Hready
    | intros payload _ | intros e [x Hx]; discriminate Hx].
  apply (tallies_bind quiet c w returns returns _ _ 0 1);
    [| intros data _ | intros e [x Hx]; discriminate Hx].
  { apply tallies_read. intros s _. split; [reflexivity | eexists; reflexivity]. }
  unfold MAX_RETRIES. cbn [telemetry_loop_thread].
  apply (tallies_try quiet c w returns returns _ _ 1 0);
    [| intros a _; split; [reflexivity | eexists; reflexivity]
     | intros e [x Hx]; discriminate Hx].
  apply (tallies_bind quiet c w returns returns _ _ 1 0);
    [| intros [] _; apply tallies_ret; eexists; reflexivity
     | intros e [x Hx]; discriminate Hx].
  apply tallies_atomic. intros s Hs. unfold requests_post_telemetry.
  rewrite accepts. cbn [fst snd]. rewrite c_post.
  split; [exact Hs |]. split; [lia | eexists; reflexivity].
Qed.

End Delivery.

Lemma sum_list_with_ones {A : Type} (xs : list A) :
  sum_list_with (fun _ => 1%nat) xs = length xs.
Proof. induction xs as [| x rest IH]; cbn; [reflexivity | rewrite IH; reflexivity]. Qed.

Lemma pool_map_accepted (w : world) (current_time : Z) (ids : list string)
    (s : state) :
  (forall k, sfmta w k = TelemetryOk) ->
  (forall vehicle_id, vehicle_id ∈ ids -> has_payload w s vehicle_id) ->
  (exists results,
     (pool_map (fun vehicle_id => push_vehicle_data_thread vehicle_id current_time)
        ids w s).1 = Return results)
  /\ length (accepted (pool_map (fun vehicle_id =>
                                    push_vehicle_data_thread vehicle_id current_time)
                         ids w s).2)
     = (length (accepted s) + length ids)%nat
  /\ sfmta_calls (pool_map (fun vehicle_id =>
                              push_vehicle_data_thread vehicle_id current_time)
                    ids w s).2
     = (sfmta_calls s + length ids)%nat
  /\ outbox (pool_map (fun vehicle_id =>
                         push_vehicle_data_thread vehicle_id current_time)
               ids w s).2 = outbox s.
Proof.
  intros Hok Hready.
  set (f := fun vehicle_id => push_vehicle_data_thread vehicle_id current_time).
  set (quiet := fun s1 : state =>
                  registers s1 = registers s /\ outbox s1 = outbox s).
  destruct (pool_map_tallies quiet (fun s1 => length (accepted s1))
              (fun _ r => returns r) (fun _ => 1%nat) w f ids s)
    as ((_ & Hout) & Hacc & Hresults).
  { intros vid Hvid. unfold f.
    apply (push_vehicle_data_thread_delivers w s _ Hok).
    - intros s1. reflexivity.
    - intros data s1. cbn. rewrite length_app. cbn. lia.
    - apply Hready, Hvid. }
  { split; reflexivity. }
  destruct (pool_map_tallies quiet sfmta_calls
              (fun _ r => returns r) (fun _ => 1%nat) w f ids s)
    as (_ & Hcalls & _).
  { intros vid Hvid. unfold f.
    apply (push_vehicle_data_thread_delivers w s _ Hok).
    - intros s1. reflexivity.
    - intros data s1. reflexivity.
    - apply Hready, Hvid. }
  { split; reflexivity. }
  rewrite sum_list_with_ones in Hacc, Hcalls.
  split; [| split; [exact Hacc | split; [exact Hcalls | exact Hout]]].
  destruct (pool_map_result f ids w s) as [Hreturn _].
  eexists. apply Hreturn.
  apply Forall_forall. intros r Hr.
  apply list_elem_of_lookup in Hr as [i Hi].
  destruct (Forall2_lookup_r _ _ _ _ _ Hresults Hi) as (vid & _ & Hret).
  exact Hret.
Qed.

Lemma run_push_all_vehicle_data_accepted (w : world) (s : state)
    (current_time : Z) :
  vehicle_ids s <> ∅ ->
  (forall vehicle_id, vehicle_id ∈ vehicle_ids s -> has_payload w s vehicle_id) ->
  (forall k, sfmta w k = TelemetryOk) ->
  (push_all_vehicle_data current_time w s).1 = Return tt
  /\ length (accepted (push_all_vehicle_data current_time w s).2)
     = (length (accepted s) + size (vehicle_ids s))%nat
  /\ sfmta_calls (push_all_vehicle_data current_time w s).2
     = (sfmta_calls s + size (vehicle_ids s))%nat
  /\ outbox (push_all_vehicle_data current_time w s).2 = outbox s.
Proof.
  intros Hne Hready Hok. unfold push_all_vehicle_data.
  rewrite run_bind. cbn [gets]. rewrite run_bind.
  destruct (decide (size (vehicle_ids s) < 1)%nat) as [Hsz | _].
  { exfalso. apply Hne. apply leibniz_equiv, size_empty_inv. lia. }
  change ((mret tt : M unit) w s) with (Return tt, s). cbn beta iota.
  rewrite run_bind.
  destruct (pool_map_accepted w current_time (elements (vehicle_ids s)) s Hok)
    as ((results & Hrs) & Hacc & Hcalls & Hout).
  { intros v Hv. apply Hready. apply elem_of_elements. exact Hv. }
  destruct (pool_map _ (elements (vehicle_ids s)) w s) as [rs s2].
  cbn in Hrs, Hacc, Hcalls, Hout. subst rs. cbn [fst snd mret M_ret].
  split; [reflexivity |]. split; [exact Hacc |]. split; [exact Hcalls | exact Hout].
Qed.

(** X14.  When every vehicle of a non-empty roster has all that its payload
    needs and the telemetry endpoint accepts every request, the fan-out
    returns, exactly one body per vehicle of the roster has been accepted,
    with one request each, and no notification is sent. *)
Theorem push_all_vehicle_data_healthy (w : world) (s : state) (current_time : Z) :
  vehicle_ids s <> ∅ ->
  (forall vehicle_id, vehicle_id ∈ vehicle_ids s -> has_payload w s vehicle_id) ->
  (forall k, sfmta w k = TelemetryOk) ->
  (push_all_vehicle_data current_time w s).1 = Return tt
  /\ length (accepted (push_all_vehicle_data current_time w s).2)
     = (length (accepted s) + size (vehicle_ids s))%nat
  /\ sfmta_calls (push_all_vehicle_data current_time w s).2
     = (sfmta_calls s + size (vehicle_ids s))%nat
  /\ outbox (push_all_vehicle_data current_time w s).2 = outbox s.
Proof. exact (run_push_all_vehicle_data_accepted w s current_time). Qed.

(** ** The loop: invariants *)

Section Keeps.

Variables (I : state -> Prop) (w : world).

Lemma keeps_frames {X A : Type} (proj : state -> X) (m : M A) :
  (forall s s', proj s' = proj s -> I s -> I s') ->
  frames proj w m -> keeps I w m.
Proof. intros HI Hm s Hs. exact (HI s _ (Hm s) Hs). Qed.

Lemma keeps_mret {A : Type} (a : A) : keeps I w (mret a).
Proof. intros s Hs. exact Hs. Qed.

Lemma keeps_bind {A B : Type} (m : M A) (f : A -> M B) :
  keeps I w m -> (forall a, keeps I w (f a)) -> keeps I w (m ≫= f).
Proof.
  intros Hm Hf s Hs. rewrite run_bind. specialize (Hm s Hs).
  destruct (m w s) as [[a | e] s1]; cbn in *; [| exact Hm].
  exact (Hf a s1 Hm).
Qed.

Lemma keeps_try_except {A : Type} (m : M A) (h : exn -> M A) :
  keeps I w m -> (forall e, keeps I w (h e)) -> keeps I w (try_except m h).
Proof.
  intros Hm Hh s Hs. unfold try_except. specialize (Hm s Hs).
  destruct (m w s) as [[a | e] s1]; cbn in *; [exact Hm |].
  exact (Hh e s1 Hm).
Qed.

(** An invariant that looks only at the sleeps taken and survives a sleep of
    non-negative length is kept by the loop, however the tasks of its
    fan-outs are scheduled. *)
Hypothesis I_frame : forall s s', slept s' = slept s -> I s -> I s'.
Hypothesis I_sleep :
  forall secs s, secs >= 0 -> I s -> I (set_slept (fun l => l ++ [secs]) s).

Lemma keeps_unslept {A : Type} (m : M A) : frames slept w m -> keeps I w m.
Proof. apply keeps_frames. exact I_frame. Qed.

Lemma keeps_cycle : keeps I w cycle.
Proof.
  unfold cycle. apply keeps_try_except.
  - unfold cycle_body.
    apply keeps_bind; [| intros start_time].
    { apply keeps_unslept, footprint_time_time; intros; reflexivity. }
    apply keeps_bind; [| intros status].
    { apply keeps_unslept, footprint_get_all_vehicle_data; intros; reflexivity. }
    destruct (negb _); [apply keeps_mret |].
    apply keeps_bind; [| intros now].
    { apply keeps_unslept, footprint_time_time; intros; reflexivity. }
    apply keeps_bind; [| intros _].
    { apply keeps_unslept, footprint_push_all_vehicle_data; intros; reflexivity. }
    apply keeps_bind; [| intros end_time].
    { apply keeps_unslept, footprint_time_time; intros; reflexivity. }
    destruct (decide (FREQUENCY - (end_time - start_time) >= 0)) as [Hge | _];
      [| apply keeps_mret].
    intros s Hs. apply I_sleep; assumption.
  - intros _. apply keeps_unslept, footprint_cycle_except; intros; reflexivity.
Qed.

Lemma keeps_push_all_data (iterations : nat) : keeps I w (push_all_data iterations).
Proof.
  induction iterations as [| n IH]; cbn [push_all_data]; [apply keeps_mret |].
  apply keeps_bind; [apply keeps_cycle | intros _; exact IH].
Qed.

End Keeps.

(** X15.  However many iterations run and whatever the collaborators do,
    every duration the loop has passed to [time.sleep] is non-negative. *)
Theorem push_all_data_sleeps_are_nonnegative (w : world) (iterations : nat)
    (s : state) :
  Forall (fun secs => 0 <= secs) (slept s) ->
  Forall (fun secs => 0 <= secs) (slept (push_all_data iterations w s).2).
Proof.
  apply (keeps_push_all_data (fun st => Forall (fun secs => 0 <= secs) (slept st)) w).
  - intros s0 s' Hslept Hs0. rewrite Hslept. exact Hs0.
  - intros secs s0 Hsecs Hs0. cbn. apply Forall_app. split; [exact Hs0 |].
    constructor; [lia | constructor].
Qed.

(** ** The loop: notifications while the location provider is down *)

Lemma run_cycle_body (w : world) (s : state) :
  cycle_body w s
  = match get_all_vehicle_data w (set_clock_reads S s) with
    | (Return status, s1) =>
        if negb (String.eqb status "Success") then (Return tt, s1)
        else dispatch_and_wait (clock w (clock_reads s)) w s1
    | (Raise e, s1) => (Raise e, s1)
    end.
Proof.
  unfold cycle_body. rewrite run_bind. unfold time_time at 1. cbn beta iota.
  rewrite run_bind.
  destruct (get_all_vehicle_data w (set_clock_reads S s)) as [[status | e] s1];
    [| reflexivity].
  destruct (negb (String.eqb status "Success")); reflexivity.
Qed.

Section ProviderDown.

Variables (I : state -> Prop) (w : world).

Hypothesis samsara_down : forall k, exists e, samsara w k = LocationsFail e.




(** An invariant that looks only at the time of the last notification and at
    the notifications sent, and that survives a failure report, is kept by
    the loop. *)
Hypothesis I_frame :
  forall s s',
    (LAST_ERROR_EMAIL_TIME s', outbox s') = (LAST_ERROR_EMAIL_TIME s, outbox s) ->
    I s -> I s'.
Hypothesis I_alert : forall email s, I s -> I (alert_state email w s).

#[local] Abbreviation watched :=
  (fun s : state => (LAST_ERROR_EMAIL_TIME s, outbox s)).




End ProviderDown.


(** ** The loop: one cycle *)

Lemma get_all_vehicle_data_sheet_calls (w : world) (s : state) :
  sheet_calls (get_all_vehicle_data w s).2 = S (sheet_calls s).
Proof.
  unfold get_all_vehicle_data. rewrite run_bind.
  pose proof (get_vehicle_details_footprint sheet_calls w
                ltac:(intros; reflexivity) ltac:(intros; reflexivity)
                ltac:(intros; reflexivity) ltac:(intros; reflexivity) s) as Hs.
  cbn in Hs.
  destruct (get_vehicle_details w s) as [[r | e] s0]; cbn in Hs; [| exact Hs].
  rewrite <- Hs.
  assert (Hrest : frames sheet_calls w
            (os_environ SAMSARA_SFMTA_GROUP_ID "SAMSARA_SFMTA_GROUP_ID" ≫= int;;
             locations_loop MAX_RETRIES)).
  { apply frames_bind; [| intros _].
    - unfold os_environ.
      apply frames_bind; [| intros v; apply frames_int].
      apply frames_bind; [apply frames_asks | intros v; apply frames_subscript].
    - rewrite locations_loop_retry. apply frames_retry.
      + apply footprint_locations_attempt; intros; reflexivity.
      + apply footprint_locations_exhausted; intros; reflexivity. }
  apply Hrest.
Qed.

Lemma footprint_dispatch_and_wait {X : Type} (proj : state -> X) (w : world)
    (start_time : Z) :
  (forall f s, proj (set_LAST_ERROR_EMAIL_TIME f s) = proj s) ->
  (forall f s, proj (set_clock_reads f s) = proj s) ->
  (forall f s, proj (set_s3_calls f s) = proj s) ->
  (forall f s, proj (set_sfmta_calls f s) = proj s) ->
  (forall f s, proj (set_smtp_calls f s) = proj s) ->
  (forall f s, proj (set_outbox f s) = proj s) ->
  (forall f s, proj (set_accepted f s) = proj s) ->
  (forall f s, proj (set_slept f s) = proj s) ->
  frames proj w (dispatch_and_wait start_time).
Proof.
  intros H1 H2 H3 H4 H5 H6 H7 H8. unfold dispatch_and_wait.
  apply frames_bind; [apply footprint_time_time; assumption | intros _].
  apply frames_bind;
    [apply footprint_push_all_vehicle_data; assumption | intros _].
  apply frames_bind; [apply footprint_time_time; assumption | intros t].
  destruct (decide _);
    [apply footprint_time_sleep; assumption | apply frames_mret].
Qed.

(** Every iteration refreshes the roster exactly once, however it ends. *)
Lemma cycle_sheet_calls (w : world) (s : state) :
  sheet_calls (cycle w s).2 = S (sheet_calls s).
Proof.
  unfold cycle, try_except. rewrite run_cycle_body.
  pose proof (get_all_vehicle_data_sheet_calls w (set_clock_reads S s)) as Hg.
  cbn in Hg.
  destruct (get_all_vehicle_data w (set_clock_reads S s)) as [[status | e] s1];
    cbn in Hg.
  - destruct (negb (String.eqb status "Success")); [exact Hg |].
    pose proof (footprint_dispatch_and_wait sheet_calls w (clock w (clock_reads s))
                  ltac:(intros; reflexivity) ltac:(intros; reflexivity)
                  ltac:(intros; reflexivity) ltac:(intros; reflexivity)
                  ltac:(intros; reflexivity) ltac:(intros; reflexivity)
                  ltac:(intros; reflexivity) ltac:(intros; reflexivity) s1) as Hd.
    destruct (dispatch_and_wait (clock w (clock_reads s)) w s1)
      as [[[] | e] s2]; cbn in Hd.
    + cbn. congruence.
    + rewrite run_cycle_except. cbn [snd].
      rewrite (footprint_alert_state sheet_calls w) by (intros; reflexivity).
      congruence.
  - rewrite run_cycle_except. cbn [snd].
    rewrite (footprint_alert_state sheet_calls w) by (intros; reflexivity).
    exact Hg.
Qed.

(** X17.  While the notification sink accepts every message, no exception
    leaves the loop, whatever the other collaborators do: after any number
    of iterations it is still running, and it has refreshed the roster
    exactly once per iteration. *)
Theorem push_all_data_runs_while_sink_accepts (w : world) (iterations : nat)
    (s : state) :
  (forall k, smtp w k = None) ->
  (push_all_data iterations w s).1 = Return tt
  /\ sheet_calls (push_all_data iterations w s).2
     = (sheet_calls s + iterations)%nat.
Proof.
  intros Hsmtp. revert s.
  induction iterations as [| n IH]; intros s; [cbn; split; [reflexivity | lia] |].
  cbn [push_all_data]. rewrite run_bind.
  pose proof (cycle_returns w s Hsmtp) as Hc.
  pose proof (cycle_sheet_calls w s) as Hs.
  destruct (cycle w s) as [[[] | e] s1]; [| discriminate].
  cbn in Hs. destruct (IH s1) as [Hr Hn].
  split; [exact Hr | rewrite Hn, Hs; lia].
Qed.

(** X18.  A cycle whose location fetch does not return ["Success"] goes
    straight to the next iteration: it builds no payload and makes no
    telemetry request, and it does not sleep. *)
Theorem cycle_after_failed_fetch (w : world) (s : state) :
  (get_all_vehicle_data w (set_clock_reads S s)).1 <> Return "Success" ->
  sfmta_calls (cycle w s).2 = sfmta_calls s
  /\ s3_calls (cycle w s).2 = s3_calls s
  /\ accepted (cycle w s).2 = accepted s
  /\ slept (cycle w s).2 = slept s.
Proof.
  intros Hfail.
  assert (Hstate : exists email,
            (cycle w s).2 = (get_all_vehicle_data w (set_clock_reads S s)).2
            \/ (cycle w s).2
               = alert_state email w
                   (get_all_vehicle_data w (set_clock_reads S s)).2).
  { exists (site_mail CycleFailed).
    unfold cycle, try_except. rewrite run_cycle_body.
    destruct (get_all_vehicle_data w (set_clock_reads S s))
      as [[status | e] s1].
    - destruct (String.eqb_spec status "Success") as [-> | Hne];
        [exfalso; apply Hfail; reflexivity |].
      left. reflexivity.
    - right. rewrite run_cycle_except. reflexivity. }
  destruct Hstate as (email & Hstate).
  assert (Hf : forall {X : Type} (proj : state -> X),
            (forall f s0, proj (set_vehicle_ids f s0) = proj s0) ->
            (forall f s0, proj (set_placards f s0) = proj s0) ->
            (forall f s0, proj (set_license_plates f s0) = proj s0) ->
            (forall f s0, proj (set_vehicle_names f s0) = proj s0) ->
            (forall f s0, proj (set_vehicle_lat f s0) = proj s0) ->
            (forall f s0, proj (set_vehicle_long f s0) = proj s0) ->
            (forall f s0, proj (set_vehicle_onTrip f s0) = proj s0) ->
            (forall f s0, proj (set_LAST_ERROR_EMAIL_TIME f s0) = proj s0) ->
            (forall f s0, proj (set_clock_reads f s0) = proj s0) ->
            (forall f s0, proj (set_sheet_calls f s0) = proj s0) ->
            (forall f s0, proj (set_samsara_calls f s0) = proj s0) ->
            (forall f s0, proj (set_smtp_calls f s0) = proj s0) ->
            (forall f s0, proj (set_outbox f s0) = proj s0) ->
            proj (cycle w s).2 = proj s).
  { intros X proj H1 H2 H3 H4 H5 H6 H7 H8 H9 H10 H11 H12 H13.
    pose proof (footprint_get_all_vehicle_data proj w
                  H1 H2 H3 H4 H5 H6 H7 H8 H9 H10 H11 H12 H13
                  (set_clock_reads S s)) as Hg.
    rewrite H9 in Hg.
    destruct Hstate as [-> | ->]; [exact Hg |].
    rewrite (footprint_alert_state proj w) by assumption. exact Hg. }
  repeat split; apply Hf; intros; reflexivity.
Qed.

(** ** The loop: a healthy cycle *)

Lemma run_dispatch_and_wait (w : world) (start_time : Z) (s : state) :
  dispatch_and_wait start_time w s
  = match push_all_vehicle_data start_time w (set_clock_reads S s) with
    | (Return _, s1) =>
        if decide (FREQUENCY - (clock w (clock_reads s1) - start_time) >= 0)
        then (Return tt,
              set_slept
                (fun l => l ++ [FREQUENCY - (clock w (clock_reads s1) - start_time)])
                (set_clock_reads S s1))
        else (Return tt, set_clock_reads S s1)
    | (Raise e, s1) => (Raise e, s1)
    end.
Proof.
  unfold dispatch_and_wait. rewrite run_bind. unfold time_time at 1.
  cbn beta iota. rewrite run_bind.
  destruct (push_all_vehicle_data start_time w (set_clock_reads S s))
    as [[[] | e] s1]; [| reflexivity].
  rewrite run_bind. unfold time_time at 1. cbn beta iota.
  destruct (decide _); reflexivity.
Qed.

(** X19.  A cycle whose location fetch returns ["Success"] on a non-empty
    roster, every vehicle of which has what its payload needs, and whose
    telemetry requests are all accepted, ends without an exception: exactly
    one body per vehicle of the roster has been accepted, nothing is sent
    beyond what the fetch sent, and at most one sleep, of non-negative
    length, is taken. *)
Theorem cycle_healthy (w : world) (s s1 : state) :
  get_all_vehicle_data w (set_clock_reads S s) = (Return "Success", s1) ->
  vehicle_ids s1 <> ∅ ->
  (forall vehicle_id, vehicle_id ∈ vehicle_ids s1 -> has_payload w s1 vehicle_id) ->
  (forall k, sfmta w k = TelemetryOk) ->
  (cycle w s).1 = Return tt
  /\ length (accepted (cycle w s).2)
     = (length (accepted s1) + size (vehicle_ids s1))%nat
  /\ outbox (cycle w s).2 = outbox s1
  /\ (slept (cycle w s).2 = slept s1
      \/ exists secs, 0 <= secs /\ slept (cycle w s).2 = slept s1 ++ [secs]).
Proof.
  intros Hfetch Hne Hready Hok.
  unfold cycle, try_except. rewrite run_cycle_body, Hfetch.
  change (negb (String.eqb "Success" "Success")) with false. cbn beta iota.
  rewrite run_dispatch_and_wait.
  set (s2 := set_clock_reads S s1).
  destruct (run_push_all_vehicle_data_accepted w s2 (clock w (clock_reads s)))
    as (Hr & Hacc & _ & Hout).
  { exact Hne. }
  { intros v Hv. apply (has_payload_registers w s1 s2 v eq_refl).
    apply Hready. exact Hv. }
  { exact Hok. }
  assert (Hslept : slept (push_all_vehicle_data (clock w (clock_reads s)) w s2).2
                   = slept s2)
    by (apply footprint_push_all_vehicle_data; intros; reflexivity).
  destruct (push_all_vehicle_data (clock w (clock_reads s)) w s2) as [r s3].
  subst s2. cbn in Hr, Hacc, Hout, Hslept. subst r.
  destruct (decide (FREQUENCY - (clock w (clock_reads s3) - clock w (clock_reads s))
                    >= 0)) as [Hge | Hlt]; cbn.
  - split; [reflexivity |]. split; [exact Hacc |]. split; [exact Hout |].
    right. eexists. split; [| rewrite Hslept; reflexivity]. lia.
  - split; [reflexivity |]. split; [exact Hacc |]. split; [exact Hout |].
    left. exact Hslept.
Qed.

(** ** The further statements at sample inputs *)


Lemma get_vehicle_details_bad_status_witness :
  get_vehicle_details bad_status_world listed_state
  = (Return "Success", set_sheet_calls S listed_state)
  /\ get_vehicle_details unreadable_world listed_state
     = (Return ("Error reading vehicle details from Google Sheet" +:+ newline
                +:+ "connection reset by peer"),
        set_sheet_calls S listed_state).
Proof.
  split.
  - destruct (get_vehicle_details_bad_status bad_status_world listed_state 503)
      as [Hread _]; [lia |].
    exact (Hread _ eq_refl).
  - destruct (get_vehicle_details_bad_status unreadable_world listed_state 503)
      as [_ Hunread]; [lia |].
    exact (Hunread _ eq_refl).
Defined.

Lemma get_vehicle_details_missing_feed_witness :
  get_vehicle_details no_feed_world listed_state
  = (Return ("Error reading vehicle details from Google Sheet" +:+ newline
             +:+ str_exn (KeyError "feed")),
     set_vehicle_ids (fun _ => ∅) (set_sheet_calls S listed_state)).
Proof.
  exact (get_vehicle_details_missing_feed no_feed_world listed_state
           {| feed := None |} eq_refl eq_refl).
Defined.

Lemma get_all_vehicle_data_stores_positions_witness :
  (get_all_vehicle_data healthy_world listed_state).1 = Return "Success"
  /\ samsara_calls (get_all_vehicle_data healthy_world listed_state).2 = 1%nat
  /\ vehicle_onTrip (get_all_vehicle_data healthy_world listed_state).2 !! "305"
     = Some true
  /\ vehicle_onTrip (get_all_vehicle_data healthy_world listed_state).2 !! "212"
     = None.
Proof.
  destruct (get_all_vehicle_data_stores_positions healthy_world listed_state
              1234 [position_305] eq_refl eq_refl)
    as (Hr & Hcalls & _ & Hstored).
  split; [exact Hr |]. split; [exact Hcalls |].
  split.
  - destruct (Hstored "305") as (_ & _ & Hflag). exact Hflag.
  - destruct (Hstored "212") as (_ & _ & Hflag). exact Hflag.
Defined.

Lemma get_all_vehicle_data_without_group_id_witness :
  get_all_vehicle_data (with_group_id None tracking_world) listed_state
  = (Raise (KeyError "SAMSARA_SFMTA_GROUP_ID"),
     (get_vehicle_details (with_group_id None tracking_world) listed_state).2)
  /\ samsara_calls
       (get_all_vehicle_data (with_group_id None tracking_world) listed_state).2
     = samsara_calls listed_state.
Proof.
  exact (get_all_vehicle_data_without_group_id
           (with_group_id None tracking_world) listed_state eq_refl).
Defined.

Lemma push_all_vehicle_data_empty_roster_witness :
  push_all_vehicle_data 1700000000 accepting_world initial_state
  = (Raise (ValueError "Number of processes must be at least 1"), initial_state).
Proof.
  exact (push_all_vehicle_data_empty_roster accepting_world initial_state
           1700000000 eq_refl).
Defined.

Lemma has_payload_located (on_trip : bool) :
  has_payload accepting_world (located_state on_trip) "212".
Proof. repeat split; eexists; reflexivity. Qed.

Lemma push_all_vehicle_data_healthy_witness :
  (push_all_vehicle_data 1700000000 accepting_world (located_state true)).1
  = Return tt
  /\ length (accepted (push_all_vehicle_data 1700000000 accepting_world
                         (located_state true)).2) = 1%nat
  /\ outbox (push_all_vehicle_data 1700000000 accepting_world
               (located_state true)).2 = [].
Proof.
  destruct (push_all_vehicle_data_healthy accepting_world (located_state true)
              1700000000) as (Hr & Hacc & _ & Hout).
  - change (vehicle_ids (located_state true)) with ({["212"]} : gset string).
    apply non_empty_singleton_L.
  - intros v Hv.
    change (vehicle_ids (located_state true)) with ({["212"]} : gset string) in Hv.
    apply elem_of_singleton_1 in Hv. subst v. apply has_payload_located.
  - intros k. reflexivity.
  - split; [exact Hr |]. split; [| exact Hout].
    rewrite Hacc.
    change (vehicle_ids (located_state true)) with ({["212"]} : gset string).
    rewrite size_singleton. reflexivity.
Defined.

Lemma cycle_after_failed_fetch_witness :
  sfmta_calls (cycle outage_world initial_state).2 = 0%nat
  /\ s3_calls (cycle outage_world initial_state).2 = 0%nat
  /\ accepted (cycle outage_world initial_state).2 = []
  /\ slept (cycle outage_world initial_state).2 = [].
Proof.
  apply (cycle_after_failed_fetch outage_world initial_state).
  vm_compute. discriminate.
Defined.

Lemma push_all_data_sleeps_are_nonnegative_witness :
  Forall (fun secs => 0 <= secs) (slept (push_all_data 3 healthy_world initial_state).2).
Proof.
  apply (push_all_data_sleeps_are_nonnegative healthy_world 3 initial_state).
  constructor.
Defined.


Lemma push_all_data_runs_while_sink_accepts_witness :
  (push_all_data 3 outage_world initial_state).1 = Return tt
  /\ sheet_calls (push_all_data 3 outage_world initial_state).2 = 3%nat.
Proof.
  apply (push_all_data_runs_while_sink_accepts outage_world 3 initial_state).
  intros k. reflexivity.
Defined.

Lemma cycle_healthy_witness :
  (cycle healthy_world initial_state).1 = Return tt
  /\ length (accepted (cycle healthy_world initial_state).2) = 1%nat
  /\ outbox (cycle healthy_world initial_state).2 = [].
Proof.
  destruct (cycle_healthy healthy_world initial_state served_state)
    as (Hr & Hacc & Hout & _).
  - vm_compute. reflexivity.
  - change (vehicle_ids served_state) with (∅ ∪ {["305"]} : gset string).
    rewrite (left_id_L ∅ (∪)). apply non_empty_singleton_L.
  - intros v Hv.
    change (vehicle_ids served_state) with (∅ ∪ {["305"]} : gset string) in Hv.
    rewrite (left_id_L ∅ (∪)) in Hv.
    apply elem_of_singleton_1 in Hv. subst v.
    repeat split; eexists; reflexivity.
  - intros k. reflexivity.
  - split; [exact Hr |]. split; [| exact Hout].
    rewrite Hacc.
    change (vehicle_ids served_state) with (∅ ∪ {["305"]} : gset string).
    rewrite (left_id_L ∅ (∪)), size_singleton. reflexivity.
Defined.
